(** * AzureOpenAIAgent: session orchestration over the Azure OpenAI backend

    A shallow embedding of [AzureOpenAIAgent] (the TypeScript class that
    follows the shell installer in [src/OpenCode/install.sh]): the token
    estimate, the history truncation, the multi-turn query, and the
    [startSession] driver with its fallback handler.

    Conventions.
    - JavaScript arrays are objects: two references to one array see each
      other's [push] and [unshift].  The arrays of conversation messages live
      in a store ([arrays]) and are named by references ([ArrayRef]).
    - Every function of the class that awaits or mutates is a computation
      [M A]: it takes the world, and returns a value or a thrown error,
      together with the world it leaves behind.
    - The collaborators the class imports (prompt builders, the response
      processor, the error classifiers, [fetch], the settings loader) live
      in other modules; they are the fields of [Collaborators] and every
      theorem holds for all of them.
    - Integers that the code keeps in JavaScript numbers are [Z]; the two
      products with the constants [0.7] and [0.3] are computed in binary64
      ([SpecFloat]), as the engine computes them.  [logger] calls are
      omitted: they do not change any value the code reads. *)

From Stdlib Require Import ZArith String Ascii List Bool Lia SpecFloat.
From stdpp Require Import base option list strings pretty gmap.

Local Open Scope string_scope.
Local Open Scope list_scope.
Local Open Scope Z_scope.

(** ** Constants *)

Definition DEFAULT_AZURE_API_VERSION : string := "2024-10-21".
Definition CHARS_PER_TOKEN_ESTIMATE : Z := 4.
Definition MAX_AZURE_CONTEXT_TOKENS : Z := 128000.

(** ** Data model *)

(** [ConversationMessage] of [worker-types]: [{role, content}], the role being
    ['user'] or ['assistant']. *)
Inductive Role := user | assistant.

Record ConversationMessage := mkMsg { role : Role; content : string }.

(** [OpenAIMessage]: the role may also be ['system']. *)
Inductive OpenAIRole := oa_system | oa_user | oa_assistant.

Record OpenAIMessage := mkOA { oa_role : OpenAIRole; oa_content : string }.

#[global] Instance Role_eq_dec : EqDecision Role.
Proof. solve_decision. Defined.
#[global] Instance ConversationMessage_eq_dec : EqDecision ConversationMessage.
Proof. solve_decision. Defined.

(** A thrown value.  Everything this class throws is [new Error(message)];
    collaborators may throw errors of other names (an aborted [fetch] throws
    one named [AbortError]). *)
Record JsError := mkError { err_name : string; err_message : string }.

Definition Error (message : string) : JsError := mkError "Error" message.

(** ** JavaScript primitives *)

(** [text.length]: the number of code units of the string. *)
Definition js_length (text : string) : Z := Z.of_nat (String.length text).

(** [Math.ceil(a / b)] for integers [a >= 0] and [b > 0] (for [b = 4] the
    binary64 quotient is exact, so the ceiling is the integer one). *)
Definition ceil_div (a b : Z) : Z := (a + b - 1) / b.

(** Truthiness of a string ([''] is falsy) and of an optional string
    ([undefined] is falsy too). *)
Definition truthy (s : string) : bool := negb (String.eqb s "").

Definition truthy_opt (o : option string) : bool :=
  match o with Some s => truthy s | None => false end.

(** [a || b] where [a] may be [undefined] and [b] is a string. *)
Definition or_str (a : option string) (b : string) : string :=
  match a with
  | Some s => if truthy s then s else b
  | None => b
  end.

(** [a || b] where both may be [undefined]. *)
Definition or_opt (a b : option string) : option string :=
  if truthy_opt a then a else b.

(** [tokensUsed || 0].  A token count of the wire is an integer, kept as
    such; where the code computes with it, it is the double [f64_of_Z] gives. *)
Definition or_zero (n : option Z) : Z := default 0 n.

(** *** binary64 *)

Definition f64_mul : spec_float -> spec_float -> spec_float := SFmul 53 1024.
Definition f64_add : spec_float -> spec_float -> spec_float := SFadd 53 1024.

(** The binary64 value of an integer: the nearest double, ties to even, an
    infinity beyond the largest one (exact below [2^53]).  It is the value
    of an integer literal of JSON. *)
Definition f64_of_Z (n : Z) : spec_float := binary_normalize 53 1024 n 0 false.

(** The literals [0.7] and [0.3]: the doubles nearest to 7/10 and 3/10. *)
Definition f64_0_7 : spec_float := S754_finite false 6305039478318694 (-53).
Definition f64_0_3 : spec_float := S754_finite false 5404319552844595 (-54).

(** The integer part (towards minus infinity) of a finite double; NaN and
    the infinities have none. *)
Definition integer_value (x : spec_float) : option Z :=
  match x with
  | S754_zero _ => Some 0
  | S754_finite s m e => Some (Z.shiftl (cond_Zopp s (Zpos m)) e)
  | S754_infinity _ | S754_nan => None
  end.

(** [Math.floor]: NaN, the infinities and the two zeros come back as they
    are, and so does a finite double that has no fraction bits; any other
    double is below [2^53] in magnitude, so that the integer below it is a
    double. *)
Definition Math_floor (x : spec_float) : spec_float :=
  match x with
  | S754_finite s m e =>
      if 0 <=? e then x else f64_of_Z (Z.shiftl (cond_Zopp s (Zpos m)) e)
  | S754_zero _ | S754_infinity _ | S754_nan => x
  end.

(** [Math.floor(tokensUsed * c)] *)
Definition floor_scaled (tokensUsed : Z) (c : spec_float) : spec_float :=
  Math_floor (f64_mul (f64_of_Z tokensUsed) c).

(** ** The session, the work items and the wire types *)

(** A reference to an array of conversation messages. *)
Abbreviation ArrayRef := nat (only parsing).

(** [ActiveSession] of [worker-types], with the fields this class uses.
    [memorySessionId] and [earliestPendingTimestamp] may be [null]. *)
Record ActiveSession := mkSession {
  sessionDbId : Z;
  contentSessionId : string;
  memorySessionId : option string;
  project : string;
  userPrompt : string;
  lastPromptNumber : Z;
  cumulativeInputTokens : spec_float;
  cumulativeOutputTokens : spec_float;
  startTime : Z;
  conversationHistory : ArrayRef;
  processingMessageIds : list Z;
  earliestPendingTimestamp : option Z
}.

Definition set_memorySessionId (v : option string) (s : ActiveSession) :=
  mkSession (sessionDbId s) (contentSessionId s) v (project s) (userPrompt s)
    (lastPromptNumber s) (cumulativeInputTokens s) (cumulativeOutputTokens s)
    (startTime s) (conversationHistory s) (processingMessageIds s)
    (earliestPendingTimestamp s).

Definition set_lastPromptNumber (v : Z) (s : ActiveSession) :=
  mkSession (sessionDbId s) (contentSessionId s) (memorySessionId s) (project s)
    (userPrompt s) v (cumulativeInputTokens s) (cumulativeOutputTokens s)
    (startTime s) (conversationHistory s) (processingMessageIds s)
    (earliestPendingTimestamp s).

Definition set_cumulativeInputTokens (v : spec_float) (s : ActiveSession) :=
  mkSession (sessionDbId s) (contentSessionId s) (memorySessionId s) (project s)
    (userPrompt s) (lastPromptNumber s) v (cumulativeOutputTokens s)
    (startTime s) (conversationHistory s) (processingMessageIds s)
    (earliestPendingTimestamp s).

Definition set_cumulativeOutputTokens (v : spec_float) (s : ActiveSession) :=
  mkSession (sessionDbId s) (contentSessionId s) (memorySessionId s) (project s)
    (userPrompt s) (lastPromptNumber s) (cumulativeInputTokens s) v
    (startTime s) (conversationHistory s) (processingMessageIds s)
    (earliestPendingTimestamp s).

Definition set_processingMessageIds (v : list Z) (s : ActiveSession) :=
  mkSession (sessionDbId s) (contentSessionId s) (memorySessionId s) (project s)
    (userPrompt s) (lastPromptNumber s) (cumulativeInputTokens s)
    (cumulativeOutputTokens s) (startTime s) (conversationHistory s) v
    (earliestPendingTimestamp s).

(** A work item yielded by the message iterator; its [type] is
    ['observation'] or ['summarize'].  [tool_input] and [tool_response] hold
    the [JSON.stringify] image of the value, the only way the class reads
    them. *)
Inductive MessageType := observation | summarize.

Record PendingMessage := mkPending {
  persistentId : Z;
  msg_type : MessageType;
  cwd : option string;
  prompt_number : option Z;
  tool_name : string;
  tool_input : string;
  tool_response : string;
  last_assistant_message : option string
}.

(** One step of the [for await] loop: the iterator yields an item or throws. *)
Inductive IterStep := Yield (message : PendingMessage) | IterThrow (e : JsError).

(** The argument objects of the prompt builders. *)
Record ObservationInput := mkObsInput {
  obs_id : Z;
  obs_tool_name : string;
  obs_tool_input : string;
  obs_tool_output : string;
  obs_created_at_epoch : Z;
  obs_cwd : option string
}.

Record SummaryInput := mkSumInput {
  sum_id : Z;
  sum_memory_session_id : string;
  sum_project : string;
  sum_user_prompt : string;
  sum_last_assistant_message : string
}.

(** [AzureChatCompletionsResponse]; every field is optional. *)
Record ChoiceMessage := mkChoiceMessage {
  cm_role : option string;
  cm_content : option string
}.

Record Choice := mkChoice {
  ch_message : option ChoiceMessage;
  ch_finish_reason : option string
}.

Record Usage := mkUsage {
  prompt_tokens : option Z;
  completion_tokens : option Z;
  total_tokens : option Z
}.

Record ApiErrorBody := mkApiError {
  ae_message : option string;
  ae_code : option string
}.

Record AzureChatCompletionsResponse := mkResponse {
  choices : option (list Choice);
  usage : option Usage;
  error : option ApiErrorBody
}.

(** What [fetch] resolves to: [response.ok], [response.status], and the
    results of awaiting [response.text()] and [response.json()]. *)
Record HttpResponse := mkHttp {
  ok : bool;
  status : Z;
  text : JsError + string;
  json : JsError + AzureChatCompletionsResponse
}.

(** The request handed to [fetch]: the URL, the [api-key] header and the
    body [{messages, temperature: 0.3, max_completion_tokens: 4096}]. *)
Record Request := mkRequest {
  req_url : string;
  req_api_key : string;
  req_messages : list OpenAIMessage;
  req_temperature : spec_float;
  req_max_completion_tokens : Z
}.

(** The settings object and the configuration read from it. *)
Record Settings := mkSettings {
  CLAUDE_MEM_AZURE_OPENAI_API_KEY : option string;
  CLAUDE_MEM_AZURE_OPENAI_ENDPOINT : option string;
  CLAUDE_MEM_AZURE_OPENAI_MODEL : option string;
  CLAUDE_MEM_AZURE_OPENAI_API_VERSION : option string;
  CLAUDE_MEM_PROVIDER : option string
}.

Record Config := mkConfig {
  apiKey : string;
  endpoint : string;
  model : string;
  apiVersion : string
}.

(** The value [queryAzureOpenAIMultiTurn] resolves to. *)
Record QueryResult := mkResult { res_content : string; res_tokensUsed : option Z }.

(** ** Worlds and computations *)

Section Agent.

(** [Ext] is the state of everything outside the session object: the
    database, the settings file, the clock, the remote service.  [Mode] is
    the active mode object handed to the prompt builders. *)
Context {Ext Mode : Type}.

Record World := mkWorld {
  arrays : list (list ConversationMessage);
  session : ActiveSession;
  requests : list Request;
  ext : Ext
}.

Definition M (A : Type) : Type := World -> (JsError + A) * World.

Definition ret {A} (a : A) : M A := fun w => (inr a, w).

Definition throw {A} (e : JsError) : M A := fun w => (inl e, w).

Definition bind {A B} (m : M A) (k : A -> M B) : M B :=
  fun w =>
    match m w with
    | (inr a, w') => k a w'
    | (inl e, w') => (inl e, w')
    end.

Definition gets {A} (f : World -> A) : M A := fun w => (inr (f w), w).

Definition modify (f : World -> World) : M unit := fun w => (inr tt, f w).

(** Awaiting a promise that has already settled. *)
Definition settled {A} (r : JsError + A) : M A :=
  match r with inr a => ret a | inl e => throw e end.

(** A collaborator that can only touch the outside state. *)
Definition outside {A} (f : Ext -> (JsError + A) * Ext) : M A :=
  fun w =>
    let '(r, x) := f (ext w) in
    (r, mkWorld (arrays w) (session w) (requests w) x).

Definition set_arrays (a : list (list ConversationMessage)) (w : World) : World :=
  mkWorld a (session w) (requests w) (ext w).

Definition set_session (s : ActiveSession) (w : World) : World :=
  mkWorld (arrays w) s (requests w) (ext w).

Definition set_requests (r : list Request) (w : World) : World :=
  mkWorld (arrays w) (session w) r (ext w).

End Agent.

Arguments World : clear implicits.
Arguments M : clear implicits.

Declare Scope js_scope.
Delimit Scope js_scope with js.
Notation "'let!' x ':=' m 'in' k" := (bind m (fun x => k))
  (at level 10, x name, m at level 100, k at level 200) : js_scope.
Notation "m ';;' k" := (bind m (fun _ => k))
  (at level 100, k at level 200, right associativity) : js_scope.

(** ** Collaborators

    The imports of the class whose code is outside this file.  The prompt
    builders are pure; [processAgentResponse] receives the session object
    and may change anything; [fetch], the settings loader, the clock and the
    session store only see the outside state. *)
Record FallbackAgent {Ext : Type} := mkFallback {
  fallback_startSession : M Ext unit
}.
Arguments FallbackAgent : clear implicits.

Record Collaborators {Ext Mode : Type} := mkCollaborators {
  (* sdk/prompts *)
  buildInitPrompt : string -> string -> string -> Mode -> string;
  buildContinuationPrompt : string -> Z -> string -> Mode -> string;
  buildObservationPrompt : ObservationInput -> string;
  buildSummaryPrompt : SummaryInput -> Mode -> string;
  (* ModeManager.getInstance().getActiveMode() *)
  getActiveMode : Ext -> Mode;
  (* SettingsDefaultsManager.loadFromFile(USER_SETTINGS_PATH), getCredential *)
  loadFromFile : Ext -> Settings;
  getCredential : string -> Ext -> option string;
  (* Date.now() *)
  Date_now : Ext -> Z;
  (* dbManager.getSessionStore().updateMemorySessionId *)
  updateMemorySessionId : Z -> string -> Ext -> (JsError + unit) * Ext;
  (* sessionManager.getMessageIterator(sessionDbId): what it yields in this pass *)
  getMessageIterator : Z -> list IterStep;
  (* fetch(url, init) and encodeURIComponent *)
  fetch : Request -> Ext -> (JsError + HttpResponse) * Ext;
  encodeURIComponent : string -> string;
  (* agents/index: processAgentResponse(text, session, dbManager,
     sessionManager, worker, tokensUsed, originalTimestamp, agentName, cwd) *)
  processAgentResponse :
    string -> Z -> option Z -> string -> option string -> M Ext unit;
  (* agents/index: the two error classifiers *)
  isAbortError : JsError -> bool;
  shouldFallbackToClaude : JsError -> bool
}.
Arguments Collaborators : clear implicits.

(** The agent object: its fallback agent is [null] until [setFallbackAgent]. *)
Record AzureOpenAIAgent {Ext : Type} := mkAgent {
  fallbackAgent : option (FallbackAgent Ext)
}.
Arguments AzureOpenAIAgent : clear implicits.

Definition setFallbackAgent {Ext} (agent : FallbackAgent Ext)
  (this : AzureOpenAIAgent Ext) : AzureOpenAIAgent Ext :=
  mkAgent Ext (Some agent).

(** ** The methods of the class *)

Section Methods.

Context {Ext Mode : Type}.
Variable env : Collaborators Ext Mode.

Local Open Scope js_scope.

(** *** Arrays *)

(** The elements of the array behind a reference. *)
Definition elements (r : ArrayRef) (w : World Ext) : list ConversationMessage :=
  default [] (arrays w !! r).

(** [[]]: a new, empty array. *)
Definition newArray : M Ext ArrayRef :=
  fun w => (inr (length (arrays w)), set_arrays (arrays w ++ [[]]) w).

(** [a.push(msg)] *)
Definition push (a : ArrayRef) (msg : ConversationMessage) : M Ext unit :=
  modify (fun w => set_arrays (alter (fun l => l ++ [msg]) a (arrays w)) w).

(** [a.unshift(msg)] *)
Definition unshift (a : ArrayRef) (msg : ConversationMessage) : M Ext unit :=
  modify (fun w => set_arrays (alter (fun l => msg :: l) a (arrays w)) w).

(** *** estimateTokens *)

Definition estimateTokens (text : string) : Z :=
  ceil_div (js_length text) CHARS_PER_TOKEN_ESTIMATE.

(** [history.reduce((sum, m) => sum + this.estimateTokens(m.content), 0)] *)
Definition totalTokens (h : list ConversationMessage) : Z :=
  fold_left (fun sum m => sum + estimateTokens (content m)) h 0.

(** *** truncateHistory *)

(** The [for] loop, entered with [i = n - 1]; it stops at [n = 0] or at the
    [break].  Reading [history[i]] outside the array gives [undefined], whose
    [content] is a [TypeError]. *)
Fixpoint truncateLoop (history truncated : ArrayRef) (n : nat) (tokenCount : Z)
  : M Ext unit :=
  match n with
  | O => ret tt
  | S i =>
      let! h := gets (elements history) in
      match h !! i with
      | None =>
          throw (mkError "TypeError"
                   "Cannot read properties of undefined (reading 'content')")
      | Some msg =>
          let msgTokens := estimateTokens (content msg) in
          if tokenCount + msgTokens >? MAX_AZURE_CONTEXT_TOKENS then ret tt
          else
            unshift truncated msg ;;
            truncateLoop history truncated i (tokenCount + msgTokens)
      end
  end.

Definition truncateHistory (history : ArrayRef) : M Ext ArrayRef :=
  let! h := gets (elements history) in
  if totalTokens h <=? MAX_AZURE_CONTEXT_TOKENS then ret history
  else
    let! truncated := newArray in
    truncateLoop history truncated (length h) 0 ;;
    ret truncated.

(** *** conversationToOpenAIMessages *)

Definition toOpenAIMessage (msg : ConversationMessage) : OpenAIMessage :=
  mkOA (match role msg with assistant => oa_assistant | user => oa_user end)
       (content msg).

Definition conversationToOpenAIMessages (history : ArrayRef)
  : M Ext (list OpenAIMessage) :=
  let! h := gets (elements history) in
  ret (map toOpenAIMessage h).

(** *** normalizeEndpoint: [endpoint.replace(/\/+$/, '')] *)

Fixpoint normalizeEndpoint (endpoint : string) : string :=
  match endpoint with
  | EmptyString => EmptyString
  | String c rest =>
      match normalizeEndpoint rest with
      | EmptyString => if Ascii.eqb c "/" then EmptyString else String c EmptyString
      | rest' => String c rest'
      end
  end.

(** *** queryAzureOpenAIMultiTurn *)

(** [fetch(url, {...})]: the request leaves the process, then the outside
    world answers. *)
Definition doFetch (req : Request) : M Ext HttpResponse :=
  modify (fun w => set_requests (requests w ++ [req]) w) ;;
  outside (fetch env req).

(** [data.choices?.[0]?.message?.content] *)
Definition firstChoiceContent (data : AzureChatCompletionsResponse) : option string :=
  match choices data with
  | Some (c :: _) =>
      match ch_message c with
      | Some m => cm_content m
      | None => None
      end
  | _ => None
  end.

(** [data.usage?.total_tokens] *)
Definition usageTotal (data : AzureChatCompletionsResponse) : option Z :=
  match usage data with
  | Some u => total_tokens u
  | None => None
  end.

Definition queryAzureOpenAIMultiTurn (history : ArrayRef)
  (apiKey endpoint model apiVersion : string) : M Ext QueryResult :=
  let normalizedEndpoint := normalizeEndpoint endpoint in
  let! truncatedHistory := truncateHistory history in
  let! messages := conversationToOpenAIMessages truncatedHistory in
  let url :=
    normalizedEndpoint +:+ "/openai/deployments/" +:+ encodeURIComponent env model
    +:+ "/chat/completions?api-version=" +:+ encodeURIComponent env apiVersion in
  let body_temperature := f64_0_3 in
  let body_max_completion_tokens := 4096 in
  let! response :=
    doFetch (mkRequest url apiKey messages body_temperature body_max_completion_tokens) in
  if negb (ok response) then
    let! errorText := settled (text response) in
    throw (Error ("Azure OpenAI API error: " +:+ pretty (status response)
                  +:+ " - " +:+ errorText))
  else
    let! data := settled (json response) in
    match error data with
    | Some err =>
        throw (Error ("Azure OpenAI API error: " +:+ or_str (ae_code err) "unknown"
                      +:+ " - " +:+ or_str (ae_message err) "Unknown error"))
    | None =>
        let content := firstChoiceContent data in
        match content with
        | Some c =>
            if negb (truthy c) then ret (mkResult "" None)
            else
              let tokensUsed := usageTotal data in
              ret (mkResult c tokensUsed)
        | None => ret (mkResult "" None)
        end
    end.

(** *** getAzureOpenAIConfig *)

Definition getAzureOpenAIConfig (x : Ext) : Config :=
  let settings := loadFromFile env x in
  let apiKey :=
    or_str (or_opt (CLAUDE_MEM_AZURE_OPENAI_API_KEY settings)
                   (getCredential env "AZURE_OPENAI_API_KEY" x)) "" in
  let endpoint := or_str (CLAUDE_MEM_AZURE_OPENAI_ENDPOINT settings) "" in
  let model := or_str (CLAUDE_MEM_AZURE_OPENAI_MODEL settings) "" in
  let apiVersion :=
    or_str (CLAUDE_MEM_AZURE_OPENAI_API_VERSION settings) DEFAULT_AZURE_API_VERSION in
  mkConfig apiKey endpoint model apiVersion.

(** *** startSession *)

Definition API_KEY_NOT_CONFIGURED : string :=
  "Azure OpenAI API key not configured. Set CLAUDE_MEM_AZURE_OPENAI_API_KEY in settings or AZURE_OPENAI_API_KEY environment variable.".

Definition ENDPOINT_OR_MODEL_NOT_CONFIGURED : string :=
  "Azure OpenAI endpoint or model not configured. Set CLAUDE_MEM_AZURE_OPENAI_ENDPOINT and CLAUDE_MEM_AZURE_OPENAI_MODEL in settings.".

Definition CANNOT_PROCESS_OBSERVATIONS : string :=
  "Cannot process observations: memorySessionId not yet captured. This session may need to be reinitialized.".

Definition CANNOT_PROCESS_SUMMARY : string :=
  "Cannot process summary: memorySessionId not yet captured. This session may need to be reinitialized.".

Definition AGENT_NAME : string := "AzureOpenAI".

(** Assignments to fields of the session object. *)
Definition updateSession (f : ActiveSession -> ActiveSession) : M Ext unit :=
  modify (fun w => set_session (f (session w)) w).

(** [session.cumulativeInputTokens += n] and its twin: the counters are
    numbers, and [+=] adds in binary64. *)
Definition addInputTokens (n : spec_float) : M Ext unit :=
  updateSession (fun s =>
    set_cumulativeInputTokens (f64_add (cumulativeInputTokens s) n) s).

Definition addOutputTokens (n : spec_float) : M Ext unit :=
  updateSession (fun s =>
    set_cumulativeOutputTokens (f64_add (cumulativeOutputTokens s) n) s).

(** Reading [session.conversationHistory]. *)
Definition historyRef : M Ext ArrayRef :=
  gets (fun w => conversationHistory (session w)).

(** [azure-openai-${session.contentSessionId}-${Date.now()}] *)
Definition syntheticId (contentSessionId : string) (now : Z) : string :=
  "azure-openai-" +:+ contentSessionId +:+ "-" +:+ pretty now.

(** Lines 132-138: the handle is generated when the session has none. *)
Definition assignMemorySessionId : M Ext unit :=
  let! s := gets session in
  if negb (truthy_opt (memorySessionId s)) then
    let! now := gets (fun w => Date_now env (ext w)) in
    let syntheticMemorySessionId := syntheticId (contentSessionId s) now in
    updateSession (set_memorySessionId (Some syntheticMemorySessionId)) ;;
    outside (updateMemorySessionId env (sessionDbId s) syntheticMemorySessionId)
  else ret tt.

(** Lines 140-177: the first turn of the pass. *)
Definition initTurn (cfg : Config) (mode : Mode) : M Ext unit :=
  let! s := gets session in
  let initPrompt :=
    if lastPromptNumber s =? 1
    then buildInitPrompt env (project s) (contentSessionId s) (userPrompt s) mode
    else buildContinuationPrompt env (userPrompt s) (lastPromptNumber s)
           (contentSessionId s) mode in
  (let! h := historyRef in push h (mkMsg user initPrompt)) ;;
  let! h := historyRef in
  let! initResponse :=
    queryAzureOpenAIMultiTurn h (apiKey cfg) (endpoint cfg) (model cfg) (apiVersion cfg) in
  if truthy (res_content initResponse) then
    (let! h := historyRef in push h (mkMsg assistant (res_content initResponse))) ;;
    let tokensUsed := or_zero (res_tokensUsed initResponse) in
    addInputTokens (floor_scaled tokensUsed f64_0_7) ;;
    addOutputTokens (floor_scaled tokensUsed f64_0_3) ;;
    processAgentResponse env (res_content initResponse) tokensUsed None AGENT_NAME None
  else ret tt.

(** Lines 216-223 and 258-265: [let tokensUsed = 0; if (response.content) {...}]. *)
Definition recordReply (response : QueryResult) : M Ext Z :=
  if truthy (res_content response) then
    (let! h := historyRef in push h (mkMsg assistant (res_content response))) ;;
    let tokensUsed := or_zero (res_tokensUsed response) in
    addInputTokens (floor_scaled tokensUsed f64_0_7) ;;
    addOutputTokens (floor_scaled tokensUsed f64_0_3) ;;
    ret tokensUsed
  else ret 0.

(** Lines 182-278: the body of the [for await] loop for one item; it
    returns the new value of [lastCwd]. *)
Definition loopBody (cfg : Config) (mode : Mode) (message : PendingMessage)
  (lastCwd : option string) : M Ext (option string) :=
  updateSession (fun s =>
    set_processingMessageIds (processingMessageIds s ++ [persistentId message]) s) ;;
  let lastCwd := if truthy_opt (cwd message) then cwd message else lastCwd in
  let! originalTimestamp := gets (fun w => earliestPendingTimestamp (session w)) in
  match msg_type message with
  | observation =>
      match prompt_number message with
      | Some n => updateSession (set_lastPromptNumber n)
      | None => ret tt
      end ;;
      let! s := gets session in
      if negb (truthy_opt (memorySessionId s)) then
        throw (Error CANNOT_PROCESS_OBSERVATIONS)
      else
        let! now := gets (fun w => Date_now env (ext w)) in
        let obsPrompt :=
          buildObservationPrompt env
            (mkObsInput 0 (tool_name message) (tool_input message)
               (tool_response message) (default now originalTimestamp)
               (cwd message)) in
        (let! h := historyRef in push h (mkMsg user obsPrompt)) ;;
        let! h := historyRef in
        let! obsResponse :=
          queryAzureOpenAIMultiTurn h (apiKey cfg) (endpoint cfg) (model cfg)
            (apiVersion cfg) in
        let! tokensUsed := recordReply obsResponse in
        processAgentResponse env (or_str (Some (res_content obsResponse)) "")
          tokensUsed originalTimestamp AGENT_NAME lastCwd ;;
        ret lastCwd
  | summarize =>
      let! s := gets session in
      match memorySessionId s with
      | Some memId =>
          if negb (truthy memId) then throw (Error CANNOT_PROCESS_SUMMARY)
          else
            let summaryPrompt :=
              buildSummaryPrompt env
                (mkSumInput (sessionDbId s) memId (project s) (userPrompt s)
                   (or_str (last_assistant_message message) "")) mode in
            (let! h := historyRef in push h (mkMsg user summaryPrompt)) ;;
            let! h := historyRef in
            let! summaryResponse :=
              queryAzureOpenAIMultiTurn h (apiKey cfg) (endpoint cfg) (model cfg)
                (apiVersion cfg) in
            let! tokensUsed := recordReply summaryResponse in
            processAgentResponse env (or_str (Some (res_content summaryResponse)) "")
              tokensUsed originalTimestamp AGENT_NAME lastCwd ;;
            ret lastCwd
      | None => throw (Error CANNOT_PROCESS_SUMMARY)
      end
  end.

(** The [for await] loop over what the iterator yields. *)
Fixpoint messageLoop (cfg : Config) (mode : Mode) (items : list IterStep)
  (lastCwd : option string) : M Ext unit :=
  match items with
  | [] => ret tt
  | IterThrow e :: _ => throw e
  | Yield message :: rest =>
      let! lastCwd' := loopBody cfg mode message lastCwd in
      messageLoop cfg mode rest lastCwd'
  end.

(** Lines 121-287: the [try] block. *)
Definition startSession_try : M Ext unit :=
  let! cfg := gets (fun w => getAzureOpenAIConfig (ext w)) in
  if negb (truthy (apiKey cfg)) then throw (Error API_KEY_NOT_CONFIGURED)
  else if negb (truthy (endpoint cfg)) || negb (truthy (model cfg)) then
    throw (Error ENDPOINT_OR_MODEL_NOT_CONFIGURED)
  else
    assignMemorySessionId ;;
    let! mode := gets (fun w => getActiveMode env (ext w)) in
    initTurn cfg mode ;;
    let! s := gets session in
    messageLoop cfg mode (getMessageIterator env (sessionDbId s)) None.

(** Lines 288-306: the [catch] block. *)
Definition startSession_catch (this : AzureOpenAIAgent Ext) (error : JsError)
  : M Ext unit :=
  if isAbortError env error then throw error
  else
    match fallbackAgent this with
    | Some agent =>
        if shouldFallbackToClaude env error then fallback_startSession agent
        else throw error
    | None => throw error
    end.

Definition startSession (this : AzureOpenAIAgent Ext) : M Ext unit :=
  fun w =>
    match startSession_try w with
    | (inr tt, w') => (inr tt, w')
    | (inl error, w') => startSession_catch this error w'
    end.

(** *** The phases of a turn

    Each turn of the pass has the same three phases, written out in the
    source at its three call sites: the prompt is assembled, it is appended
    and the backend is asked, and the reply is recorded and handed to the
    response processor.  [initTurn_phases] and [loopBody_phases] below show
    that the turns above are these phases in sequence. *)

(** Lines 146-153, 207-214, 249-256. *)
Definition askBackend (cfg : Config) (prompt : string) : M Ext QueryResult :=
  (let! h := historyRef in push h (mkMsg user prompt)) ;;
  let! h := historyRef in
  queryAzureOpenAIMultiTurn h (apiKey cfg) (endpoint cfg) (model cfg) (apiVersion cfg).

(** Lines 142-144. *)
Definition initPromptOf (mode : Mode) (s : ActiveSession) : string :=
  if lastPromptNumber s =? 1
  then buildInitPrompt env (project s) (contentSessionId s) (userPrompt s) mode
  else buildContinuationPrompt env (userPrompt s) (lastPromptNumber s)
         (contentSessionId s) mode.

(** Lines 155-177. *)
Definition handleInitReply (initResponse : QueryResult) : M Ext unit :=
  if truthy (res_content initResponse) then
    (let! h := historyRef in push h (mkMsg assistant (res_content initResponse))) ;;
    let tokensUsed := or_zero (res_tokensUsed initResponse) in
    addInputTokens (floor_scaled tokensUsed f64_0_7) ;;
    addOutputTokens (floor_scaled tokensUsed f64_0_3) ;;
    processAgentResponse env (res_content initResponse) tokensUsed None AGENT_NAME None
  else ret tt.

(** Lines 182-205 and 237-247: everything before the prompt is appended.
    It returns the prompt, [originalTimestamp] and the new [lastCwd]. *)
Definition prepareItem (mode : Mode) (message : PendingMessage)
  (lastCwd : option string) : M Ext (string * option Z * option string) :=
  updateSession (fun s =>
    set_processingMessageIds (processingMessageIds s ++ [persistentId message]) s) ;;
  let lastCwd := if truthy_opt (cwd message) then cwd message else lastCwd in
  let! originalTimestamp := gets (fun w => earliestPendingTimestamp (session w)) in
  match msg_type message with
  | observation =>
      match prompt_number message with
      | Some n => updateSession (set_lastPromptNumber n)
      | None => ret tt
      end ;;
      let! s := gets session in
      if negb (truthy_opt (memorySessionId s)) then
        throw (Error CANNOT_PROCESS_OBSERVATIONS)
      else
        let! now := gets (fun w => Date_now env (ext w)) in
        ret (buildObservationPrompt env
               (mkObsInput 0 (tool_name message) (tool_input message)
                  (tool_response message) (default now originalTimestamp)
                  (cwd message)),
             originalTimestamp, lastCwd)
  | summarize =>
      let! s := gets session in
      match memorySessionId s with
      | Some memId =>
          if negb (truthy memId) then throw (Error CANNOT_PROCESS_SUMMARY)
          else
            ret (buildSummaryPrompt env
                   (mkSumInput (sessionDbId s) memId (project s) (userPrompt s)
                      (or_str (last_assistant_message message) "")) mode,
                 originalTimestamp, lastCwd)
      | None => throw (Error CANNOT_PROCESS_SUMMARY)
      end
  end.

(** Lines 216-235 and 258-277. *)
Definition handleReply (response : QueryResult) (originalTimestamp : option Z)
  (lastCwd : option string) : M Ext (option string) :=
  let! tokensUsed := recordReply response in
  processAgentResponse env (or_str (Some (res_content response)) "")
    tokensUsed originalTimestamp AGENT_NAME lastCwd ;;
  ret lastCwd.

(** [try { body } catch (error) { ... }] of [startSession]. *)
Definition tryCatch (this : AzureOpenAIAgent Ext) (body : M Ext unit) : M Ext unit :=
  fun w =>
    match body w with
    | (inr tt, w') => (inr tt, w')
    | (inl error, w') => startSession_catch this error w'
    end.

(** The world in which [askBackend] calls the backend: the prompt has been
    appended to the session's history array. *)
Definition promptAppended (prompt : string) (w : World Ext) : World Ext :=
  set_arrays
    (alter (fun l => l ++ [mkMsg user prompt]) (conversationHistory (session w))
       (arrays w)) w.

(** *** isAzureOpenAIAvailable, isAzureOpenAISelected *)

Definition isAzureOpenAIAvailable (x : Ext) : bool :=
  let settings := loadFromFile env x in
  let apiKey :=
    or_str (or_opt (CLAUDE_MEM_AZURE_OPENAI_API_KEY settings)
                   (getCredential env "AZURE_OPENAI_API_KEY" x)) "" in
  let endpoint := or_str (CLAUDE_MEM_AZURE_OPENAI_ENDPOINT settings) "" in
  let model := or_str (CLAUDE_MEM_AZURE_OPENAI_MODEL settings) "" in
  truthy apiKey && truthy endpoint && truthy model.

Definition isAzureOpenAISelected (x : Ext) : bool :=
  match CLAUDE_MEM_PROVIDER (loadFromFile env x) with
  | Some provider => String.eqb provider "azure"
  | None => false
  end.

End Methods.

(** ** Notions used in the statements *)

(** The loop body over the items of a list in order, as the [for await]
    loop runs it: the working directory each item leaves is handed to the
    next. *)
Fixpoint loopOver {Ext Mode} (env : Collaborators Ext Mode) (cfg : Config)
  (mode : Mode) (items : list PendingMessage) (lastCwd : option string)
  : M Ext (option string) :=
  match items with
  | [] => ret lastCwd
  | message :: rest =>
      bind (loopBody env cfg mode message lastCwd) (loopOver env cfg mode rest)
  end.

(** The claim that the newest entry is never dropped, at one history. *)
Definition keeps_newest {Ext} (history : ArrayRef) (w : World Ext) : Prop :=
  forall (truncated : ArrayRef) w',
    truncateHistory history w = (inr truncated, w') ->
    last (elements truncated w') = last (elements history w).

(** The share of 7/10 taken with exact arithmetic. *)
Definition exact_share (tokens_used numerator : Z) : Z :=
  tokens_used * numerator / 10.

(** The two shares of [t] tokens are the exact ones, up to one token less for
    the input share. *)
Definition share_close (t : Z) : bool :=
  bool_decide (integer_value (floor_scaled t f64_0_3) = Some (exact_share t 3))
  && (bool_decide (integer_value (floor_scaled t f64_0_7) = Some (exact_share t 7))
      || bool_decide (integer_value (floor_scaled t f64_0_7)
                      = Some (exact_share t 7 - 1))).

Fixpoint all_from (p : Z -> bool) (t : Z) (n : nat) : bool :=
  match n with
  | O => true
  | S k => p t && all_from p (t + 1) k
  end.

(** * Scenarios

    A concrete outside world and collaborators, on which the theorems below
    are run. *)

Module Demo.

(** The outside of the runs below: a clock, the settings file, the
    credential store, and the answers the remote service will give, in
    order. *)
Record Outside := mkOutside {
  now : Z;
  settings_file : Settings;
  credential : option string;
  answers : list (JsError + HttpResponse)
}.

Definition fetch_next (req : Request) (x : Outside)
  : (JsError + HttpResponse) * Outside :=
  match answers x with
  | [] => (inl (mkError "TypeError" "fetch failed"), x)
  | a :: rest =>
      (a, mkOutside (now x + 1) (settings_file x) (credential x) rest)
  end.

(** Modelled from the spec: [isAbortError] is imported from [agents/index],
    whose code is not part of the class.  A cancellation is the error an
    aborted operation raises (sections 4.5 and 5), which [fetch] names
    [AbortError]. *)
Definition spec_isAbortError (e : JsError) : bool :=
  String.eqb (err_name e) "AbortError".

(** Modelled from the spec: [shouldFallbackToClaude] is imported from
    [agents/index], whose code is not part of the class.  Section 4.5: a
    failure is retryable-to-fallback if it is a configuration, transport, or
    provider error on the current backend (not a cancellation); section 7:
    [PreconditionFailed] is fatal. *)
Definition spec_shouldFallbackToClaude (e : JsError) : bool :=
  negb (spec_isAbortError e)
  && negb (String.prefix "Cannot process" (err_message e)).

Definition env (items : list IterStep) : Collaborators Outside unit :=
  {| buildInitPrompt := fun project cs prompt _ => "init:" +:+ prompt;
     buildContinuationPrompt := fun prompt n cs _ => "continue:" +:+ prompt;
     buildObservationPrompt := fun o => "observed:" +:+ obs_tool_name o;
     buildSummaryPrompt := fun s _ => "summarize:" +:+ sum_last_assistant_message s;
     getActiveMode := fun _ => tt;
     loadFromFile := settings_file;
     getCredential := fun _ => credential;
     Date_now := now;
     updateMemorySessionId := fun _ _ x => (inr tt, x);
     getMessageIterator := fun _ => items;
     fetch := fetch_next;
     encodeURIComponent := fun s => s;
     processAgentResponse := fun _ _ _ _ _ => ret tt;
     isAbortError := spec_isAbortError;
     shouldFallbackToClaude := spec_shouldFallbackToClaude |}.

Definition settings_ok : Settings :=
  mkSettings (Some "key") (Some "https://x.openai.azure.com/") (Some "gpt") None
    (Some "azure").

Definition settings_no_key : Settings :=
  mkSettings None (Some "https://x.openai.azure.com/") (Some "gpt") None
    (Some "azure").

Definition cfg_ok : Config :=
  mkConfig "key" "https://x.openai.azure.com/" "gpt" DEFAULT_AZURE_API_VERSION.

(** A session whose history is the array [0]; [handle] is its
    [memorySessionId]. *)
Definition session_with (handle : option string) : ActiveSession :=
  mkSession 1 "cs" handle "proj" "hello" 1 (f64_of_Z 10) (f64_of_Z 20) 0 0%nat []
    None.

Definition world (h : list ConversationMessage) (handle : option string)
  (x : Outside) : World Outside :=
  mkWorld [h] (session_with handle) [] x.

Definition reply (content : string) (tokens : option Z) : JsError + HttpResponse :=
  inr (mkHttp true 200 (inr "")
         (inr (mkResponse
                 (Some [mkChoice (Some (mkChoiceMessage (Some "assistant") (Some content)))
                          (Some "stop")])
                 (Some (mkUsage None None tokens)) None))).

Definition http_500 : JsError + HttpResponse :=
  inr (mkHttp false 500 (inr "overloaded") (inl (mkError "SyntaxError" "no body"))).

Definition aborted : JsError + HttpResponse :=
  inl (mkError "AbortError" "The operation was aborted").

Definition outside_with (s : Settings) (a : list (JsError + HttpResponse)) : Outside :=
  mkOutside 1700000000000 s None a.

Definition observed (id : Z) : PendingMessage :=
  mkPending id observation (Some "/work") (Some 2) "Read" "{}" "{}" None.

Definition summary (id : Z) : PendingMessage :=
  mkPending id summarize None None "" "" "" (Some "done").

(** A fallback agent that records nothing and succeeds. *)
Definition fallback_ok : FallbackAgent Outside := mkFallback Outside (ret tt).

Definition agent_alone : AzureOpenAIAgent Outside := mkAgent Outside None.
Definition agent_with_fallback : AzureOpenAIAgent Outside :=
  setFallbackAgent fallback_ok agent_alone.

(** A message of [n] characters. *)
Fixpoint String_repeat (c : ascii) (n : nat) : string :=
  match n with
  | O => EmptyString
  | S k => String c (String_repeat c k)
  end.

Definition sized (r : Role) (n : Z) : ConversationMessage :=
  mkMsg r (String_repeat "a" (Z.to_nat n)).

(** The worlds of the runs. *)

(* a short history *)
Definition w_short : World Outside :=
  world [mkMsg user "hello"; mkMsg assistant "hi"] (Some "handle")
    (outside_with settings_ok []).

(* 128000 tokens of old context, then three entries of one token each *)
Definition w_long : World Outside :=
  world [sized user 512000; mkMsg assistant "one"; mkMsg user "two";
         mkMsg assistant "next"]
    (Some "handle") (outside_with settings_ok []).

(* a single entry of 128001 tokens *)
Definition w_oversized : World Outside :=
  world [sized user 512004] (Some "handle") (outside_with settings_ok []).

(* the backend answers 500 *)
Definition w_500 : World Outside :=
  world [] (Some "handle") (outside_with settings_ok [http_500]).

(* the backend answers with content and a usage *)
Definition w_usage (tokens : Z) : World Outside :=
  world [] (Some "handle") (outside_with settings_ok [reply "noted" (Some tokens)]).

(* the backend answers with empty content *)
Definition w_empty : World Outside :=
  world [] (Some "handle") (outside_with settings_ok [reply "" None]).

(* the request is aborted *)
Definition w_aborted : World Outside :=
  world [] (Some "handle") (outside_with settings_ok [aborted]).

(* no API key anywhere *)
Definition w_no_key : World Outside :=
  world [] None (outside_with settings_no_key []).

(* no handle; the clock reads [t] *)
Definition w_at (t : Z) : World Outside :=
  world [] None (mkOutside t settings_ok None []).

(** The error of a 500 answer, and the world the failing first call leaves. *)
Definition error_500 : JsError := Error "Azure OpenAI API error: 500 - overloaded".

Definition w_500_failed : World Outside :=
  Eval vm_compute in snd (askBackend (env []) cfg_ok "init:hello" w_500).

(** The error of an aborted request, and the world the aborted pass leaves. *)
Definition error_aborted : JsError := mkError "AbortError" "The operation was aborted".

Definition w_aborted_failed : World Outside :=
  Eval vm_compute in snd (startSession_try (env []) w_aborted).

(** An observation is prepared, then answered. *)
Definition w_usage_prepared (tokens : Z) : World Outside :=
  Eval vm_compute in snd (prepareItem (env []) tt (observed 7) None (w_usage tokens)).

Definition w_usage_answered (tokens : Z) : World Outside :=
  Eval vm_compute in
    snd (askBackend (env []) cfg_ok "observed:Read" (w_usage_prepared tokens)).

Definition w_empty_prepared : World Outside :=
  Eval vm_compute in snd (prepareItem (env []) tt (observed 7) None w_empty).

Definition w_empty_answered : World Outside :=
  Eval vm_compute in snd (askBackend (env []) cfg_ok "observed:Read" w_empty_prepared).

End Demo.

(** * The rest of the agent *)

(** [n] slashes. *)
Fixpoint slashes (n : nat) : string :=
  match n with
  | O => EmptyString
  | S k => String "/" (slashes k)
  end.

(** The string ends with a slash. *)
Fixpoint ends_with_slash (s : string) : bool :=
  match s with
  | EmptyString => false
  | String c EmptyString => Ascii.eqb c "/"
  | String _ rest => ends_with_slash rest
  end.

Section Pass.

Context {Ext Mode : Type}.
Variable env : Collaborators Ext Mode.

Local Open Scope js_scope.

(** Lines 132-287: the [try] block after its two guards. *)
Definition startSession_configured (cfg : Config) : M Ext unit :=
  assignMemorySessionId env ;;
  let! mode := gets (fun w => getActiveMode env (ext w)) in
  initTurn env cfg mode ;;
  let! s := gets session in
  messageLoop env cfg mode (getMessageIterator env (sessionDbId s)) None.

(** The URL of the chat completions request (line 342). *)
Definition completionsUrl (endpoint model apiVersion : string) : string :=
  normalizeEndpoint endpoint +:+ "/openai/deployments/" +:+ encodeURIComponent env model
  +:+ "/chat/completions?api-version=" +:+ encodeURIComponent env apiVersion.

End Pass.

(** * The OpenCode plugin ([src/OpenCode/claude-mem.js]) and the installer *)

(** JSON data, with [undefined] for what is absent.  Tool arguments, tool
    outputs and the configuration file are values of this kind. *)
#[local] Unset Elimination Schemes.
Inductive Json :=
  | JUndefined
  | JNull
  | JBool (b : bool)
  | JNum (n : Z)
  | JStr (s : string)
  | JArr (items : list Json)
  | JObj (fields : list (string * Json)).
#[local] Set Elimination Schemes.

(** Truthiness: [undefined], [null], [false], [0] and [''] are falsy. *)
Definition json_truthy (v : Json) : bool :=
  match v with
  | JUndefined | JNull => false
  | JBool b => b
  | JNum n => negb (n =? 0)
  | JStr s => truthy s
  | JArr _ | JObj _ => true
  end.

(** [a ?? b] *)
Definition nullish_or (a b : Json) : Json :=
  match a with
  | JUndefined | JNull => b
  | _ => a
  end.

(** [a || b] *)
Definition json_or (a b : Json) : Json := if json_truthy a then a else b.

(** White space of [String.prototype.trim] among the 8-bit code units:
    tab, line feed, vertical tab, form feed, carriage return, space and
    no-break space. *)
Definition is_js_space (c : ascii) : bool :=
  match nat_of_ascii c with
  | 9%nat | 10%nat | 11%nat | 12%nat | 13%nat | 32%nat | 160%nat => true
  | _ => false
  end.

Fixpoint trimStart (s : string) : string :=
  match s with
  | EmptyString => EmptyString
  | String c rest => if is_js_space c then trimStart rest else s
  end.

Fixpoint trimEnd (s : string) : string :=
  match s with
  | EmptyString => EmptyString
  | String c rest =>
      match trimEnd rest with
      | EmptyString => if is_js_space c then EmptyString else String c EmptyString
      | rest' => String c rest'
      end
  end.

(** [s.trim()] *)
Definition js_trim (s : string) : string := trimEnd (trimStart s).

(** [s && s.trim()] as a condition, for [s] a string or [undefined]. *)
Definition has_text (s : option string) : bool :=
  match s with
  | Some t => truthy t && truthy (js_trim t)
  | None => false
  end.

(** [text.slice(0, end)] for an integer [end]: a negative [end] counts from
    the end of the string. *)
Definition slice0 (text : string) (finish : Z) : string :=
  let len := js_length text in
  let stop := if finish <? 0 then Z.max (len + finish) 0 else Z.min finish len in
  substring 0 (Z.to_nat stop) text.

Module Installer.

(** [Array.isArray(v)] *)
Definition isArray (v : Json) : bool :=
  match v with JArr _ => true | _ => false end.

(** [obj[key]] on the fields of an object. *)
Fixpoint get_field (key : string) (fields : list (string * Json)) : Json :=
  match fields with
  | [] => JUndefined
  | (k, v) :: rest => if String.eqb k key then v else get_field key rest
  end.

(** [obj[key] = v]: an existing key keeps its place, a new one comes last. *)
Fixpoint set_field (key : string) (v : Json) (fields : list (string * Json))
  : list (string * Json) :=
  match fields with
  | [] => [(key, v)]
  | (k, old) :: rest =>
      if String.eqb k key then (k, v) :: rest
      else (k, old) :: set_field key v rest
  end.

(** [items.includes(pluginPath)] for a string [pluginPath]. *)
Definition includes (pluginPath : string) (items : list Json) : bool :=
  existsb (fun item => match item with
                       | JStr s => String.eqb s pluginPath
                       | _ => false
                       end) items.

(** Lines 34-35 of the installer on the parsed configuration [data], for an
    object: the value that [JSON.stringify] is then given. *)
Definition register_fields (pluginPath : string) (fields : list (string * Json))
  : list (string * Json) :=
  let fields :=
    if negb (isArray (get_field "plugin" fields))
    then set_field "plugin" (JArr []) fields
    else fields in
  match get_field "plugin" fields with
  | JArr items =>
      if negb (includes pluginPath items)
      then set_field "plugin" (JArr (items ++ [JStr pluginPath])) fields
      else fields
  | _ => fields
  end.

(** The same lines on any parsed value.  An array takes the [plugin]
    property like an object, but [JSON.stringify] writes only its items; on
    [null] reading [data.plugin] is a [TypeError]; on a number, a string or
    a boolean the assignment is lost and [data.plugin.includes] is a
    [TypeError]. *)
Definition register (pluginPath : string) (data : Json) : JsError + Json :=
  match data with
  | JObj fields => inr (JObj (register_fields pluginPath fields))
  | JArr items => inr (JArr items)
  | JNull | JUndefined =>
      inl (mkError "TypeError" "Cannot read properties of null (reading 'plugin')")
  | JBool _ | JNum _ | JStr _ =>
      inl (mkError "TypeError"
             "Cannot read properties of undefined (reading 'includes')")
  end.

(** Lines 29-33: the configuration is [{}] when the file is missing or
    blank, and what [JSON.parse] makes of it otherwise. *)
Definition load (JSON_parse : string -> JsError + Json) (file : option string)
  : JsError + Json :=
  match file with
  | None => inr (JObj [])
  | Some content =>
      let raw := js_trim content in
      if truthy raw then JSON_parse raw else inr (JObj [])
  end.

(** The script as a whole: the value written back, or the error that ends
    the installer. *)
Definition install (JSON_parse : string -> JsError + Json) (file : option string)
  (pluginPath : string) : JsError + Json :=
  match load JSON_parse file with
  | inl e => inl e
  | inr data => register pluginPath data
  end.

End Installer.

Module Plugin.

Definition WORKER_PORT : Z := 37777.

(** ** Helpers (lines 15-86) *)

(** [truncate(text, maxLength)]; the default [maxLength] is 8000. *)
Definition truncate (text : Json) (maxLength : Z) : Json :=
  match text with
  | JStr s =>
      if js_length s <=? maxLength then text
      else JStr (slice0 s maxLength +:+ "...")
  | _ => text
  end.

Definition DEFAULT_MAX_LENGTH : Z := 8000.

(** [normalizeToolName(name)] *)
Definition normalizeToolName (name : Json) : string :=
  match name with
  | JStr s =>
      if negb (truthy s) then "Unknown"
      else if String.eqb s "Bash" then s
      else if String.eqb s "Glob" then s
      else if String.eqb s "Grep" then s
      else if String.eqb s "Read" then s
      else if String.eqb s "Edit" then s
      else if String.eqb s "Write" then s
      else if String.eqb s "Task" then s
      else if String.eqb s "Skill" then s
      else s
  | _ => "Unknown"
  end.

(** What the plugin takes from its host and from the engine: Node's
    [path.basename], [encodeURIComponent], [JSON.parse], [JSON.stringify],
    [String(value)], the directory [ctx.directory || process.cwd()], and
    [fetch] against the worker. *)
Inductive Sent :=
  | Get (url : string)
  | SessionInit (url : string) (contentSessionId : option string)
      (project prompt : string)
  | SessionSummarize (url : string) (contentSessionId : option string)
      (last_assistant_message : string)
  | SessionComplete (url : string) (contentSessionId : option string)
  | Observation (url : string) (contentSessionId : option string)
      (tool_name : string) (tool_input : Json)
      (title output metadata : Json) (cwd : string).

(** What [fetch] resolves to for a request to the worker. *)
Record WorkerResponse := mkWorkerResponse {
  w_ok : bool;
  w_status : Z;
  w_text : JsError + string;
  w_json : JsError + Json
}.

Record Host {Net : Type} := mkHost {
  basename : string -> string;
  uriComponent : string -> string;
  JSON_parse : string -> JsError + Json;
  JSON_stringify : Json -> JsError + string;
  String_of : Json -> string;
  directory : string;
  http : Sent -> Net -> (JsError + WorkerResponse) * Net
}.
Arguments Host : clear implicits.

(** The entry [pendingUserMessages] keeps for a user message. *)
Record Pending := mkPendingUser {
  pending_sessionID : option string;
  pending_project : string
}.

(** The module-level caches, the requests made so far, and the network.
    The keys are message, session and call ids; [None] is the key
    [undefined]. *)
Record State {Net : Type} := mkState {
  messageTextCache : gmap (option string) string;
  pendingUserMessages : gmap (option string) Pending;
  messageRoleCache : gmap (option string) string;
  sessionLastAssistant : gmap (option string) string;
  sessionLastSummarized : gmap (option string) string;
  toolInputCache : gmap (option string) Json;
  sent : list Sent;
  net : Net
}.
Arguments State : clear implicits.

Section Handlers.

Context {Net : Type}.
Variable host : Host Net.

(** Computations of the plugin. *)
Definition P (A : Type) : Type := State Net -> (JsError + A) * State Net.

Definition pret {A} (a : A) : P A := fun st => (inr a, st).
Definition pthrow {A} (e : JsError) : P A := fun st => (inl e, st).
Definition pbind {A B} (m : P A) (k : A -> P B) : P B :=
  fun st =>
    match m st with
    | (inr a, st') => k a st'
    | (inl e, st') => (inl e, st')
    end.
Definition pgets {A} (f : State Net -> A) : P A := fun st => (inr (f st), st).
Definition pmodify (f : State Net -> State Net) : P unit := fun st => (inr tt, f st).

(** [try { body } catch { }] *)
Definition failOpen (body : P unit) : P unit :=
  fun st =>
    match body st with
    | (inl _, st') => (inr tt, st')
    | (inr tt, st') => (inr tt, st')
    end.

(** [try { body } catch { } finally { cleanup }] for a [cleanup] that may
    throw itself. *)
Definition failOpenFinally (body cleanup : P unit) : P unit :=
  pbind (failOpen body) (fun _ => cleanup).

Definition set_messageTextCache (c : gmap (option string) string) (st : State Net) :=
  mkState Net c (pendingUserMessages st) (messageRoleCache st)
    (sessionLastAssistant st) (sessionLastSummarized st) (toolInputCache st)
    (sent st) (net st).

Definition set_pendingUserMessages (c : gmap (option string) Pending) (st : State Net) :=
  mkState Net (messageTextCache st) c (messageRoleCache st)
    (sessionLastAssistant st) (sessionLastSummarized st) (toolInputCache st)
    (sent st) (net st).

Definition set_messageRoleCache (c : gmap (option string) string) (st : State Net) :=
  mkState Net (messageTextCache st) (pendingUserMessages st) c
    (sessionLastAssistant st) (sessionLastSummarized st) (toolInputCache st)
    (sent st) (net st).

Definition set_sessionLastAssistant (c : gmap (option string) string) (st : State Net) :=
  mkState Net (messageTextCache st) (pendingUserMessages st) (messageRoleCache st)
    c (sessionLastSummarized st) (toolInputCache st) (sent st) (net st).

Definition set_sessionLastSummarized (c : gmap (option string) string) (st : State Net) :=
  mkState Net (messageTextCache st) (pendingUserMessages st) (messageRoleCache st)
    (sessionLastAssistant st) c (toolInputCache st) (sent st) (net st).

Definition set_toolInputCache (c : gmap (option string) Json) (st : State Net) :=
  mkState Net (messageTextCache st) (pendingUserMessages st) (messageRoleCache st)
    (sessionLastAssistant st) (sessionLastSummarized st) c (sent st) (net st).

(** [parseToolInput(metadata)] *)
Definition parseToolInput (metadata : Json) : Json :=
  if negb (json_truthy metadata) then JObj []
  else
    match metadata with
    | JStr s =>
        match JSON_parse host s with
        | inr v => v
        | inl _ => JObj [("raw", truncate metadata DEFAULT_MAX_LENGTH)]
        end
    | _ => metadata
    end.

(** [getProjectName(cwd)] and [getProjectsParam(cwd)], for a string or
    [undefined]. *)
Definition getProjectName (cwd : option string) : string :=
  match cwd with
  | Some dir =>
      if negb (truthy dir) then "unknown-project"
      else
        let base := basename host dir in
        if truthy base then base else "unknown-project"
  | None => "unknown-project"
  end.

Definition getProjectsParam (cwd : option string) : string := getProjectName cwd.

(** [serializeToolOutput(output)] *)
Definition serializeToolOutput (output : Json) : Json :=
  match output with
  | JUndefined | JNull => JStr ""
  | JStr _ => truncate output 16000
  | _ =>
      match JSON_stringify host output with
      | inr s => JStr s
      | inl _ => truncate (JStr (String_of host output)) 16000
      end
  end.

(** ** Requests to the worker (lines 106-146) *)

Definition workerUrl (path : string) : string :=
  "http://127.0.0.1:" +:+ pretty WORKER_PORT +:+ path.

(** [fetch]: the request is recorded, then the network answers. *)
Definition request (r : Sent) : P WorkerResponse :=
  fun st =>
    let '(res, n) := http host r (net st) in
    (res,
     mkState Net (messageTextCache st) (pendingUserMessages st) (messageRoleCache st)
       (sessionLastAssistant st) (sessionLastSummarized st) (toolInputCache st)
       (sent st ++ [r]) n).

Definition awaited {A} (r : JsError + A) : P A :=
  match r with inr a => pret a | inl e => pthrow e end.

Definition requestFailed (response : WorkerResponse) : JsError :=
  Error ("Request failed: " +:+ pretty (w_status response)).

(** [fetchText(url)] *)
Definition fetchText (url : string) : P string :=
  pbind (request (Get url)) (fun response =>
  if negb (w_ok response) then pthrow (requestFailed response)
  else awaited (w_text response)).

(** [fetchJson(url, body)]; the parsed body is not used by any caller. *)
Definition fetchJson (r : Sent) : P unit :=
  pbind (request r) (fun response =>
  if negb (w_ok response) then pthrow (requestFailed response)
  else pbind (awaited (w_json response)) (fun _ => pret tt)).

Definition sendSessionInit (contentSessionId : option string)
  (project prompt : string) : P unit :=
  fetchJson (SessionInit (workerUrl "/api/sessions/init") contentSessionId project prompt).

Definition sendSessionSummarize (contentSessionId : option string)
  (lastAssistantMessage : string) : P unit :=
  fetchJson (SessionSummarize (workerUrl "/api/sessions/summarize") contentSessionId
               lastAssistantMessage).

Definition sendSessionComplete (contentSessionId : option string) : P unit :=
  fetchJson (SessionComplete (workerUrl "/api/sessions/complete") contentSessionId).

(** ** Streaming text (lines 148-163) *)

(** A message part: [{type, messageID, sessionID, text}]; [part_text] is
    [None] when [part.text] is not a string. *)
Record Part := mkPart {
  part_type : option string;
  part_messageID : option string;
  part_sessionID : option string;
  part_text : option string
}.

(** [updateMessageText(part, delta)]; [delta] is [None] when it is not a
    string. *)
Definition updateMessageText (part : option Part) (delta : option string)
  : P unit :=
  match part with
  | None => pret tt
  | Some p =>
      if negb (bool_decide (part_type p = Some "text")) then pret tt
      else
        let messageId := part_messageID p in
        if negb (truthy_opt messageId) then pret tt
        else
          pbind (pgets messageTextCache) (fun cache =>
          let existing := or_str (cache !! messageId) "" in
          let fromPart :=
            match part_text p with
            | Some t => if 0 <? js_length t then t else existing
            | None => existing
            end in
          let nextText :=
            match delta with
            | Some d => if 0 <? js_length d then existing +:+ d else fromPart
            | None => fromPart
            end in
          pmodify (fun st =>
            set_messageTextCache (<[messageId := nextText]> (messageTextCache st)) st))
  end.

(** ** The hooks (lines 165-318) *)

Record Summary := mkSummary {
  summary_body : option string;
  summary_title : option string
}.

(** [event.properties.info] of a [message.updated] event. *)
Record Info := mkInfo {
  info_id : option string;
  info_role : option string;
  info_sessionID : option string;
  info_summary : option Summary
}.

Inductive Event :=
  | TuiPromptAppend (text : string)
  | MessageUpdated (info : option Info)
  | MessagePartUpdated (part : option Part) (delta : option string)
  | MessageRemoved (messageID : option string)
  | SessionIdle (sessionID : option string)
  | SessionDeleted (sessionID : option string)
  | OtherEvent.

Definition TWO_LINE_FEEDS : string := String "010" (String "010" EmptyString).

(** Lines 173-184. *)
Definition onPromptAppend (text : string) : P string :=
  let projects := getProjectsParam (Some (directory host)) in
  let url := workerUrl "/api/context/inject?projects=" +:+ uriComponent host projects in
  fun st =>
    match fetchText url st with
    | (inr body, st') =>
        let context := js_trim body in
        (inr (if truthy context then context +:+ TWO_LINE_FEEDS +:+ text else text), st')
    | (inl _, st') => (inr text, st')
    end.

(** Lines 186-221. *)
Definition onMessageUpdated (info : option Info) : P unit :=
  match info with
  | None => pret tt
  | Some i =>
      pbind
        (if truthy_opt (info_id i) && truthy_opt (info_role i) then
           pmodify (fun st =>
             set_messageRoleCache
               (<[info_id i := default "" (info_role i)]> (messageRoleCache st)) st)
         else pret tt) (fun _ =>
      if bool_decide (info_role i = Some "user") then
        pbind (pgets messageTextCache) (fun cache =>
        let cachedText := cache !! info_id i in
        let summaryText :=
          match info_summary i with
          | Some s => or_opt (summary_body s) (summary_title s)
          | None => None
          end in
        let project := getProjectName (Some (directory host)) in
        let keepPending :=
          pmodify (fun st =>
            set_pendingUserMessages
              (<[info_id i := mkPendingUser (info_sessionID i) project]>
                 (pendingUserMessages st)) st) in
        let fromSummary :=
          match summaryText with
          | Some summary =>
              if has_text summaryText
                 && negb (String.eqb summary "[user message]") then
                failOpen (sendSessionInit (info_sessionID i) project summary)
              else keepPending
          | None => keepPending
          end in
        match cachedText with
        | Some cached =>
            if has_text cachedText then
              failOpen
                (pbind (sendSessionInit (info_sessionID i) project cached) (fun _ =>
                 pmodify (fun st =>
                   set_messageTextCache (delete (info_id i) (messageTextCache st)) st)))
            else fromSummary
        | None => fromSummary
        end)
      else pret tt)
  end.

(** Lines 223-247. *)
Definition onMessagePartUpdated (part : option Part) (delta : option string)
  : P unit :=
  pbind (updateMessageText part delta) (fun _ =>
  let key := match part with Some p => part_messageID p | None => None end in
  let sessionId := match part with Some p => part_sessionID p | None => None end in
  pbind (pgets (fun st => pendingUserMessages st !! key)) (fun pending =>
  pbind (pgets (fun st => messageTextCache st !! key)) (fun text =>
  pbind (pgets (fun st => messageRoleCache st !! key)) (fun role =>
  pbind
    (match pending, text with
     | Some pd, Some t =>
         if has_text text then
           failOpenFinally
             (sendSessionInit (pending_sessionID pd) (pending_project pd) t)
             (match part with
              | Some p =>
                  pmodify (fun st =>
                    set_messageTextCache
                      (delete (part_messageID p) (messageTextCache st))
                      (set_pendingUserMessages
                         (delete (part_messageID p) (pendingUserMessages st)) st))
              | None =>
                  pthrow (mkError "TypeError"
                            "Cannot read properties of undefined (reading 'messageID')")
              end)
         else pret tt
     | _, _ => pret tt
     end) (fun _ =>
  match text with
  | Some t =>
      if bool_decide (role = Some "assistant") && truthy_opt sessionId && truthy t then
        pmodify (fun st =>
          set_sessionLastAssistant (<[sessionId := t]> (sessionLastAssistant st)) st)
      else pret tt
  | None => pret tt
  end))))).

(** Lines 249-256. *)
Definition onMessageRemoved (messageId : option string) : P unit :=
  if truthy_opt messageId then
    pmodify (fun st =>
      set_pendingUserMessages (delete messageId (pendingUserMessages st))
        (set_messageRoleCache (delete messageId (messageRoleCache st))
           (set_messageTextCache (delete messageId (messageTextCache st)) st)))
  else pret tt.

(** Lines 258-279. *)
Definition onSessionIdle (sessionId : option string) : P unit :=
  if negb (truthy_opt sessionId) then pret tt
  else
    pbind (pgets (fun st => sessionLastAssistant st !! sessionId)) (fun lastAssistant =>
    pbind (pgets (fun st => sessionLastSummarized st !! sessionId)) (fun lastSummarized =>
    pbind
      (match lastAssistant with
       | Some last =>
           if has_text lastAssistant
              && negb (bool_decide (lastAssistant = lastSummarized)) then
             failOpen
               (pbind (sendSessionSummarize sessionId last) (fun _ =>
                pmodify (fun st =>
                  set_sessionLastSummarized
                    (<[sessionId := last]> (sessionLastSummarized st)) st)))
           else pret tt
       | None => pret tt
       end) (fun _ =>
    failOpen (sendSessionComplete sessionId)))).

(** Lines 281-289. *)
Definition onSessionDeleted (sessionId : option string) : P unit :=
  if negb (truthy_opt sessionId) then pret tt
  else failOpen (sendSessionComplete sessionId).

(** The [event] hook: the event comes back with its prompt text as the hook
    left it. *)
Definition event (ev : Event) : P Event :=
  match ev with
  | TuiPromptAppend text =>
      pbind (onPromptAppend text) (fun text' => pret (TuiPromptAppend text'))
  | MessageUpdated info => pbind (onMessageUpdated info) (fun _ => pret ev)
  | MessagePartUpdated part delta =>
      pbind (onMessagePartUpdated part delta) (fun _ => pret ev)
  | MessageRemoved messageId => pbind (onMessageRemoved messageId) (fun _ => pret ev)
  | SessionIdle sessionId => pbind (onSessionIdle sessionId) (fun _ => pret ev)
  | SessionDeleted sessionId => pbind (onSessionDeleted sessionId) (fun _ => pret ev)
  | OtherEvent => pret ev
  end.

(** The [output] argument of the tool hooks. *)
Record ToolOutput := mkToolOutput {
  out_args : Json;
  out_title : Json;
  out_output : Json;
  out_metadata : Json
}.

(** ["tool.execute.before"] *)
Definition toolExecuteBefore (callID : option string) (output : option ToolOutput)
  : P unit :=
  let args := match output with Some o => out_args o | None => JUndefined end in
  pmodify (fun st =>
    set_toolInputCache (<[callID := nullish_or args (JObj [])]> (toolInputCache st)) st).

(** ["tool.execute.after"] *)
Definition toolExecuteAfter (tool : Json) (callID sessionID : option string)
  (output : option ToolOutput) : P unit :=
  let toolName := normalizeToolName tool in
  pbind (pgets (fun st => toolInputCache st !! callID)) (fun cachedArgs =>
  pbind (pmodify (fun st => set_toolInputCache (delete callID (toolInputCache st)) st))
    (fun _ =>
  let metadata := match output with Some o => out_metadata o | None => JUndefined end in
  let title := match output with Some o => out_title o | None => JUndefined end in
  let result := match output with Some o => out_output o | None => JUndefined end in
  let toolInput :=
    parseToolInput (nullish_or (nullish_or (default JUndefined cachedArgs) metadata)
                      (JObj [])) in
  failOpen
    (fetchJson
       (Observation (workerUrl "/api/sessions/observations") sessionID toolName
          toolInput (json_or title (JStr toolName))
          (serializeToolOutput (json_or result (JStr "")))
          (nullish_or metadata (JObj [])) (directory host))))).

End Handlers.

End Plugin.

(** ** Notions used in the statements about the plugin *)

(** No text is cached under the key [undefined] or the empty id. *)
Definition text_keys_ok {Net} (st : Plugin.State Net) : Prop :=
  forall k, is_Some (Plugin.messageTextCache st !! k) -> truthy_opt k = true.

(** A computation of the plugin keeps a property of the state, returned or
    thrown; it returns under a property when, from a state that has it, it
    returns a value in a state that has it. *)
Definition keeps {Net A} (I : Plugin.State Net -> Prop) (m : Plugin.P A) : Prop :=
  forall st, I st -> I (snd (m st)).

Definition returns {Net A} (I : Plugin.State Net -> Prop) (m : Plugin.P A) : Prop :=
  forall st, I st -> (exists a, fst (m st) = inr a) /\ I (snd (m st)).

(** Two states differ at most in the requests made and the network. *)
Definition same_caches {Net} (st st' : Plugin.State Net) : Prop :=
  Plugin.messageTextCache st' = Plugin.messageTextCache st
  /\ Plugin.pendingUserMessages st' = Plugin.pendingUserMessages st
  /\ Plugin.messageRoleCache st' = Plugin.messageRoleCache st
  /\ Plugin.sessionLastAssistant st' = Plugin.sessionLastAssistant st
  /\ Plugin.sessionLastSummarized st' = Plugin.sessionLastSummarized st
  /\ Plugin.toolInputCache st' = Plugin.toolInputCache st.


(** How often the installer's path is listed in a plugin array. *)
Fixpoint occurrences (pluginPath : string) (items : list Json) : nat :=
  match items with
  | [] => 0
  | JStr s :: rest =>
      ((if String.eqb s pluginPath then 1 else 0) + occurrences pluginPath rest)%nat
  | _ :: rest => occurrences pluginPath rest
  end.

(** The host delivers events to the [event] hook one after another, each
    call awaited; a rejection ends the sequence. *)
Fixpoint deliver {Net} (host : Plugin.Host Net) (evs : list Plugin.Event)
  : Plugin.P (list Plugin.Event) :=
  match evs with
  | [] => Plugin.pret []
  | ev :: rest =>
      Plugin.pbind (Plugin.event host ev) (fun ev' =>
      Plugin.pbind (deliver host rest) (fun rest' => Plugin.pret (ev' :: rest')))
  end.

(** The state of a freshly loaded plugin: every cache is empty. *)
Definition fresh {Net} (n : Net) : Plugin.State Net :=
  Plugin.mkState Net ∅ ∅ ∅ ∅ ∅ ∅ [] n.


(** * Further scenarios *)

Module Runs.

Import Demo.

(** The provider answers with an error object. *)
Definition throttled : JsError + HttpResponse :=
  inr (mkHttp true 200 (inr "")
         (inr (mkResponse None None
                 (Some (mkApiError (Some "slow down") (Some "429")))))).

Definition response_of (a : JsError + HttpResponse) : HttpResponse :=
  match a with
  | inr r => r
  | inl _ => mkHttp false 0 (inr "") (inl (Error ""))
  end.

Definition w_throttled : World Outside :=
  world [mkMsg user "hello"] (Some "handle") (outside_with settings_ok [throttled]).

(* the backend answers with content and no usage *)
Definition w_no_usage : World Outside :=
  world [] (Some "handle") (outside_with settings_ok [reply "noted" None]).

(* no handle, and an observation to process *)
Definition w_unbound : World Outside :=
  world [] None (outside_with settings_ok [reply "noted" None]).

(* the world in which the 500 answer has been thrown by the pass *)
Definition w_500_thrown : World Outside := snd (startSession_try (env []) w_500).

(* the long history, truncated *)
Definition w_long_truncated : World Outside := snd (truncateHistory 0 w_long).

(** A fallback agent that leaves its mark in the history it is given. *)
Definition fallback_marks : FallbackAgent Outside :=
  mkFallback Outside (fun w => push 0%nat (mkMsg assistant "taken over") w).

Definition agent_marking : AzureOpenAIAgent Outside :=
  setFallbackAgent fallback_marks agent_alone.

(** A pass whose first turn and first item are answered and whose second
    item meets a 500 answer. *)
Definition items_late : list IterStep := [Yield (observed 7); Yield (summary 8)].

Definition w_late : World Outside :=
  world [] (Some "handle")
    (outside_with settings_ok [reply "hi" (Some 10); reply "noted" (Some 100); http_500]).

Definition w_late_started : World Outside :=
  Eval vm_compute in snd (initTurn (env items_late) cfg_ok tt w_late).

Definition w_late_observed : World Outside :=
  Eval vm_compute in
    snd (loopOver (env items_late) cfg_ok tt [observed 7] None w_late_started).

Definition w_late_prepared : World Outside :=
  Eval vm_compute in
    snd (prepareItem (env items_late) tt (summary 8) (Some "/work") w_late_observed).

Definition w_late_failed : World Outside :=
  Eval vm_compute in
    snd (askBackend (env items_late) cfg_ok "summarize:done" w_late_prepared).

End Runs.

Module PluginRuns.

Import Plugin.

(** The network of the runs below: the answers the worker will give, in
    order; once they are used up, [fetch] rejects. *)
Definition Answers : Type := list (JsError + WorkerResponse).

Definition http_next (r : Sent) (n : Answers) : (JsError + WorkerResponse) * Answers :=
  match n with
  | [] => (inl (mkError "TypeError" "fetch failed"), [])
  | a :: rest => (a, rest)
  end.

Definition accepted : JsError + WorkerResponse :=
  inr (mkWorkerResponse true 200 (inr "") (inr (JObj []))).

Definition refused : JsError + WorkerResponse :=
  inr (mkWorkerResponse false 503 (inr "")
         (inl (mkError "SyntaxError" "Unexpected end of JSON input"))).

(** A stand-in for [path.basename] on paths that do not end with a slash:
    what follows the last slash. *)
Fixpoint last_segment (s current : string) : string :=
  match s with
  | EmptyString => current
  | String c rest =>
      if Ascii.eqb c "/" then last_segment rest ""
      else last_segment rest (current +:+ String c EmptyString)
  end.

(** Stand-ins for the engine: only [{}] parses, and every value is written
    as [{}]. *)
Definition host : Host Answers :=
  {| basename := fun dir => last_segment dir "";
     uriComponent := fun s => s;
     JSON_parse := fun s =>
       if String.eqb s "{}" then inr (JObj [])
       else inl (mkError "SyntaxError" "Unexpected token");
     JSON_stringify := fun _ => inr "{}";
     String_of := fun _ => "[object Object]";
     directory := "/work/proj";
     http := http_next |}.

(** A session whose last assistant text is not summarized yet, and the same
    session once it is; the worker accepts what it is sent. *)
Definition st_idle : State Answers :=
  mkState Answers ∅ ∅ ∅ {[Some "ses" := "done."]} ∅ ∅ [] [accepted; accepted].

Definition st_summarized : State Answers :=
  mkState Answers ∅ ∅ ∅ {[Some "ses" := "done."]} {[Some "ses" := "done."]} ∅ []
    [accepted].

(** A user message without summary, and a text part of it. *)
Definition user_message : Info := mkInfo (Some "msg") (Some "user") (Some "ses") None.

Definition text_part : Part := mkPart (Some "text") (Some "msg") (Some "ses") None.

End PluginRuns.


(** * Properties *)

Section Properties.

Context {Ext Mode : Type}.
Variable env : Collaborators Ext Mode.

Implicit Types (w : World Ext) (h : list ConversationMessage).

Local Open Scope js_scope.

(** ** Computations *)

(** Runs a computation written with the primitives down to its cases. *)
Ltac unfold_computation :=
  unfold bind, gets, ret, throw, updateSession, modify.

Lemma bind_ok {A B} (m : M Ext A) (k : A -> M Ext B) w a w' :
  m w = (inr a, w') -> bind m k w = k a w'.
Proof. intros E. unfold bind. now rewrite E. Qed.

Lemma bind_throws {A B} (m : M Ext A) (k : A -> M Ext B) w e w' :
  m w = (inl e, w') -> bind m k w = (inl e, w').
Proof. intros E. unfold bind. now rewrite E. Qed.

Lemma set_arrays_same w : set_arrays (arrays w) w = w.
Proof. now destruct w. Qed.

Lemma elements_lookup (r : ArrayRef) w h :
  arrays w !! r = Some h -> elements r w = h.
Proof. unfold elements. now intros ->. Qed.

Lemma elements_new w t :
  elements (length (arrays w)) (set_arrays (arrays w ++ [t]) w) = t.
Proof.
  unfold elements. cbn. rewrite lookup_app_r by lia. now rewrite Nat.sub_diag.
Qed.

(** ** Token estimates *)

Lemma ceil_div_spec a b :
  0 < b -> b * (ceil_div a b - 1) < a <= b * ceil_div a b.
Proof.
  intros Hb. unfold ceil_div.
  pose proof (Z.div_mod (a + b - 1) b ltac:(lia)).
  pose proof (Z.mod_pos_bound (a + b - 1) b Hb). lia.
Qed.

Lemma estimateTokens_nonneg text : 0 <= estimateTokens text.
Proof.
  unfold estimateTokens, ceil_div, js_length, CHARS_PER_TOKEN_ESTIMATE.
  apply Z.div_pos; lia.
Qed.

Lemma fold_tokens_acc h (a : Z) :
  fold_left (fun sum m => sum + estimateTokens (content m)) h a
  = a + totalTokens h.
Proof.
  unfold totalTokens. revert a.
  induction h as [|m h IH]; intros a; simpl; [lia|].
  rewrite (IH (a + _)), (IH (0 + _)). lia.
Qed.

Lemma totalTokens_cons m h :
  totalTokens (m :: h) = estimateTokens (content m) + totalTokens h.
Proof. unfold totalTokens at 1. simpl. now rewrite fold_tokens_acc. Qed.

Lemma totalTokens_app h1 h2 :
  totalTokens (h1 ++ h2) = totalTokens h1 + totalTokens h2.
Proof.
  induction h1 as [|m h1 IH]; simpl.
  - reflexivity.
  - rewrite !totalTokens_cons, IH. lia.
Qed.

Lemma totalTokens_nonneg h : 0 <= totalTokens h.
Proof.
  induction h as [|m h IH]; [reflexivity|].
  rewrite totalTokens_cons. pose proof (estimateTokens_nonneg (content m)). lia.
Qed.

(** ** truncateHistory *)

(** The loop, entered at index [n - 1] with both arrays alive and distinct,
    prepends to [truncated] the entries [k .. n-1] of [history] for some cut
    [k], and touches nothing else.  The kept entries fit the budget, and
    when [k > 0] the entry just before the cut did not fit any more. *)
Lemma truncateLoop_spec (history truncated : ArrayRef) h :
  history <> truncated ->
  forall (n : nat) (tokenCount : Z) w,
    arrays w !! history = Some h ->
    (n <= length h)%nat ->
    exists k : nat,
      (k <= n)%nat
      /\ truncateLoop history truncated n tokenCount w
         = (inr tt,
            set_arrays
              (alter (fun t => drop k (take n h) ++ t) truncated (arrays w)) w)
      /\ (tokenCount <= MAX_AZURE_CONTEXT_TOKENS ->
          tokenCount + totalTokens (drop k (take n h)) <= MAX_AZURE_CONTEXT_TOKENS)
      /\ (k = 0%nat
          \/ exists d, h !! (k - 1)%nat = Some d
               /\ tokenCount + totalTokens (drop k (take n h))
                  + estimateTokens (content d) > MAX_AZURE_CONTEXT_TOKENS).
Proof.
  intros Hne n. induction n as [|i IH]; intros tokenCount w Hh Hn.
  - exists 0%nat. repeat split; [lia | | simpl; intros; rewrite Z.add_0_r; auto | now left].
    simpl. unfold ret. f_equal.
    rewrite list_alter_id by reflexivity. now rewrite set_arrays_same.
  - destruct (lookup_lt_is_Some_2 h i ltac:(lia)) as [msg Hmsg].
    assert (Hlen : length (take (S i) h) = S i) by (rewrite length_take; lia).
    cbn [truncateLoop]. unfold bind at 1, gets at 1.
    rewrite (elements_lookup _ _ _ Hh), Hmsg.
    destruct (tokenCount + estimateTokens (content msg) >? MAX_AZURE_CONTEXT_TOKENS)
      eqn:Hcmp.
    + (* break *)
      apply Z.gtb_lt in Hcmp.
      exists (S i). rewrite drop_ge by lia.
      repeat split; [lia | | cbn; lia | right].
      * unfold ret. f_equal.
        rewrite list_alter_id by reflexivity. now rewrite set_arrays_same.
      * exists msg. replace (S i - 1)%nat with i by lia.
        split; [assumption | cbn; lia].
    + (* unshift and go on *)
      assert (Hfit : tokenCount + estimateTokens (content msg)
                     <= MAX_AZURE_CONTEXT_TOKENS).
      { destruct (Z.gtb_spec (tokenCount + estimateTokens (content msg))
                             MAX_AZURE_CONTEXT_TOKENS); [discriminate | lia]. }
      set (w1 := set_arrays (alter (fun t => msg :: t) truncated (arrays w)) w).
      assert (Hh1 : arrays w1 !! history = Some h).
      { subst w1. cbn. rewrite list_lookup_alter_ne by congruence. exact Hh. }
      destruct (IH (tokenCount + estimateTokens (content msg)) w1 Hh1 ltac:(lia))
        as (k & Hk & Hrun & Hsum & Hcut).
      assert (Hdrop : drop k (take (S i) h) = drop k (take i h) ++ [msg]).
      { rewrite (take_S_r _ _ _ Hmsg), drop_app_le; [reflexivity|].
        rewrite length_take. lia. }
      exists k. rewrite Hdrop, totalTokens_app, totalTokens_cons.
      change (totalTokens []) with 0.
      repeat split.
      * lia.
      * unfold bind, unshift, modify. fold w1. rewrite Hrun.
        f_equal. subst w1. unfold set_arrays. cbn. f_equal.
        rewrite list_alter_alter_eq. apply list_alter_ext; [|reflexivity].
        intros t _. cbn. now rewrite <- app_assoc.
      * intros _. specialize (Hsum Hfit). lia.
      * destruct Hcut as [->|(d & Hd & Hover)]; [now left | right].
        exists d. split; [assumption | lia].
Qed.

(** What [truncateHistory] does to a history over the ceiling: a new array
    is created, it receives the entries from some cut [k >= 1] on, and no
    other array changes. *)
Lemma truncateHistory_over (history : ArrayRef) w :
  totalTokens (elements history w) > MAX_AZURE_CONTEXT_TOKENS ->
  exists k : nat,
    (1 <= k <= length (elements history w))%nat
    /\ truncateHistory history w
       = (inr (length (arrays w)),
          set_arrays (arrays w ++ [drop k (elements history w)]) w)
    /\ totalTokens (drop k (elements history w)) <= MAX_AZURE_CONTEXT_TOKENS
    /\ exists d, elements history w !! (k - 1)%nat = Some d
         /\ totalTokens (drop k (elements history w))
            + estimateTokens (content d) > MAX_AZURE_CONTEXT_TOKENS.
Proof.
  intros Hover.
  destruct (arrays w !! history) as [h|] eqn:Hh.
  2:{ unfold elements in Hover. rewrite Hh in Hover.
      vm_compute in Hover. discriminate. }
  rewrite (elements_lookup _ _ _ Hh) in *.
  pose proof (lookup_lt_Some _ _ _ Hh) as Hvalid.
  set (w1 := set_arrays (arrays w ++ [[]]) w).
  assert (Hh1 : arrays w1 !! history = Some h).
  { subst w1. cbn. rewrite lookup_app_l by assumption. exact Hh. }
  destruct (truncateLoop_spec history (length (arrays w)) h ltac:(lia)
              (length h) 0 w1 Hh1 ltac:(lia))
    as (k & Hk & Hrun & Hsum & Hcut).
  rewrite take_ge in * by lia.
  specialize (Hsum ltac:(unfold MAX_AZURE_CONTEXT_TOKENS; lia)).
  destruct Hcut as [->|(d & Hd & Hd_over)].
  { rewrite drop_0 in Hsum. lia. }
  exists k. repeat split.
  - destruct k; [|lia]. cbn in Hd.
    rewrite drop_0 in Hsum. lia.
  - lia.
  - unfold truncateHistory, bind at 1, gets at 1.
    rewrite (elements_lookup _ _ _ Hh).
    destruct (Z.leb_spec (totalTokens h) MAX_AZURE_CONTEXT_TOKENS); [lia|].
    unfold bind at 1, newArray at 1. fold w1.
    unfold bind. rewrite Hrun. unfold ret. f_equal.
    subst w1. unfold set_arrays. cbn. f_equal.
    rewrite alter_app_r_alt by lia. rewrite Nat.sub_diag. cbn.
    now rewrite app_nil_r.
  - lia.
  - exists d. split; [assumption | lia].
Qed.

(** Whether or not it truncates, [truncateHistory] returns normally, only
    ever adds one array to the store, and the array it returns holds a
    suffix of the history that fits the budget. *)
Lemma truncateHistory_result (history : ArrayRef) w :
  exists (truncated : ArrayRef) extra,
    truncateHistory history w = (inr truncated, set_arrays (arrays w ++ extra) w)
    /\ (extra = [] \/ (history < length (arrays w))%nat)
    /\ (exists dropped,
          elements history w
          = dropped ++ elements truncated (set_arrays (arrays w ++ extra) w))
    /\ totalTokens (elements truncated (set_arrays (arrays w ++ extra) w))
       <= MAX_AZURE_CONTEXT_TOKENS.
Proof.
  destruct (Z.leb_spec (totalTokens (elements history w)) MAX_AZURE_CONTEXT_TOKENS)
    as [Hle|Hgt].
  - exists history, []. rewrite app_nil_r, set_arrays_same. repeat split.
    + unfold truncateHistory, bind, gets.
      destruct (Z.leb_spec (totalTokens (elements history w)) MAX_AZURE_CONTEXT_TOKENS);
        [reflexivity | lia].
    + now left.
    + now exists [].
    + exact Hle.
  - destruct (truncateHistory_over history w ltac:(lia))
      as (k & Hk & Hrun & Hfit & _).
    exists (length (arrays w)), [drop k (elements history w)].
    rewrite elements_new.
    repeat split;
      [exact Hrun | right | exists (take k (elements history w)) | exact Hfit].
    + destruct (arrays w !! history) eqn:Hh.
      * eapply lookup_lt_Some; eassumption.
      * unfold elements in Hk. rewrite Hh in Hk. cbn in Hk. lia.
    + now rewrite take_drop.
Qed.

Lemma lookup_grown (a : ArrayRef) w extra :
  (extra = [] \/ (a < length (arrays w))%nat) ->
  (arrays w ++ extra) !! a = arrays w !! a.
Proof.
  intros [->|Hlt]; [now rewrite app_nil_r | now apply lookup_app_l].
Qed.

(** ** queryAzureOpenAIMultiTurn *)

(** The world a query leaves: possibly one more array, one more request,
    and whatever the outside did while [fetch] was awaited.  The session
    object and the arrays that existed are as they were; this holds whether
    the query returns or throws. *)
Lemma queryAzureOpenAIMultiTurn_world (history : ArrayRef)
  (apiKey endpoint model apiVersion : string) w :
  exists extra req x dropped kept,
    snd (queryAzureOpenAIMultiTurn env history apiKey endpoint model apiVersion w)
    = mkWorld (arrays w ++ extra) (session w) (requests w ++ [req]) x
    /\ (extra = [] \/ (history < length (arrays w))%nat)
    /\ elements history w = dropped ++ kept
    /\ totalTokens kept <= MAX_AZURE_CONTEXT_TOKENS
    /\ req_messages req = map toOpenAIMessage kept
    /\ req_api_key req = apiKey.
Proof.
  destruct (truncateHistory_result history w)
    as (truncated & extra & Hrun & Hextra & (dropped & Hsuffix) & Hfit).
  exists extra. unfold queryAzureOpenAIMultiTurn.
  rewrite (bind_ok _ _ _ _ _ Hrun).
  unfold conversationToOpenAIMessages.
  unfold bind at 1. unfold bind at 1. unfold gets at 1. unfold ret at 1.
  match goal with |- context [doFetch env ?r] => exists r end.
  unfold bind at 1, doFetch, bind at 1, modify at 1, outside.
  cbn [set_requests set_arrays arrays session requests ext].
  destruct (fetch env _ (ext w)) as [[e|response] x]; exists x;
    exists dropped, (elements truncated (set_arrays (arrays w ++ extra) w)).
  - repeat split; assumption.
  - repeat split; try assumption.
    destruct (ok response); cbn [negb].
    + destruct (json response) as [e|data]; [reflexivity|].
      unfold bind, settled, ret.
      destruct (error data); [reflexivity|].
      destruct (firstChoiceContent data) as [c|]; [|reflexivity].
      now destruct (truthy c).
    + now destruct (text response).
Qed.

(** ** Claims about the truncation *)

(** C10.  A history whose estimate is within the ceiling is returned as it
    is: the same array, and a world in which nothing has changed. *)
Theorem truncateHistory_identity_within_ceiling (history : ArrayRef) w :
  totalTokens (elements history w) <= MAX_AZURE_CONTEXT_TOKENS ->
  truncateHistory history w = (inr history, w).
Proof.
  intros Hle. unfold truncateHistory, bind, gets.
  destruct (Z.leb_spec (totalTokens (elements history w)) MAX_AZURE_CONTEXT_TOKENS);
    [reflexivity | lia].
Qed.

(** When the newest entry alone is over the ceiling, the loop breaks on its
    first round and the returned array is empty. *)
Lemma truncateHistory_oversized_newest (history : ArrayRef) w older newest :
  elements history w = older ++ [newest] ->
  estimateTokens (content newest) > MAX_AZURE_CONTEXT_TOKENS ->
  exists w',
    truncateHistory history w = (inr (length (arrays w)), w')
    /\ elements (length (arrays w)) w' = [].
Proof.
  intros Hh Hbig.
  assert (Hover : totalTokens (elements history w) > MAX_AZURE_CONTEXT_TOKENS).
  { rewrite Hh, totalTokens_app, totalTokens_cons.
    change (totalTokens []) with 0. pose proof (totalTokens_nonneg older). lia. }
  destruct (truncateHistory_over history w Hover) as (k & Hk & Hrun & Hfit & _).
  eexists. split; [exact Hrun|].
  rewrite elements_new.
  rewrite Hh in *. rewrite length_app in Hk. cbn in Hk.
  destruct (decide (k = length older + 1)%nat) as [->|Hlt].
  - apply drop_ge. rewrite length_app. cbn. lia.
  - exfalso. rewrite drop_app_le in Hfit by lia.
    rewrite totalTokens_app, totalTokens_cons in Hfit.
    change (totalTokens []) with 0 in Hfit.
    pose proof (totalTokens_nonneg (drop k older)). lia.
Qed.

(** C1, as the code has it.  For a history over the ceiling [truncateHistory]
    returns a new array holding a suffix of the history, whole entries in
    their original order, whose estimate is within the ceiling; the history
    array itself is left as it was.  The cut is where the entries, taken
    from the newest backwards, stop fitting.  The newest entry is kept
    whenever its own estimate is within the ceiling. *)
Theorem truncateHistory_suffix_within_ceiling (history : ArrayRef) w :
  totalTokens (elements history w) > MAX_AZURE_CONTEXT_TOKENS ->
  exists (truncated : ArrayRef) w' dropped,
    truncateHistory history w = (inr truncated, w')
    /\ elements history w = dropped ++ elements truncated w'
    /\ totalTokens (elements truncated w') <= MAX_AZURE_CONTEXT_TOKENS
    /\ elements history w' = elements history w
    /\ (exists d, last dropped = Some d
          /\ totalTokens (elements truncated w') + estimateTokens (content d)
             > MAX_AZURE_CONTEXT_TOKENS)
    /\ (forall newest,
          last (elements history w) = Some newest ->
          estimateTokens (content newest) <= MAX_AZURE_CONTEXT_TOKENS ->
          last (elements truncated w') = Some newest).
Proof.
  intros Hover.
  destruct (truncateHistory_over history w Hover)
    as (k & Hk & Hrun & Hfit & d & Hd & Hd_over).
  set (h := elements history w) in *.
  assert (Hvalid : (history < length (arrays w))%nat).
  { destruct (arrays w !! history) eqn:Hh.
    - eapply lookup_lt_Some; eassumption.
    - subst h. unfold elements in Hk. rewrite Hh in Hk. cbn in Hk. lia. }
  exists (length (arrays w)), (set_arrays (arrays w ++ [drop k h]) w), (take k h).
  rewrite elements_new. repeat split.
  - exact Hrun.
  - now rewrite take_drop.
  - exact Hfit.
  - subst h. unfold elements. cbn. now rewrite lookup_app_l by assumption.
  - exists d. split; [|exact Hd_over].
    rewrite last_lookup, length_take, lookup_take_lt by lia.
    replace (pred (k `min` length h)) with (k - 1)%nat by lia. exact Hd.
  - intros newest Hlast Hsmall.
    rewrite last_lookup in Hlast.
    assert (Hk' : (k < length h)%nat).
    { destruct (decide (k = length h)) as [->|]; [|lia].
      rewrite drop_all in Hd_over. change (totalTokens []) with 0 in Hd_over.
      replace (length h - 1)%nat with (pred (length h)) in Hd by lia.
      rewrite Hd in Hlast. injection Hlast as ->. lia. }
    rewrite last_lookup, lookup_drop, length_drop.
    replace (k + pred (length h - k))%nat with (pred (length h)) by lia.
    exact Hlast.
Qed.

(** C3.  A query leaves the history array it was given, and every other
    array that existed, with the entries it had; the session object is not
    touched either.  What is truncated is the list of messages of the one
    request the query sends: a suffix of the history within the ceiling. *)
Theorem queryAzureOpenAIMultiTurn_preserves_history (history : ArrayRef)
  (apiKey endpoint model apiVersion : string) w :
  let w' :=
    snd (queryAzureOpenAIMultiTurn env history apiKey endpoint model apiVersion w) in
  elements history w' = elements history w
  /\ session w' = session w
  /\ (forall a : ArrayRef,
        (a < length (arrays w))%nat -> arrays w' !! a = arrays w !! a)
  /\ exists req dropped kept,
       requests w' = requests w ++ [req]
       /\ elements history w = dropped ++ kept
       /\ req_messages req = map toOpenAIMessage kept.
Proof.
  intros w'.
  destruct (queryAzureOpenAIMultiTurn_world history apiKey endpoint model apiVersion w)
    as (extra & req & x & dropped & kept & Hw' & Hextra & Hsuffix & _ & Hreq & _).
  fold w' in Hw'. rewrite Hw'. cbn. repeat split.
  - unfold elements. cbn. now rewrite lookup_grown.
  - intros a Ha. now apply lookup_app_l.
  - now exists req, dropped, kept.
Qed.

(** ** The turns and their phases *)

Lemma bind_assoc {A B C} (m : M Ext A) (f : A -> M Ext B) (g : B -> M Ext C) w :
  bind (bind m f) g w = bind m (fun a => bind (f a) g) w.
Proof. unfold bind. now destruct (m w) as [[e|a] w']. Qed.

Lemma initTurn_phases (cfg : Config) (mode : Mode) w :
  initTurn env cfg mode w
  = (let! response := askBackend env cfg (initPromptOf env mode (session w)) in
     handleInitReply env response) w.
Proof.
  unfold askBackend. rewrite !bind_assoc. reflexivity.
Qed.

Lemma loopBody_phases (cfg : Config) (mode : Mode) (message : PendingMessage)
  (lastCwd : option string) w :
  loopBody env cfg mode message lastCwd w
  = (let! p := prepareItem env mode message lastCwd in
     let! response := askBackend env cfg (fst (fst p)) in
     handleReply env response (snd (fst p)) (snd p)) w.
Proof.
  unfold loopBody, prepareItem, askBackend, handleReply. unfold_computation.
  destruct (msg_type message).
  - destruct (prompt_number message); cbn;
      destruct (truthy_opt (memorySessionId (session w))); cbn; reflexivity.
  - cbn. destruct (memorySessionId (session w)) as [memId|]; cbn; [|reflexivity].
    destruct (truthy memId); cbn; reflexivity.
Qed.

Lemma askBackend_unfold (cfg : Config) (prompt : string) w :
  askBackend env cfg prompt w
  = queryAzureOpenAIMultiTurn env (conversationHistory (session w))
      (apiKey cfg) (endpoint cfg) (model cfg) (apiVersion cfg)
      (promptAppended prompt w).
Proof. reflexivity. Qed.

Lemma elements_promptAppended (prompt : string) w :
  (conversationHistory (session w) < length (arrays w))%nat ->
  elements (conversationHistory (session w)) (promptAppended prompt w)
  = elements (conversationHistory (session w)) w ++ [mkMsg user prompt].
Proof.
  intros Hvalid. unfold elements, promptAppended. cbn.
  rewrite list_lookup_alter_eq.
  destruct (lookup_lt_is_Some_2 _ _ Hvalid) as [h ->]. reflexivity.
Qed.

(** After [askBackend], returned or thrown: the session object is the same,
    its history has gained exactly the prompt, one request has been sent. *)
Lemma askBackend_world (cfg : Config) (prompt : string) w :
  (conversationHistory (session w) < length (arrays w))%nat ->
  let w' := snd (askBackend env cfg prompt w) in
  session w' = session w
  /\ elements (conversationHistory (session w)) w'
     = elements (conversationHistory (session w)) w ++ [mkMsg user prompt]
  /\ (length (arrays w) <= length (arrays w'))%nat
  /\ exists req, requests w' = requests w ++ [req].
Proof.
  intros Hvalid w'. subst w'. rewrite askBackend_unfold.
  destruct (queryAzureOpenAIMultiTurn_world (conversationHistory (session w))
              (apiKey cfg) (endpoint cfg) (model cfg) (apiVersion cfg)
              (promptAppended prompt w))
    as (extra & req & x & _ & _ & Hw' & Hextra & _).
  rewrite Hw'. cbn. repeat split.
  - rewrite <- elements_promptAppended by assumption.
    unfold elements. cbn.
    rewrite lookup_app_l; [reflexivity|]. now rewrite length_alter.
  - rewrite length_app, length_alter. lia.
  - now exists req.
Qed.

(** ** The handler *)

Lemma startSession_tryCatch (this : AzureOpenAIAgent Ext) w :
  startSession env this w = tryCatch env this (startSession_try env) w.
Proof. reflexivity. Qed.

(** Once a prefix of the [try] block has run to its end, the rest of the
    block runs under the same handler. *)
Lemma tryCatch_bind_ok {A} (this : AzureOpenAIAgent Ext) (pre : M Ext A)
  (k : A -> M Ext unit) w a w' :
  pre w = (inr a, w') ->
  tryCatch env this (bind pre k) w = tryCatch env this (k a) w'.
Proof. intros E. unfold tryCatch, bind. now rewrite E. Qed.

Lemma tryCatch_bind_throws {A} (this : AzureOpenAIAgent Ext) (pre : M Ext A)
  (k : A -> M Ext unit) w e w' :
  pre w = (inl e, w') ->
  tryCatch env this (bind pre k) w = startSession_catch env this e w'.
Proof. intros E. unfold tryCatch, bind. now rewrite E. Qed.

Lemma startSession_catch_fallback (this : AzureOpenAIAgent Ext) fb e w :
  fallbackAgent this = Some fb ->
  isAbortError env e = false ->
  shouldFallbackToClaude env e = true ->
  startSession_catch env this e w = fallback_startSession fb w.
Proof. intros Hfb Habort Hfall. unfold startSession_catch. now rewrite Habort, Hfb, Hfall. Qed.

Lemma startSession_catch_abort (this : AzureOpenAIAgent Ext) e w :
  isAbortError env e = true ->
  startSession_catch env this e w = (inl e, w).
Proof. intros Habort. unfold startSession_catch. now rewrite Habort. Qed.

Lemma startSession_catch_rethrow (this : AzureOpenAIAgent Ext) e w :
  fallbackAgent this = None \/ shouldFallbackToClaude env e = false ->
  startSession_catch env this e w = (inl e, w).
Proof.
  intros H. unfold startSession_catch.
  destruct (isAbortError env e); [reflexivity|].
  destruct (fallbackAgent this); [|reflexivity].
  destruct H as [H|H]; [discriminate | now rewrite H].
Qed.

(** ** Claims about the handler *)

(** C7.  An error raised anywhere in the [try] block that [isAbortError]
    recognises leaves [startSession] as it was raised, in the world of the
    failure; the result does not depend on the fallback agent, which is not
    called. *)
Theorem abort_propagates_without_fallback (this : AzureOpenAIAgent Ext)
  w (e : JsError) w' :
  startSession_try env w = (inl e, w') ->
  isAbortError env e = true ->
  startSession env this w = (inl e, w').
Proof.
  intros Htry Habort. unfold startSession. rewrite Htry.
  now apply startSession_catch_abort.
Qed.

(** ** Recording a reply *)

Lemma truthy_false_empty (s : string) : truthy s = false -> s = "".
Proof.
  unfold truthy. intros H. apply String.eqb_eq.
  now destruct (String.eqb s "").
Qed.

Lemma or_str_self (s : string) : or_str (Some s) "" = s.
Proof.
  unfold or_str. destruct (truthy s) eqn:H; [reflexivity|].
  symmetry. now apply truthy_false_empty.
Qed.

Lemma askBackend_session (cfg : Config) (prompt : string) w :
  session (snd (askBackend env cfg prompt w)) = session w.
Proof.
  rewrite askBackend_unfold.
  destruct (queryAzureOpenAIMultiTurn_world (conversationHistory (session w))
              (apiKey cfg) (endpoint cfg) (model cfg) (apiVersion cfg)
              (promptAppended prompt w))
    as (extra & req & x & _ & _ & -> & _).
  reflexivity.
Qed.

(** What [prepareItem] changes: the item's id joins [processingMessageIds]
    and an observation may set [lastPromptNumber]; the arrays, the counters,
    the handle, the requests and the outside are as before. *)
Lemma prepareItem_frame (mode : Mode) (message : PendingMessage)
  (lastCwd : option string) w :
  let w' := snd (prepareItem env mode message lastCwd w) in
  arrays w' = arrays w /\ requests w' = requests w /\ ext w' = ext w
  /\ conversationHistory (session w') = conversationHistory (session w)
  /\ cumulativeInputTokens (session w') = cumulativeInputTokens (session w)
  /\ cumulativeOutputTokens (session w') = cumulativeOutputTokens (session w)
  /\ memorySessionId (session w') = memorySessionId (session w)
  /\ processingMessageIds (session w')
     = processingMessageIds (session w) ++ [persistentId message].
Proof.
  destruct w as [a s r x].
  unfold prepareItem. unfold_computation.
  cbn [session set_session arrays requests ext].
  destruct (msg_type message).
  - destruct (prompt_number message); cbn;
      destruct (truthy_opt (memorySessionId s)); cbn; now repeat split.
  - cbn. destruct (memorySessionId s) as [memId|] eqn:Hm; cbn;
      [destruct (truthy memId)|]; cbn; repeat split; assumption.
Qed.

Lemma recordReply_empty (response : QueryResult) w :
  res_content response = "" -> recordReply response w = (inr 0, w).
Proof. intros H. unfold recordReply. now rewrite H. Qed.

Lemma recordReply_content (response : QueryResult) w :
  truthy (res_content response) = true ->
  exists w',
    recordReply response w = (inr (or_zero (res_tokensUsed response)), w')
    /\ arrays w'
       = alter (fun l => l ++ [mkMsg assistant (res_content response)])
           (conversationHistory (session w)) (arrays w)
    /\ cumulativeInputTokens (session w')
       = f64_add (cumulativeInputTokens (session w))
           (floor_scaled (or_zero (res_tokensUsed response)) f64_0_7)
    /\ cumulativeOutputTokens (session w')
       = f64_add (cumulativeOutputTokens (session w))
           (floor_scaled (or_zero (res_tokensUsed response)) f64_0_3)
    /\ lastPromptNumber (session w') = lastPromptNumber (session w)
    /\ processingMessageIds (session w') = processingMessageIds (session w)
    /\ requests w' = requests w.
Proof.
  intros H. unfold recordReply. rewrite H.
  eexists. split; [reflexivity|]. cbn. now repeat split.
Qed.

(** Lines 155 and 172-177: an empty first reply is logged and the pass goes
    on to the loop; nothing is appended, counted or processed. *)
Lemma handleInitReply_empty (response : QueryResult) w :
  res_content response = "" -> handleInitReply env response w = (inr tt, w).
Proof. intros H. unfold handleInitReply. now rewrite H. Qed.

(** Lines 155-171: a first reply with content is appended and counted like
    the reply to an item, then handed to the response processor. *)
Lemma handleInitReply_content (response : QueryResult) w :
  truthy (res_content response) = true ->
  exists w',
    handleInitReply env response w
    = processAgentResponse env (res_content response)
        (or_zero (res_tokensUsed response)) None AGENT_NAME None w'
    /\ arrays w'
       = alter (fun l => l ++ [mkMsg assistant (res_content response)])
           (conversationHistory (session w)) (arrays w)
    /\ cumulativeInputTokens (session w')
       = f64_add (cumulativeInputTokens (session w))
           (floor_scaled (or_zero (res_tokensUsed response)) f64_0_7)
    /\ cumulativeOutputTokens (session w')
       = f64_add (cumulativeOutputTokens (session w))
           (floor_scaled (or_zero (res_tokensUsed response)) f64_0_3).
Proof.
  intros H. unfold handleInitReply. rewrite H.
  eexists. split; [reflexivity|]. cbn. now repeat split.
Qed.

(** ** Claims about the accounting *)

(** C4, as the code has it.  When the reply to a work item has content and
    reports [tokens_used], the orchestrator hands the reply to the response
    processor in a world where the input counter is the binary64 sum of its
    earlier value and [Math.floor(tokens_used * 0.7)], and the output counter
    the binary64 sum of its earlier value and [Math.floor(tokens_used * 0.3)],
    both products taken in binary64; for [tokens_used = 100] the two addends
    are 70 and 30. *)
Theorem usage_split_between_counters (cfg : Config) (mode : Mode)
  (message : PendingMessage) (lastCwd : option string) w
  (prompt : string) (ts : option Z) (cwd' : option string) w1
  (response : QueryResult) w2 (tokens_used : Z) :
  prepareItem env mode message lastCwd w = (inr (prompt, ts, cwd'), w1) ->
  askBackend env cfg prompt w1 = (inr response, w2) ->
  truthy (res_content response) = true ->
  res_tokensUsed response = Some tokens_used ->
  exists w3,
    loopBody env cfg mode message lastCwd w
    = (processAgentResponse env (res_content response) tokens_used ts
         AGENT_NAME cwd' ;; ret cwd') w3
    /\ cumulativeInputTokens (session w3)
       = f64_add (cumulativeInputTokens (session w))
           (floor_scaled tokens_used f64_0_7)
    /\ cumulativeOutputTokens (session w3)
       = f64_add (cumulativeOutputTokens (session w))
           (floor_scaled tokens_used f64_0_3)
    /\ (tokens_used = 100 ->
        cumulativeInputTokens (session w3)
        = f64_add (cumulativeInputTokens (session w)) (f64_of_Z 70)
        /\ cumulativeOutputTokens (session w3)
           = f64_add (cumulativeOutputTokens (session w)) (f64_of_Z 30)).
Proof.
  intros Hprep Hask Hcontent Husage.
  destruct (recordReply_content response w2 Hcontent)
    as (w3 & Hrec & _ & Hin & Hout & _).
  rewrite Husage in Hrec, Hin, Hout. cbn [or_zero default] in Hrec, Hin, Hout.
  pose proof (askBackend_session cfg prompt w1) as Hs2. rewrite Hask in Hs2.
  pose proof (prepareItem_frame mode message lastCwd w) as Hframe.
  rewrite Hprep in Hframe. cbn in Hs2, Hframe.
  destruct Hframe as (_ & _ & _ & _ & Hin1 & Hout1 & _).
  rewrite Hs2, Hin1 in Hin. rewrite Hs2, Hout1 in Hout.
  exists w3. repeat split; try assumption.
  - rewrite loopBody_phases.
    rewrite (bind_ok _ _ _ _ _ Hprep). cbn [fst snd].
    rewrite (bind_ok _ _ _ _ _ Hask).
    unfold handleReply. rewrite (bind_ok _ _ _ _ _ Hrec).
    now rewrite or_str_self.
  - rewrite Hin. now subst tokens_used.
  - rewrite Hout. now subst tokens_used.
Qed.

(** C5.  When the reply to a work item has empty content, the orchestrator
    calls the response processor with [''] and zero tokens in the world the
    query left: the history has gained the prompt and nothing else, both
    counters are as before.  The orchestrator raises nothing itself, and
    when the response processor returns, the loop goes on with the next
    item. *)
Theorem empty_reply_is_tolerated (cfg : Config) (mode : Mode)
  (message : PendingMessage) (rest : list IterStep) (lastCwd : option string) w
  (prompt : string) (ts : option Z) (cwd' : option string) w1
  (response : QueryResult) w2 :
  (conversationHistory (session w) < length (arrays w))%nat ->
  prepareItem env mode message lastCwd w = (inr (prompt, ts, cwd'), w1) ->
  askBackend env cfg prompt w1 = (inr response, w2) ->
  res_content response = "" ->
  loopBody env cfg mode message lastCwd w
  = (processAgentResponse env "" 0 ts AGENT_NAME cwd' ;; ret cwd') w2
  /\ elements (conversationHistory (session w)) w2
     = elements (conversationHistory (session w)) w ++ [mkMsg user prompt]
  /\ cumulativeInputTokens (session w2) = cumulativeInputTokens (session w)
  /\ cumulativeOutputTokens (session w2) = cumulativeOutputTokens (session w)
  /\ (forall w3,
        processAgentResponse env "" 0 ts AGENT_NAME cwd' w2 = (inr tt, w3) ->
        messageLoop env cfg mode (Yield message :: rest) lastCwd w
        = messageLoop env cfg mode rest cwd' w3).
Proof.
  intros Hvalid Hprep Hask Hempty.
  pose proof (prepareItem_frame mode message lastCwd w) as Hframe.
  rewrite Hprep in Hframe. cbn in Hframe.
  destruct Hframe as (Harr & _ & _ & Href & Hin1 & Hout1 & _).
  assert (Hvalid1 : (conversationHistory (session w1) < length (arrays w1))%nat)
    by now rewrite Href, Harr.
  pose proof (askBackend_world cfg prompt w1 Hvalid1) as Hworld.
  rewrite Hask in Hworld. cbn in Hworld.
  destruct Hworld as (Hs2 & Hhist & _).
  assert (Hbody : loopBody env cfg mode message lastCwd w
                  = (processAgentResponse env "" 0 ts AGENT_NAME cwd' ;; ret cwd') w2).
  { rewrite loopBody_phases.
    rewrite (bind_ok _ _ _ _ _ Hprep). cbn [fst snd].
    rewrite (bind_ok _ _ _ _ _ Hask).
    unfold handleReply.
    rewrite (bind_ok _ _ _ _ _ (recordReply_empty response w2 Hempty)).
    now rewrite or_str_self, Hempty. }
  repeat split.
  - exact Hbody.
  - rewrite Href in Hhist. rewrite Hhist. f_equal.
    unfold elements. now rewrite Harr.
  - now rewrite Hs2.
  - now rewrite Hs2.
  - intros w3 Hproc. cbn [messageLoop]. unfold bind at 1. rewrite Hbody.
    unfold bind at 1. rewrite Hproc. reflexivity.
Qed.

(** ** Claims about the configuration, the handle and the precondition *)

(** The API key is empty exactly when neither the setting nor the
    credential provides one. *)
Lemma apiKey_empty_iff (x : Ext) :
  apiKey (getAzureOpenAIConfig env x) = ""
  <-> truthy_opt (CLAUDE_MEM_AZURE_OPENAI_API_KEY (loadFromFile env x)) = false
      /\ truthy_opt (getCredential env "AZURE_OPENAI_API_KEY" x) = false.
Proof.
  unfold getAzureOpenAIConfig. cbn [apiKey]. unfold or_opt.
  destruct (truthy_opt (CLAUDE_MEM_AZURE_OPENAI_API_KEY (loadFromFile env x))) eqn:Hs.
  - destruct (CLAUDE_MEM_AZURE_OPENAI_API_KEY (loadFromFile env x)) as [s|];
      [|discriminate]. cbn in *. rewrite Hs. split.
    + intros ->. discriminate.
    + intros [? _]. discriminate.
  - destruct (getCredential env "AZURE_OPENAI_API_KEY" x) as [c|]; cbn.
    + destruct (truthy c) eqn:Hc.
      * split; [intros ->; discriminate | intros [_ ?]; discriminate].
      * now split.
    + now split.
Qed.

Lemma truthy_false_iff (s : string) : truthy s = false <-> s = "".
Proof.
  split; [apply truthy_false_empty | now intros ->].
Qed.

(** [isAzureOpenAIAvailable] is the conjunction of the two guards of
    [startSession]: it is false exactly when one of the three values is
    missing. *)
Lemma isAzureOpenAIAvailable_false_iff (x : Ext) :
  isAzureOpenAIAvailable env x = false
  <-> apiKey (getAzureOpenAIConfig env x) = ""
      \/ endpoint (getAzureOpenAIConfig env x) = ""
      \/ model (getAzureOpenAIConfig env x) = "".
Proof.
  change (isAzureOpenAIAvailable env x)
    with (truthy (apiKey (getAzureOpenAIConfig env x))
          && truthy (endpoint (getAzureOpenAIConfig env x))
          && truthy (model (getAzureOpenAIConfig env x))).
  rewrite !andb_false_iff, !truthy_false_iff. tauto.
Qed.

(** C6, as the code has it.  When the API key, the endpoint or the model is
    missing, the [try] block throws the matching configuration error at once:
    the world is untouched, so no request has been sent.  What [startSession]
    then does is up to its handler: it rethrows the error when the error
    counts as an abort, when there is no fallback agent, or when the
    classifier does not select it for fallback; otherwise the session goes to
    the fallback agent. *)
Theorem missing_configuration_sends_no_request (this : AzureOpenAIAgent Ext) w :
  apiKey (getAzureOpenAIConfig env (ext w)) = ""
  \/ endpoint (getAzureOpenAIConfig env (ext w)) = ""
  \/ model (getAzureOpenAIConfig env (ext w)) = "" ->
  exists message,
    (message = API_KEY_NOT_CONFIGURED \/ message = ENDPOINT_OR_MODEL_NOT_CONFIGURED)
    /\ startSession_try env w = (inl (Error message), w)
    /\ requests (snd (startSession_try env w)) = requests w
    /\ startSession env this w = startSession_catch env this (Error message) w
    /\ (isAbortError env (Error message) = true
        \/ fallbackAgent this = None
        \/ shouldFallbackToClaude env (Error message) = false ->
        startSession env this w = (inl (Error message), w))
    /\ (forall fb,
          fallbackAgent this = Some fb ->
          isAbortError env (Error message) = false ->
          shouldFallbackToClaude env (Error message) = true ->
          startSession env this w = fallback_startSession fb w).
Proof.
  intros Hmissing.
  assert (Htry : exists message,
             (message = API_KEY_NOT_CONFIGURED
              \/ message = ENDPOINT_OR_MODEL_NOT_CONFIGURED)
             /\ startSession_try env w = (inl (Error message), w)).
  { unfold startSession_try, bind, gets.
    destruct (truthy (apiKey (getAzureOpenAIConfig env (ext w)))) eqn:Hkey; cbn [negb].
    - exists ENDPOINT_OR_MODEL_NOT_CONFIGURED. split; [now right|].
      destruct Hmissing as [H|[H|H]]; rewrite H in *; cbn in *.
      + discriminate.
      + reflexivity.
      + now rewrite orb_true_r.
    - exists API_KEY_NOT_CONFIGURED. split; [now left | reflexivity]. }
  destruct Htry as (message & Hmsg & Htry).
  assert (Hstart : startSession env this w
                   = startSession_catch env this (Error message) w).
  { unfold startSession. now rewrite Htry. }
  exists message. repeat split; try assumption.
  - now rewrite Htry.
  - intros [Habort|Hnone]; rewrite Hstart.
    + now apply startSession_catch_abort.
    + now apply startSession_catch_rethrow.
  - intros fb Hfb Habort Hfall. rewrite Hstart.
    now apply startSession_catch_fallback.
Qed.

(** C8, as the code has it.  A [summarize] item met while the session has no
    handle makes the loop body throw the precondition error.  The arrays
    (so the conversation history), both counters, the prompt number, the
    handle, the requests and the outside are as before; the item's id has
    already joined [processingMessageIds]. *)
Theorem summarize_without_handle_fails (cfg : Config) (mode : Mode)
  (message : PendingMessage) (lastCwd : option string) w :
  msg_type message = summarize ->
  truthy_opt (memorySessionId (session w)) = false ->
  exists w',
    loopBody env cfg mode message lastCwd w
    = (inl (Error CANNOT_PROCESS_SUMMARY), w')
    /\ arrays w' = arrays w
    /\ conversationHistory (session w') = conversationHistory (session w)
    /\ cumulativeInputTokens (session w') = cumulativeInputTokens (session w)
    /\ cumulativeOutputTokens (session w') = cumulativeOutputTokens (session w)
    /\ lastPromptNumber (session w') = lastPromptNumber (session w)
    /\ memorySessionId (session w') = memorySessionId (session w)
    /\ requests w' = requests w
    /\ ext w' = ext w
    /\ processingMessageIds (session w')
       = processingMessageIds (session w) ++ [persistentId message].
Proof.
  intros Htype Hunbound. destruct w as [a s r x]. cbn in Hunbound.
  unfold loopBody. unfold_computation.
  rewrite Htype. cbn.
  destruct (memorySessionId s) as [memId|] eqn:Hm; cbn in *.
  - rewrite Hunbound. cbn. eexists. split; [reflexivity|].
    cbn. repeat split. assumption.
  - eexists. split; [reflexivity|]. cbn. repeat split. assumption.
Qed.

(** The handle of a session that has one is left alone. *)
Lemma assignMemorySessionId_bound w :
  truthy_opt (memorySessionId (session w)) = true ->
  assignMemorySessionId env w = (inr tt, w).
Proof.
  intros H. unfold assignMemorySessionId, bind, gets. now rewrite H.
Qed.

Lemma assignMemorySessionId_unbound w :
  truthy_opt (memorySessionId (session w)) = false ->
  memorySessionId (session (snd (assignMemorySessionId env w)))
  = Some (syntheticId (contentSessionId (session w)) (Date_now env (ext w))).
Proof.
  intros H. unfold assignMemorySessionId, bind, gets. rewrite H. cbn.
  unfold outside. cbn.
  now destruct (updateMemorySessionId env _ _ _).
Qed.

Lemma syntheticId_inj (contentSessionId : string) (t1 t2 : Z) :
  syntheticId contentSessionId t1 = syntheticId contentSessionId t2 -> t1 = t2.
Proof.
  unfold syntheticId. intros H.
  repeat apply (inj (String.app _)) in H.
  now apply (inj pretty) in H.
Qed.

(** C9, as the code has it.  The handle generated for a session without one
    is [azure-openai-<contentSessionId>-<Date.now()>].  Two runs of the step
    from the same session state produce the same handle exactly when the
    clock reads the same in both. *)
Theorem synthetic_handle_follows_clock w1 w2 :
  truthy_opt (memorySessionId (session w1)) = false ->
  session w2 = session w1 ->
  memorySessionId (session (snd (assignMemorySessionId env w1)))
  = Some (syntheticId (contentSessionId (session w1)) (Date_now env (ext w1)))
  /\ (memorySessionId (session (snd (assignMemorySessionId env w1)))
      = memorySessionId (session (snd (assignMemorySessionId env w2)))
      <-> Date_now env (ext w1) = Date_now env (ext w2)).
Proof.
  intros Hunbound Hsame.
  rewrite (assignMemorySessionId_unbound w1 Hunbound).
  rewrite (assignMemorySessionId_unbound w2) by now rewrite Hsame.
  rewrite Hsame. split; [reflexivity|]. split.
  - intros H. apply (inj Some) in H. now apply syntheticId_inj in H.
  - now intros ->.
Qed.

(** ** The call sites under the handler

    The three places where the [try] block asks the backend, seen from
    [startSession] and from the loop: a failing call there ends in the
    fallback agent, with the history the call was given. *)

Lemma handoff_at_call (this : AzureOpenAIAgent Ext) (fb : FallbackAgent Ext)
  (cfg : Config) (prompt : string) (k : QueryResult -> M Ext unit) w e w_fail :
  fallbackAgent this = Some fb ->
  isAbortError env e = false ->
  shouldFallbackToClaude env e = true ->
  askBackend env cfg prompt w = (inl e, w_fail) ->
  tryCatch env this (let! response := askBackend env cfg prompt in k response) w
  = fallback_startSession fb w_fail.
Proof.
  intros Hfb Habort Hfall Hask.
  rewrite (tryCatch_bind_throws _ _ _ _ _ _ Hask).
  now apply startSession_catch_fallback.
Qed.

(** The first call of a pass. *)
Lemma startSession_first_call_fails (this : AzureOpenAIAgent Ext)
  (fb : FallbackAgent Ext) w w1 e w_fail :
  let cfg := getAzureOpenAIConfig env (ext w) in
  truthy (apiKey cfg) = true ->
  truthy (endpoint cfg) = true ->
  truthy (model cfg) = true ->
  assignMemorySessionId env w = (inr tt, w1) ->
  (conversationHistory (session w1) < length (arrays w1))%nat ->
  let prompt := initPromptOf env (getActiveMode env (ext w1)) (session w1) in
  askBackend env cfg prompt w1 = (inl e, w_fail) ->
  fallbackAgent this = Some fb ->
  isAbortError env e = false ->
  shouldFallbackToClaude env e = true ->
  startSession env this w = fallback_startSession fb w_fail
  /\ elements (conversationHistory (session w_fail)) w_fail
     = elements (conversationHistory (session w1)) w1 ++ [mkMsg user prompt].
Proof.
  intros cfg Hkey Hend Hmodel Hassign Hvalid prompt Hask Hfb Habort Hfall.
  pose proof (askBackend_world cfg prompt w1 Hvalid) as Hworld.
  rewrite Hask in Hworld. cbn in Hworld. destruct Hworld as (Hs & Hh & _).
  split; [|now rewrite Hs].
  rewrite startSession_tryCatch. unfold startSession_try.
  unfold tryCatch, bind at 1, gets at 1. fold cfg.
  rewrite Hkey, Hend, Hmodel. cbn [negb orb].
  unfold bind at 1. rewrite Hassign.
  unfold bind at 1, gets at 1. unfold bind at 1.
  rewrite initTurn_phases. fold prompt.
  rewrite (bind_throws _ _ _ _ _ Hask).
  now apply startSession_catch_fallback.
Qed.

(** The call made for an item of the loop. *)
Lemma messageLoop_call_fails (this : AzureOpenAIAgent Ext)
  (fb : FallbackAgent Ext) (cfg : Config) (mode : Mode)
  (message : PendingMessage) (rest : list IterStep) (lastCwd : option string)
  w (prompt : string) (ts : option Z) (cwd' : option string) w1 e w_fail :
  (conversationHistory (session w) < length (arrays w))%nat ->
  prepareItem env mode message lastCwd w = (inr (prompt, ts, cwd'), w1) ->
  askBackend env cfg prompt w1 = (inl e, w_fail) ->
  fallbackAgent this = Some fb ->
  isAbortError env e = false ->
  shouldFallbackToClaude env e = true ->
  tryCatch env this (messageLoop env cfg mode (Yield message :: rest) lastCwd) w
  = fallback_startSession fb w_fail
  /\ elements (conversationHistory (session w_fail)) w_fail
     = elements (conversationHistory (session w)) w ++ [mkMsg user prompt].
Proof.
  intros Hvalid Hprep Hask Hfb Habort Hfall.
  pose proof (prepareItem_frame mode message lastCwd w) as Hframe.
  rewrite Hprep in Hframe. cbn in Hframe.
  destruct Hframe as (Harr & _ & _ & Href & _).
  assert (Hvalid1 : (conversationHistory (session w1) < length (arrays w1))%nat)
    by now rewrite Href, Harr.
  pose proof (askBackend_world cfg prompt w1 Hvalid1) as Hworld.
  rewrite Hask in Hworld. cbn in Hworld. destruct Hworld as (Hs & Hh & _).
  split.
  - unfold tryCatch. cbn [messageLoop]. unfold bind at 1.
    rewrite loopBody_phases, (bind_ok _ _ _ _ _ Hprep). cbn [fst snd].
    rewrite (bind_throws _ _ _ _ _ Hask).
    now apply startSession_catch_fallback.
  - rewrite Hs, Hh, Href. f_equal. unfold elements. now rewrite Harr.
Qed.

Lemma messageLoop_app (cfg : Config) (mode : Mode) (done : list PendingMessage)
  (rest : list IterStep) (lastCwd : option string) w :
  messageLoop env cfg mode (map Yield done ++ rest) lastCwd w
  = (let! lastCwd' := loopOver env cfg mode done lastCwd in
     messageLoop env cfg mode rest lastCwd') w.
Proof.
  revert lastCwd w. induction done as [|message done IH]; intros lastCwd w;
    [reflexivity|].
  cbn [map app messageLoop loopOver]. unfold bind.
  destruct (loopBody env cfg mode message lastCwd w) as [[e|c] w'];
    [reflexivity|].
  rewrite IH. reflexivity.
Qed.

(** ** The claim about the fallback *)

(** C2.  [startSession] hands a failed backend call over to the fallback
    agent with the history the call was given.  Let the guards pass and the
    handle step return, and let a query fail with an error that is not an
    abort and is classified for fallback.  Whether the failing query is the
    first one of the pass, or the one made for an item of the loop after the
    first turn and any number of earlier items went through, [startSession]
    is the fallback agent's [startSession] in the very world the failing
    query left.  In that world the session object is the one of the call, and
    its history is entry for entry the array the failing query was given:
    the entries before the call followed by the prompt that got no
    answer. *)
Theorem fallback_receives_failing_history
  (this : AzureOpenAIAgent Ext) (fb : FallbackAgent Ext) w w1 (e : JsError) w_fail :
  let cfg := getAzureOpenAIConfig env (ext w) in
  let mode := getActiveMode env (ext w1) in
  truthy (apiKey cfg) = true ->
  truthy (endpoint cfg) = true ->
  truthy (model cfg) = true ->
  assignMemorySessionId env w = (inr tt, w1) ->
  fallbackAgent this = Some fb ->
  isAbortError env e = false ->
  shouldFallbackToClaude env e = true ->
  (let prompt := initPromptOf env mode (session w1) in
   let history := conversationHistory (session w1) in
   (history < length (arrays w1))%nat ->
   queryAzureOpenAIMultiTurn env history (apiKey cfg) (endpoint cfg) (model cfg)
     (apiVersion cfg) (promptAppended prompt w1) = (inl e, w_fail) ->
   startSession env this w = fallback_startSession fb w_fail
   /\ session w_fail = session w1
   /\ elements history w_fail = elements history (promptAppended prompt w1)
   /\ elements history w_fail = elements history w1 ++ [mkMsg user prompt])
  /\ (forall w2 (done : list PendingMessage) (message : PendingMessage)
        (rest : list IterStep) (lastCwd : option string) w3
        (prompt : string) (ts : option Z) (cwd' : option string) w4,
        let history := conversationHistory (session w3) in
        initTurn env cfg mode w1 = (inr tt, w2) ->
        getMessageIterator env (sessionDbId (session w2))
        = map Yield done ++ Yield message :: rest ->
        loopOver env cfg mode done None w2 = (inr lastCwd, w3) ->
        (history < length (arrays w3))%nat ->
        prepareItem env mode message lastCwd w3 = (inr (prompt, ts, cwd'), w4) ->
        queryAzureOpenAIMultiTurn env history (apiKey cfg) (endpoint cfg) (model cfg)
          (apiVersion cfg) (promptAppended prompt w4) = (inl e, w_fail) ->
        startSession env this w = fallback_startSession fb w_fail
        /\ session w_fail = session w4
        /\ elements history w_fail = elements history (promptAppended prompt w4)
        /\ elements history w_fail = elements history w3 ++ [mkMsg user prompt]).
Proof.
  intros cfg mode Hkey Hend Hmodel Hassign Hfb Habort Hfall.
  split.
  - intros prompt history Hvalid Hquery.
    assert (Hask : askBackend env cfg prompt w1 = (inl e, w_fail))
      by (rewrite askBackend_unfold; exact Hquery).
    destruct (startSession_first_call_fails this fb w w1 e w_fail
                Hkey Hend Hmodel Hassign Hvalid Hask Hfb Habort Hfall)
      as [Hrun Hhistory].
    pose proof (askBackend_world cfg prompt w1 Hvalid) as Hworld.
    rewrite Hask in Hworld. cbn in Hworld. destruct Hworld as (Hs & _).
    rewrite Hs in Hhistory. fold history in Hhistory.
    split; [exact Hrun|]. split; [exact Hs|]. split; [|exact Hhistory].
    rewrite Hhistory. symmetry. now apply elements_promptAppended.
  - intros w2 done message rest lastCwd w3 prompt ts cwd' w4 history
      Hinit Hiter Hdone Hvalid Hprep Hquery.
    pose proof (prepareItem_frame mode message lastCwd w3) as Hframe.
    rewrite Hprep in Hframe. cbn in Hframe.
    destruct Hframe as (Harr & _ & _ & Href & _).
    assert (Hask : askBackend env cfg prompt w4 = (inl e, w_fail)).
    { rewrite askBackend_unfold, Href. exact Hquery. }
    destruct (messageLoop_call_fails this fb cfg mode message rest lastCwd w3
                prompt ts cwd' w4 e w_fail Hvalid Hprep Hask Hfb Habort Hfall)
      as [Hloop Hhistory].
    assert (Hvalid4 : (conversationHistory (session w4) < length (arrays w4))%nat)
      by now rewrite Href, Harr.
    pose proof (askBackend_world cfg prompt w4 Hvalid4) as Hworld.
    rewrite Hask in Hworld. cbn in Hworld. destruct Hworld as (Hs & _).
    rewrite Hs, Href in Hhistory. fold history in Hhistory.
    split; [|split; [exact Hs|split; [|exact Hhistory]]].
    + rewrite startSession_tryCatch. unfold startSession_try.
      unfold tryCatch, bind at 1, gets at 1. fold cfg.
      rewrite Hkey, Hend, Hmodel. cbn [negb orb].
      unfold bind at 1. rewrite Hassign.
      unfold bind at 1, gets at 1. fold mode.
      unfold bind at 1. rewrite Hinit.
      unfold bind at 1, gets at 1. rewrite Hiter, messageLoop_app.
      unfold bind at 1. rewrite Hdone.
      exact Hloop.
    + rewrite Hhistory. unfold history. rewrite <- Href.
      rewrite elements_promptAppended by exact Hvalid4.
      f_equal. unfold elements. now rewrite Harr.
Qed.

(** ** What the query makes of the backend's answer *)

(** Lines 370-374: a successful answer without content is the empty reply,
    not an error. *)
Lemma query_empty_content (history : ArrayRef)
  (apiKey endpoint model apiVersion : string) w response data :
  (forall req, fst (fetch env req (ext w)) = inr response) ->
  ok response = true ->
  json response = inr data ->
  error data = None ->
  truthy_opt (firstChoiceContent data) = false ->
  fst (queryAzureOpenAIMultiTurn env history apiKey endpoint model apiVersion w)
  = inr (mkResult "" None).
Proof.
  intros Hfetch Hok Hjson Herr Hcontent.
  destruct (truncateHistory_result history w) as (truncated & extra & Hrun & _).
  unfold queryAzureOpenAIMultiTurn.
  rewrite (bind_ok _ _ _ _ _ Hrun).
  unfold conversationToOpenAIMessages, doFetch, modify, outside, bind, gets, ret.
  cbn [set_requests set_arrays arrays session requests ext].
  match goal with |- context [fetch env ?r (ext w)] =>
    specialize (Hfetch r); destruct (fetch env r (ext w)) as [res x] end.
  cbn in Hfetch. subst res. rewrite Hok, Hjson. cbn. rewrite Herr.
  destruct (firstChoiceContent data) as [c|]; [|reflexivity].
  cbn in Hcontent. now rewrite Hcontent.
Qed.

(** Lines 359-362: a response that is not [ok] is thrown with its status. *)
Lemma query_http_error (history : ArrayRef)
  (apiKey endpoint model apiVersion : string) w response errorText :
  (forall req, fst (fetch env req (ext w)) = inr response) ->
  ok response = false ->
  text response = inr errorText ->
  fst (queryAzureOpenAIMultiTurn env history apiKey endpoint model apiVersion w)
  = inl (Error ("Azure OpenAI API error: " +:+ pretty (status response)
                +:+ " - " +:+ errorText)).
Proof.
  intros Hfetch Hok Htext.
  destruct (truncateHistory_result history w) as (truncated & extra & Hrun & _).
  unfold queryAzureOpenAIMultiTurn.
  rewrite (bind_ok _ _ _ _ _ Hrun).
  unfold conversationToOpenAIMessages, doFetch, modify, outside, bind, gets, ret.
  cbn [set_requests set_arrays arrays session requests ext].
  match goal with |- context [fetch env ?r (ext w)] =>
    specialize (Hfetch r); destruct (fetch env r (ext w)) as [res x] end.
  cbn in Hfetch. subst res. rewrite Hok, Htext. reflexivity.
Qed.

End Properties.

(** * The theorems on concrete runs *)

Import Demo.

(** ** Primitives *)

(** The two constants are valid doubles within half a unit in the last
    place of 7/10 and 3/10. *)
Example f64_constants_nearest :
  valid_binary 53 1024 f64_0_7 = true
  /\ Z.abs (10 * 6305039478318694 - 7 * 2 ^ 53) <= 5
  /\ valid_binary 53 1024 f64_0_3 = true
  /\ Z.abs (10 * 5404319552844595 - 3 * 2 ^ 54) <= 5.
Proof. repeat split; vm_compute; discriminate. Qed.

Example floor_scaled_100_in : floor_scaled 100 f64_0_7 = f64_of_Z 70.
Proof. vm_compute. reflexivity. Qed.
Example floor_scaled_100_out : floor_scaled 100 f64_0_3 = f64_of_Z 30.
Proof. vm_compute. reflexivity. Qed.
Example floor_scaled_90_in : floor_scaled 90 f64_0_7 = f64_of_Z 62.
Proof. vm_compute. reflexivity. Qed.
Example floor_scaled_7 : floor_scaled 7 f64_0_7 = f64_of_Z 4.
Proof. vm_compute. reflexivity. Qed.
Example floor_scaled_neg : floor_scaled (-3) f64_0_7 = f64_of_Z (-3).
Proof. vm_compute. reflexivity. Qed.

Example normalizeEndpoint_ex :
  normalizeEndpoint "https://x.azure.com//" = "https://x.azure.com"
  /\ normalizeEndpoint "a/b" = "a/b" /\ normalizeEndpoint "///" = "".
Proof. repeat split. Qed.

(** ** Truncation *)

Lemma truncateHistory_identity_within_ceiling_witness :
  totalTokens (elements 0 w_short) <= MAX_AZURE_CONTEXT_TOKENS
  /\ truncateHistory 0 w_short = (inr 0%nat, w_short).
Proof.
  assert (H : totalTokens (elements 0 w_short) <= MAX_AZURE_CONTEXT_TOKENS)
    by (vm_compute; discriminate).
  split; [exact H | exact (truncateHistory_identity_within_ceiling 0 w_short H)].
Defined.

Lemma truncateHistory_suffix_within_ceiling_witness :
  totalTokens (elements 0 w_long) > MAX_AZURE_CONTEXT_TOKENS
  /\ exists (truncated : ArrayRef) w' dropped,
       truncateHistory 0 w_long = (inr truncated, w')
       /\ elements 0 w_long = dropped ++ elements truncated w'
       /\ totalTokens (elements truncated w') <= MAX_AZURE_CONTEXT_TOKENS
       /\ last (elements truncated w') = Some (mkMsg assistant "next").
Proof.
  assert (H : totalTokens (elements 0 w_long) > MAX_AZURE_CONTEXT_TOKENS)
    by (vm_compute; reflexivity).
  split; [exact H|].
  destruct (truncateHistory_suffix_within_ceiling 0 w_long H)
    as (truncated & w' & dropped & Hrun & Hsuffix & Hfit & _ & _ & Hnewest).
  exists truncated, w', dropped. repeat split; try assumption.
  apply Hnewest; [reflexivity | vm_compute; discriminate].
Defined.

(** A history whose newest entry is itself over the ceiling is over the
    ceiling, and the array sent for it is empty: the newest entry is gone. *)
Lemma truncateHistory_drops_oversized_newest :
  totalTokens (elements 0 w_oversized) > MAX_AZURE_CONTEXT_TOKENS
  /\ ~ keeps_newest 0 w_oversized.
Proof.
  assert (Hbig : estimateTokens (content (sized user 512004))
                 > MAX_AZURE_CONTEXT_TOKENS) by (vm_compute; reflexivity).
  split.
  - change (elements 0 w_oversized) with [sized user 512004].
    rewrite totalTokens_cons. change (totalTokens []) with 0. lia.
  - intros Hkeeps.
    destruct (truncateHistory_oversized_newest 0 w_oversized []
                (sized user 512004) eq_refl Hbig) as (w' & Hrun & Hempty).
    specialize (Hkeeps _ _ Hrun). rewrite Hempty in Hkeeps.
    discriminate Hkeeps.
Qed.

(** ** Fallback and abort *)

Lemma fallback_receives_failing_history_witness :
  (startSession (env []) Runs.agent_marking w_500
   = fallback_startSession Runs.fallback_marks w_500_failed
   /\ elements 0 w_500_failed = [mkMsg user "init:hello"]
   /\ elements 0 (snd (startSession (env []) Runs.agent_marking w_500))
      = [mkMsg user "init:hello"; mkMsg assistant "taken over"])
  /\ (startSession (env Runs.items_late) Runs.agent_marking Runs.w_late
      = fallback_startSession Runs.fallback_marks Runs.w_late_failed
      /\ elements 0 Runs.w_late_failed
         = [mkMsg user "init:hello"; mkMsg assistant "hi";
            mkMsg user "observed:Read"; mkMsg assistant "noted";
            mkMsg user "summarize:done"]
      /\ elements 0 (snd (startSession (env Runs.items_late) Runs.agent_marking
                            Runs.w_late))
         = [mkMsg user "init:hello"; mkMsg assistant "hi";
            mkMsg user "observed:Read"; mkMsg assistant "noted";
            mkMsg user "summarize:done"; mkMsg assistant "taken over"]).
Proof.
  split.
  - destruct (fallback_receives_failing_history (env []) Runs.agent_marking
                Runs.fallback_marks w_500 w_500 error_500 w_500_failed
                eq_refl eq_refl eq_refl eq_refl eq_refl eq_refl eq_refl)
      as [Hfirst _].
    destruct (Hfirst ltac:(vm_compute; lia) ltac:(vm_compute; reflexivity))
      as (Hrun & _ & _ & Hhistory).
    split; [exact Hrun|]. split; [exact Hhistory|].
    rewrite Hrun. vm_compute. reflexivity.
  - destruct (fallback_receives_failing_history (env Runs.items_late)
                Runs.agent_marking Runs.fallback_marks Runs.w_late Runs.w_late
                error_500 Runs.w_late_failed
                eq_refl eq_refl eq_refl eq_refl eq_refl eq_refl eq_refl)
      as [_ Hloop].
    destruct (Hloop Runs.w_late_started [observed 7] (summary 8) []
                (Some "/work") Runs.w_late_observed "summarize:done" None
                (Some "/work") Runs.w_late_prepared
                ltac:(vm_compute; reflexivity) ltac:(reflexivity)
                ltac:(vm_compute; reflexivity) ltac:(vm_compute; lia)
                ltac:(vm_compute; reflexivity) ltac:(vm_compute; reflexivity))
      as (Hrun & _ & _ & Hhistory).
    split; [exact Hrun|]. split; [exact Hhistory|].
    rewrite Hrun. vm_compute. reflexivity.
Defined.

(** The whole pass of the same run: the fallback agent's result is the
    result of [startSession]. *)
Example startSession_500_falls_back :
  startSession (env []) agent_with_fallback w_500 = (inr tt, w_500_failed)
  /\ startSession (env []) agent_alone w_500 = (inl error_500, w_500_failed).
Proof. split; vm_compute; reflexivity. Qed.

Lemma abort_propagates_without_fallback_witness :
  startSession (env []) agent_with_fallback w_aborted
  = (inl error_aborted, w_aborted_failed).
Proof.
  assert (Htry : startSession_try (env []) w_aborted
                 = (inl error_aborted, w_aborted_failed))
    by (vm_compute; reflexivity).
  assert (Habort : isAbortError (env []) error_aborted = true) by reflexivity.
  exact (abort_propagates_without_fallback (env []) agent_with_fallback
           w_aborted error_aborted w_aborted_failed Htry Habort).
Defined.

(** ** Accounting *)

Lemma usage_split_between_counters_witness :
  exists w3,
    loopBody (env []) cfg_ok tt (observed 7) None (w_usage 100)
    = (bind (processAgentResponse (env []) "noted" 100 None AGENT_NAME (Some "/work"))
         (fun _ => ret (Some "/work"))) w3
    /\ cumulativeInputTokens (session w3) = f64_of_Z 80
    /\ cumulativeOutputTokens (session w3) = f64_of_Z 50.
Proof.
  destruct (usage_split_between_counters (env []) cfg_ok tt (observed 7) None
              (w_usage 100) "observed:Read" None (Some "/work")
              (w_usage_prepared 100) (mkResult "noted" (Some 100))
              (w_usage_answered 100) 100
              ltac:(vm_compute; reflexivity) ltac:(vm_compute; reflexivity)
              eq_refl eq_refl)
    as (w3 & Hbody & _ & _ & H100).
  exists w3. destruct (H100 eq_refl) as [Hin Hout].
  split; [exact Hbody|]. split; [exact Hin | exact Hout].
Defined.

(** For [tokens_used = 90] the input counter grows by 62, one less than the
    exact floor of 63: the double [90 * 0.7] is [62.99999999999999].  The
    counter goes from 10 to 72, not to 73. *)
Lemma usage_split_is_not_the_exact_floor :
  let w' := snd (loopBody (env []) cfg_ok tt (observed 7) None (w_usage 90)) in
  cumulativeInputTokens (session (w_usage 90)) = f64_of_Z 10
  /\ exact_share 90 7 = 63
  /\ cumulativeInputTokens (session w') = f64_of_Z (10 + 62)
  /\ cumulativeInputTokens (session w') <> f64_of_Z (10 + exact_share 90 7).
Proof.
  split; [reflexivity|]. split; [reflexivity|].
  split; [vm_compute; reflexivity | vm_compute; discriminate].
Qed.

(** The sum is a double too: at a counter of [2^53] the share of two tokens,
    which is 1, is lost. *)
Example counter_saturates :
  floor_scaled 2 f64_0_7 = f64_of_Z 1
  /\ f64_add (f64_of_Z (2 ^ 53)) (floor_scaled 2 f64_0_7) = f64_of_Z (2 ^ 53)
  /\ f64_of_Z (2 ^ 53) <> f64_of_Z (2 ^ 53 + 2).
Proof.
  split; [vm_compute; reflexivity|].
  split; [vm_compute; reflexivity | vm_compute; discriminate].
Qed.

Lemma empty_reply_is_tolerated_witness :
  elements 0 w_empty_answered = [mkMsg user "observed:Read"]
  /\ cumulativeInputTokens (session w_empty_answered) = f64_of_Z 10
  /\ cumulativeOutputTokens (session w_empty_answered) = f64_of_Z 20
  /\ messageLoop (env []) cfg_ok tt [Yield (observed 7); Yield (summary 8)] None w_empty
     = messageLoop (env []) cfg_ok tt [Yield (summary 8)] (Some "/work") w_empty_answered.
Proof.
  destruct (empty_reply_is_tolerated (env []) cfg_ok tt (observed 7)
              [Yield (summary 8)] None w_empty "observed:Read" None (Some "/work")
              w_empty_prepared (mkResult "" None) w_empty_answered
              ltac:(vm_compute; lia)
              ltac:(vm_compute; reflexivity) ltac:(vm_compute; reflexivity)
              eq_refl)
    as (_ & Hhistory & Hin & Hout & Hloop).
  split; [exact Hhistory|]. split; [exact Hin|]. split; [exact Hout|].
  apply Hloop. reflexivity.
Defined.

(** ** Configuration, handle, precondition *)

Lemma missing_configuration_sends_no_request_witness :
  exists message,
    startSession_try (env []) w_no_key = (inl (Error message), w_no_key)
    /\ requests (snd (startSession_try (env []) w_no_key)) = []
    /\ startSession (env []) agent_alone w_no_key = (inl (Error message), w_no_key).
Proof.
  destruct (missing_configuration_sends_no_request (env []) agent_alone w_no_key
              ltac:(left; vm_compute; reflexivity))
    as (message & _ & Htry & Hrequests & _ & Hrethrow & _).
  exists message.
  split; [exact Htry|]. split; [exact Hrequests|].
  apply Hrethrow. right. left. reflexivity.
Defined.

(** With a fallback agent and the classifier of section 4.5, the same
    session pass does not fail: the configuration error is handed to the
    fallback agent, whose result is returned. *)
Lemma missing_configuration_can_fall_back :
  apiKey (getAzureOpenAIConfig (env []) (ext w_no_key)) = ""
  /\ startSession (env []) agent_with_fallback w_no_key = (inr tt, w_no_key)
  /\ ~ (exists e w', startSession (env []) agent_with_fallback w_no_key = (inl e, w')).
Proof.
  assert (H : startSession (env []) agent_with_fallback w_no_key = (inr tt, w_no_key))
    by (vm_compute; reflexivity).
  split; [vm_compute; reflexivity|]. split; [exact H|].
  intros (e & w' & He). rewrite H in He. discriminate He.
Qed.

Lemma summarize_without_handle_fails_witness :
  exists w',
    loopBody (env []) cfg_ok tt (summary 8) None w_no_key
    = (inl (Error CANNOT_PROCESS_SUMMARY), w')
    /\ arrays w' = arrays w_no_key
    /\ cumulativeInputTokens (session w') = f64_of_Z 10
    /\ cumulativeOutputTokens (session w') = f64_of_Z 20
    /\ lastPromptNumber (session w') = 1
    /\ processingMessageIds (session w') = [8].
Proof.
  destruct (summarize_without_handle_fails (env []) cfg_ok tt (summary 8) None
              w_no_key eq_refl eq_refl)
    as (w' & Hbody & Harrays & _ & Hin & Hout & Hprompt & _ & _ & _ & Hids).
  exists w'. repeat split; assumption.
Defined.

(** The item's id is in [processingMessageIds] after the failure: the
    session state is not what it was. *)
Lemma summarize_without_handle_changes_processing_ids :
  let w' := snd (loopBody (env []) cfg_ok tt (summary 8) None w_no_key) in
  fst (loopBody (env []) cfg_ok tt (summary 8) None w_no_key)
  = inl (Error CANNOT_PROCESS_SUMMARY)
  /\ processingMessageIds (session w') = [8]
  /\ session w' <> session w_no_key.
Proof.
  split; [vm_compute; reflexivity|]. split; [vm_compute; reflexivity|].
  vm_compute. discriminate.
Qed.

Lemma synthetic_handle_follows_clock_witness :
  memorySessionId (session (snd (assignMemorySessionId (env []) (w_at 5))))
  = Some "azure-openai-cs-5"
  /\ (memorySessionId (session (snd (assignMemorySessionId (env []) (w_at 5))))
      = memorySessionId (session (snd (assignMemorySessionId (env []) (w_at 6))))
      <-> 5 = 6).
Proof.
  exact (synthetic_handle_follows_clock (env []) (w_at 5) (w_at 6) eq_refl eq_refl).
Defined.

(** Two runs of the step from the same session state, one second apart,
    produce different handles. *)
Lemma synthetic_handle_differs_between_runs :
  session (w_at 1700000000000) = session (w_at 1700000001000)
  /\ memorySessionId (session (snd (assignMemorySessionId (env []) (w_at 1700000000000))))
     <> memorySessionId (session (snd (assignMemorySessionId (env []) (w_at 1700000001000)))).
Proof. split; [reflexivity | vm_compute; discriminate]. Qed.

(** ** The two shares against exact arithmetic

    Below ten thousand tokens the output share is the exact floor of 3/10,
    and the input share is the exact floor of 7/10 or one less. *)

Lemma all_from_spec (p : Z -> bool) (n : nat) :
  forall t0, all_from p t0 n = true ->
  forall t, t0 <= t < t0 + Z.of_nat n -> p t = true.
Proof.
  induction n as [|k IH]; intros t0 H t Ht; [lia|].
  cbn [all_from] in H. apply andb_prop in H as [H1 H2].
  destruct (Z.eq_dec t t0) as [->|Hne]; [exact H1|].
  apply (IH (t0 + 1)); [exact H2 | lia].
Qed.

Lemma shares_close_to_exact (t : Z) :
  0 <= t < 10000 ->
  integer_value (floor_scaled t f64_0_3) = Some (exact_share t 3)
  /\ (integer_value (floor_scaled t f64_0_7) = Some (exact_share t 7)
      \/ integer_value (floor_scaled t f64_0_7) = Some (exact_share t 7 - 1)).
Proof.
  intros Ht.
  assert (Hall : all_from share_close 0 (Z.to_nat 10000) = true)
    by (vm_compute; reflexivity).
  pose proof (all_from_spec share_close _ 0 Hall t ltac:(lia)) as H.
  unfold share_close in H.
  apply andb_prop in H as [H3 H7]. apply bool_decide_eq_true in H3.
  split; [exact H3|].
  apply orb_prop in H7 as [H7|H7]; apply bool_decide_eq_true in H7; auto.
Qed.

(** * Further properties of the agent *)

Section AgentProperties.

Context {Ext Mode : Type}.
Variable env : Collaborators Ext Mode.

Implicit Types (w : World Ext) (h : list ConversationMessage).

Local Open Scope js_scope.

(** ** normalizeEndpoint *)

Lemma normalizeEndpoint_fixed (s : string) :
  ends_with_slash s = false -> normalizeEndpoint s = s.
Proof.
  induction s as [|c rest IH]; [reflexivity|].
  intros H. cbn [normalizeEndpoint].
  destruct rest as [|a r].
  - cbn in *. now rewrite H.
  - change (ends_with_slash (String a r) = false) in H.
    now rewrite (IH H).
Qed.

(** X1.  [normalizeEndpoint] removes the trailing slashes and nothing else:
    the endpoint is the result followed by slashes only, the result does not
    end with a slash, and normalizing again changes nothing. *)
Theorem normalizeEndpoint_strips_trailing_slashes (endpoint : string) :
  exists n : nat,
    endpoint = normalizeEndpoint endpoint +:+ slashes n
    /\ ends_with_slash (normalizeEndpoint endpoint) = false
    /\ normalizeEndpoint (normalizeEndpoint endpoint) = normalizeEndpoint endpoint.
Proof.
  assert (H : exists n : nat,
             endpoint = normalizeEndpoint endpoint +:+ slashes n
             /\ ends_with_slash (normalizeEndpoint endpoint) = false).
  { induction endpoint as [|c rest (n & Hrest & Hend)].
    - now exists 0%nat.
    - cbn [normalizeEndpoint].
      destruct (normalizeEndpoint rest) as [|a r] eqn:Hn.
      + destruct (Ascii.eqb c "/") eqn:Hc.
        * apply Ascii.eqb_eq in Hc. subst c. exists (S n).
          split; [|reflexivity].
          change (String "/" rest = String "/" ("" +:+ slashes n)).
          f_equal. exact Hrest.
        * exists n. split; [|cbn; exact Hc].
          change (String c rest = String c ("" +:+ slashes n)).
          f_equal. exact Hrest.
      + exists n. split; [|exact Hend].
        change (String c rest = String c (String a r +:+ slashes n)).
        f_equal. exact Hrest. }
  destruct H as (n & Hn & Hend).
  exists n. repeat split; try assumption.
  now apply normalizeEndpoint_fixed.
Qed.

(** ** estimateTokens *)

Lemma js_length_zero (text : string) : js_length text = 0 <-> text = "".
Proof.
  unfold js_length. split.
  - destruct text; [reflexivity | cbn; lia].
  - now intros ->.
Qed.

(** X2.  The estimate is the least number of four-character tokens that
    cover the text: it never undercounts a quarter of the length, overcounts
    by less than one token, and is zero for the empty text only. *)
Theorem estimateTokens_bounds (text : string) :
  4 * (estimateTokens text - 1) < js_length text <= 4 * estimateTokens text
  /\ (estimateTokens text = 0 <-> text = "").
Proof.
  pose proof (ceil_div_spec (js_length text) 4 ltac:(lia)) as Hspec.
  change (ceil_div (js_length text) 4) with (estimateTokens text) in Hspec.
  split; [exact Hspec|].
  rewrite <- js_length_zero.
  assert (0 <= js_length text) by (unfold js_length; lia).
  pose proof (estimateTokens_nonneg text). lia.
Qed.

(** ** truncateHistory and the request *)

(** X3.  Truncating what [truncateHistory] returned returns the same array
    and changes nothing: the result is already within the ceiling. *)
Theorem truncateHistory_idempotent (history truncated : ArrayRef) w w1 :
  truncateHistory history w = (inr truncated, w1) ->
  truncateHistory truncated w1 = (inr truncated, w1).
Proof.
  intros Hrun.
  destruct (truncateHistory_result history w)
    as (t & extra & Hrun' & _ & _ & Hfit).
  rewrite Hrun in Hrun'. injection Hrun' as -> ->.
  unfold truncateHistory, bind, gets.
  destruct (Z.leb_spec (totalTokens (elements t (set_arrays (arrays w ++ extra) w)))
              MAX_AZURE_CONTEXT_TOKENS); [reflexivity | lia].
Qed.

Lemma toOpenAIMessage_never_system (msg : ConversationMessage) :
  oa_role (toOpenAIMessage msg) <> oa_system.
Proof. unfold toOpenAIMessage. now destruct (role msg). Qed.

(** X4.  A query sends exactly one request.  Its URL is built from the
    endpoint without trailing slashes, its key is the configured key, and
    its messages are, one for one and with the same content, the entries of
    a suffix of the history whose estimate is within the ceiling; no message
    has the role [system]. *)
Theorem query_sends_one_bounded_request (history : ArrayRef)
  (apiKey endpoint model apiVersion : string) w :
  exists req dropped kept,
    requests (snd (queryAzureOpenAIMultiTurn env history apiKey endpoint model
                     apiVersion w))
    = requests w ++ [req]
    /\ elements history w = dropped ++ kept
    /\ totalTokens kept <= MAX_AZURE_CONTEXT_TOKENS
    /\ req = mkRequest (completionsUrl env endpoint model apiVersion) apiKey
               (map toOpenAIMessage kept) f64_0_3 4096
    /\ map oa_content (req_messages req) = map content kept
    /\ Forall (fun m => oa_role m <> oa_system) (req_messages req).
Proof.
  destruct (truncateHistory_result history w)
    as (truncated & extra & Hrun & Hextra & (dropped & Hsuffix) & Hfit).
  exists (mkRequest (completionsUrl env endpoint model apiVersion) apiKey
            (map toOpenAIMessage
               (elements truncated (set_arrays (arrays w ++ extra) w)))
            f64_0_3 4096),
    dropped, (elements truncated (set_arrays (arrays w ++ extra) w)).
  split; [|split; [exact Hsuffix|split; [exact Hfit|split; [reflexivity|split]]]].
  - unfold queryAzureOpenAIMultiTurn.
    rewrite (bind_ok _ _ _ _ _ Hrun).
    unfold conversationToOpenAIMessages, doFetch, modify, outside, bind, gets, ret.
    cbn [set_requests set_arrays arrays session requests ext].
    fold (completionsUrl env endpoint model apiVersion).
    destruct (fetch env _ (ext w)) as [[e|response] x]; [reflexivity|].
    destruct (ok response); cbn [negb].
    + destruct (json response) as [e|data]; [reflexivity|].
      unfold settled, ret.
      destruct (error data); [reflexivity|].
      destruct (firstChoiceContent data) as [c|]; [|reflexivity].
      now destruct (truthy c).
    + now destruct (text response).
  - cbn [req_messages]. rewrite map_map. reflexivity.
  - cbn [req_messages]. apply Forall_map, Forall_forall.
    intros m _. apply toOpenAIMessage_never_system.
Qed.

(** ** What the query makes of each answer *)

(** Runs a query down to the answer [fetch] gives, which [Hfetch] fixes. *)
Ltac run_query history w Hfetch :=
  let truncated := fresh "truncated" in
  let extra := fresh "extra" in
  let Hrun := fresh "Hrun" in
  let res := fresh "res" in
  let x := fresh "x" in
  destruct (truncateHistory_result history w) as (truncated & extra & Hrun & _);
  unfold queryAzureOpenAIMultiTurn;
  rewrite (bind_ok _ _ _ _ _ Hrun);
  unfold conversationToOpenAIMessages, doFetch, modify, outside, bind, gets, ret;
  cbn [set_requests set_arrays arrays session requests ext];
  match goal with
  | |- context [fetch env ?r (ext w)] =>
      specialize (Hfetch r); destruct (fetch env r (ext w)) as [res x]
  end;
  cbn in Hfetch; subst res.

(** X5.  An answer that is [ok] but carries an [error] object is thrown as
    an API error with the error's code and message, ['unknown'] and
    ['Unknown error'] standing in for a missing or empty one. *)
Theorem query_provider_error (history : ArrayRef)
  (apiKey endpoint model apiVersion : string) w response data err :
  (forall req, fst (fetch env req (ext w)) = inr response) ->
  ok response = true ->
  json response = inr data ->
  error data = Some err ->
  fst (queryAzureOpenAIMultiTurn env history apiKey endpoint model apiVersion w)
  = inl (Error ("Azure OpenAI API error: " +:+ or_str (ae_code err) "unknown"
                +:+ " - " +:+ or_str (ae_message err) "Unknown error")).
Proof.
  intros Hfetch Hok Hjson Herr. run_query history w Hfetch.
  rewrite Hok, Hjson. cbn. now rewrite Herr.
Qed.

(** X6.  An [ok] answer without [error] whose first choice has content is
    returned with that content and the reported total usage, if any. *)
Theorem query_returns_content_and_usage (history : ArrayRef)
  (apiKey endpoint model apiVersion : string) w response data content :
  (forall req, fst (fetch env req (ext w)) = inr response) ->
  ok response = true ->
  json response = inr data ->
  error data = None ->
  firstChoiceContent data = Some content ->
  truthy content = true ->
  fst (queryAzureOpenAIMultiTurn env history apiKey endpoint model apiVersion w)
  = inr (mkResult content (usageTotal data)).
Proof.
  intros Hfetch Hok Hjson Herr Hcontent Htruthy. run_query history w Hfetch.
  rewrite Hok, Hjson. cbn. now rewrite Herr, Hcontent, Htruthy.
Qed.

(** X7.  When [fetch] itself rejects (the network is down, the request is
    aborted), the query throws that very error. *)
Theorem query_propagates_fetch_rejection (history : ArrayRef)
  (apiKey endpoint model apiVersion : string) w (e : JsError) :
  (forall req, fst (fetch env req (ext w)) = inl e) ->
  fst (queryAzureOpenAIMultiTurn env history apiKey endpoint model apiVersion w)
  = inl e.
Proof.
  intros Hfetch. run_query history w Hfetch. reflexivity.
Qed.

(** ** Configuration *)


(** X9.  [isAzureOpenAIAvailable] decides what the two guards of
    [startSession] do: when it is true the [try] block goes on to the pass,
    when it is false the block throws a configuration error in an untouched
    world (the key's error when the key is missing, the other one
    otherwise). *)
Theorem isAzureOpenAIAvailable_decides_guards w :
  startSession_try env w
  = if isAzureOpenAIAvailable env (ext w)
    then startSession_configured env (getAzureOpenAIConfig env (ext w)) w
    else (inl (Error (if truthy (apiKey (getAzureOpenAIConfig env (ext w)))
                      then ENDPOINT_OR_MODEL_NOT_CONFIGURED
                      else API_KEY_NOT_CONFIGURED)), w).
Proof.
  change (isAzureOpenAIAvailable env (ext w))
    with (truthy (apiKey (getAzureOpenAIConfig env (ext w)))
          && truthy (endpoint (getAzureOpenAIConfig env (ext w)))
          && truthy (model (getAzureOpenAIConfig env (ext w)))).
  unfold startSession_try, startSession_configured.
  unfold bind at 1, gets at 1.
  destruct (truthy (apiKey (getAzureOpenAIConfig env (ext w)))); [|reflexivity].
  destruct (truthy (endpoint (getAzureOpenAIConfig env (ext w)))); [|reflexivity].
  destruct (truthy (model (getAzureOpenAIConfig env (ext w)))); reflexivity.
Qed.

(** ** The handle *)

Lemma syntheticId_truthy (contentSessionId : string) (now : Z) :
  truthy (syntheticId contentSessionId now) = true.
Proof. reflexivity. Qed.

(** X10.  After the handle step the session has a handle, whether the step
    returned or the session store threw.  A session that had one keeps it,
    and nothing at all changes; in every case the arrays and the requests
    are as before. *)
Theorem assignMemorySessionId_binds_handle w :
  let w' := snd (assignMemorySessionId env w) in
  truthy_opt (memorySessionId (session w')) = true
  /\ arrays w' = arrays w
  /\ requests w' = requests w
  /\ (truthy_opt (memorySessionId (session w)) = true ->
      assignMemorySessionId env w = (inr tt, w)).
Proof.
  unfold assignMemorySessionId, bind, gets.
  destruct (truthy_opt (memorySessionId (session w))) eqn:Hbound; cbn.
  - now repeat split.
  - unfold outside. cbn.
    destruct (updateMemorySessionId env _ _ _) as [r x]. cbn.
    repeat split. discriminate.
Qed.


(** ** Items of the loop *)

(** X11.  An observation met while the session has no handle makes the loop
    body throw the observation's precondition error before any prompt is
    built: the arrays, the counters and the requests are as before, but the
    item's id has joined [processingMessageIds] and its prompt number, when
    it has one, is already the session's. *)
Theorem observation_without_handle_fails (cfg : Config) (mode : Mode)
  (message : PendingMessage) (lastCwd : option string) w :
  msg_type message = observation ->
  truthy_opt (memorySessionId (session w)) = false ->
  exists w',
    loopBody env cfg mode message lastCwd w
    = (inl (Error CANNOT_PROCESS_OBSERVATIONS), w')
    /\ arrays w' = arrays w
    /\ cumulativeInputTokens (session w') = cumulativeInputTokens (session w)
    /\ cumulativeOutputTokens (session w') = cumulativeOutputTokens (session w)
    /\ requests w' = requests w
    /\ processingMessageIds (session w')
       = processingMessageIds (session w) ++ [persistentId message]
    /\ lastPromptNumber (session w')
       = default (lastPromptNumber (session w)) (prompt_number message).
Proof.
  intros Htype Hunbound. destruct w as [a s r x]. cbn in Hunbound.
  unfold loopBody, bind, gets, ret, throw, updateSession, modify.
  rewrite Htype. cbn.
  destruct (prompt_number message) as [n|]; cbn; rewrite Hunbound; cbn;
    eexists; (split; [reflexivity|]); cbn; now repeat split.
Qed.



(** Adding zero in binary64 changes no number but negative zero, which
    becomes zero. *)
Lemma f64_add_zero (x : spec_float) :
  x <> S754_zero true -> f64_add x (f64_of_Z 0) = x.
Proof.
  intros Hx. change (f64_of_Z 0) with (S754_zero false).
  destruct x as [[|]| | |]; try reflexivity. congruence.
Qed.

(** X13.  A reply with content but without usage counts as zero tokens: the
    reply is appended, zero is what the response processor is told, and to
    both counters zero is added, which leaves them as they are (but for a
    counter that is negative zero, which becomes zero). *)
Theorem recordReply_without_usage (response : QueryResult) w :
  truthy (res_content response) = true ->
  res_tokensUsed response = None ->
  exists w',
    recordReply response w = (inr 0, w')
    /\ arrays w'
       = alter (fun l => l ++ [mkMsg assistant (res_content response)])
           (conversationHistory (session w)) (arrays w)
    /\ cumulativeInputTokens (session w')
       = f64_add (cumulativeInputTokens (session w)) (f64_of_Z 0)
    /\ cumulativeOutputTokens (session w')
       = f64_add (cumulativeOutputTokens (session w)) (f64_of_Z 0)
    /\ (cumulativeInputTokens (session w) <> S754_zero true ->
        cumulativeInputTokens (session w') = cumulativeInputTokens (session w))
    /\ (cumulativeOutputTokens (session w) <> S754_zero true ->
        cumulativeOutputTokens (session w') = cumulativeOutputTokens (session w)).
Proof.
  intros Hcontent Husage.
  destruct (recordReply_content response w Hcontent)
    as (w' & Hrun & Harrays & Hin & Hout & _).
  rewrite Husage in Hrun, Hin, Hout. cbn [or_zero default] in Hrun, Hin, Hout.
  change (floor_scaled 0 f64_0_7) with (f64_of_Z 0) in Hin.
  change (floor_scaled 0 f64_0_3) with (f64_of_Z 0) in Hout.
  exists w'. split; [exact Hrun|]. split; [exact Harrays|].
  split; [exact Hin|]. split; [exact Hout|].
  split; intros Hx; [rewrite Hin | rewrite Hout]; now apply f64_add_zero.
Qed.

(** X14.  An item whose reply has content leaves, when the response
    processor is called, a history that has grown by exactly two entries:
    the item's prompt as [user], then the reply as [assistant]. *)
Theorem answered_item_appends_prompt_and_reply (cfg : Config) (mode : Mode)
  (message : PendingMessage) (lastCwd : option string) w
  (prompt : string) (ts : option Z) (cwd' : option string) w1
  (response : QueryResult) w2 :
  (conversationHistory (session w) < length (arrays w))%nat ->
  prepareItem env mode message lastCwd w = (inr (prompt, ts, cwd'), w1) ->
  askBackend env cfg prompt w1 = (inr response, w2) ->
  truthy (res_content response) = true ->
  exists w3,
    loopBody env cfg mode message lastCwd w
    = (processAgentResponse env (res_content response)
         (or_zero (res_tokensUsed response)) ts AGENT_NAME cwd' ;; ret cwd') w3
    /\ elements (conversationHistory (session w)) w3
       = elements (conversationHistory (session w)) w
         ++ [mkMsg user prompt; mkMsg assistant (res_content response)].
Proof.
  intros Hvalid Hprep Hask Hcontent.
  pose proof (prepareItem_frame env mode message lastCwd w) as Hframe.
  rewrite Hprep in Hframe. cbn in Hframe.
  destruct Hframe as (Harr & _ & _ & Href & _).
  assert (Hvalid1 : (conversationHistory (session w1) < length (arrays w1))%nat)
    by now rewrite Href, Harr.
  pose proof (askBackend_world env cfg prompt w1 Hvalid1) as Hworld.
  rewrite Hask in Hworld. cbn in Hworld.
  destruct Hworld as (Hs2 & Hhist & Hlen & _).
  destruct (recordReply_content response w2 Hcontent)
    as (w3 & Hrec & Harrays3 & _).
  exists w3. split.
  - rewrite loopBody_phases.
    rewrite (bind_ok _ _ _ _ _ Hprep). cbn [fst snd].
    rewrite (bind_ok _ _ _ _ _ Hask).
    unfold handleReply. rewrite (bind_ok _ _ _ _ _ Hrec).
    now rewrite or_str_self.
  - unfold elements at 1. rewrite Harrays3, Hs2, Href.
    rewrite list_lookup_alter_eq.
    rewrite Href in Hhist. unfold elements at 1 in Hhist.
    destruct (arrays w2 !! conversationHistory (session w)) as [h2|] eqn:Hh2.
    + cbn in Hhist |- *. subst h2. rewrite <- app_assoc. cbn [app].
      f_equal. unfold elements. now rewrite Harr.
    + exfalso. apply lookup_ge_None in Hh2. rewrite Harr in Hlen. lia.
Qed.

(** ** The handler *)

(** X15.  An error of the [try] block that is not an abort is thrown
    again by [startSession] as it is, in the world of the failure, when there
    is no fallback agent or the classifier does not select the error. *)
Theorem startSession_rethrows_without_fallback (this : AzureOpenAIAgent Ext)
  w (e : JsError) w' :
  startSession_try env w = (inl e, w') ->
  isAbortError env e = false ->
  fallbackAgent this = None \/ shouldFallbackToClaude env e = false ->
  startSession env this w = (inl e, w').
Proof.
  intros Htry _ Hnone. unfold startSession. rewrite Htry.
  now apply startSession_catch_rethrow.
Qed.

End AgentProperties.

(** * Properties of the plugin helpers *)

Section StringFacts.

Lemma append_cons (c : ascii) (s t : string) :
  String c s +:+ t = String c (s +:+ t).
Proof. reflexivity. Qed.

Lemma length_append (s t : string) :
  String.length (s +:+ t) = (String.length s + String.length t)%nat.
Proof.
  induction s as [|c s IH]; [reflexivity|].
  rewrite append_cons. cbn [String.length]. now rewrite IH.
Qed.

Lemma append_assoc (s t u : string) : (s +:+ t) +:+ u = s +:+ t +:+ u.
Proof.
  induction s as [|c s IH]; [reflexivity|].
  rewrite !append_cons. now rewrite IH.
Qed.

Lemma length_substring (n : nat) (s : string) :
  String.length (substring 0 n s) = (n `min` String.length s)%nat.
Proof.
  revert n. induction s as [|c s IH]; intros [|n]; cbn; try reflexivity.
  now rewrite IH.
Qed.

Lemma substring_all (n : nat) (s : string) :
  (String.length s <= n)%nat -> substring 0 n s = s.
Proof.
  revert n. induction s as [|c s IH]; intros [|n] H; cbn in *;
    try reflexivity; try lia.
  f_equal. apply IH. lia.
Qed.

(** The first [n] characters of a string that starts with them. *)
Lemma substring_append (n : nat) (s t : string) :
  (n <= String.length s)%nat ->
  substring 0 n (substring 0 n s +:+ t) = substring 0 n s.
Proof.
  revert n. induction s as [|c s IH]; intros [|n] H; cbn in *.
  - now destruct t.
  - lia.
  - now destruct t.
  - rewrite append_cons. cbn. f_equal. apply IH. lia.
Qed.

End StringFacts.

Section PluginHelpers.

Import Plugin.

Context {Net : Type}.
Variable host : Host Net.

Lemma truncate_cases (s : string) (maxLength : Z) :
  0 <= maxLength ->
  exists r,
    truncate (JStr s) maxLength = JStr r
    /\ (js_length s <= maxLength -> r = s)
    /\ (maxLength < js_length s ->
        r = substring 0 (Z.to_nat maxLength) s +:+ "..."
        /\ js_length r = maxLength + 3)
    /\ truncate (JStr r) maxLength = JStr r.
Proof.
  intros Hmax. unfold truncate.
  destruct (Z.leb_spec (js_length s) maxLength) as [Hle|Hgt].
  - exists s. split; [reflexivity|]. split; [reflexivity|]. split; [lia|].
    destruct (Z.leb_spec (js_length s) maxLength); [reflexivity | lia].
  - assert (Hslice : slice0 s maxLength = substring 0 (Z.to_nat maxLength) s).
    { unfold slice0. destruct (Z.ltb_spec maxLength 0); [lia|].
      now rewrite Z.min_l by lia. }
    assert (Hn : (Z.to_nat maxLength <= String.length s)%nat)
      by (unfold js_length in Hgt; lia).
    assert (Hlen : js_length (substring 0 (Z.to_nat maxLength) s +:+ "...")
                   = maxLength + 3).
    { unfold js_length. rewrite length_append, length_substring. cbn. lia. }
    exists (slice0 s maxLength +:+ "..."). rewrite Hslice.
    split; [reflexivity|]. split; [lia|]. split; [now split|].
    rewrite Hlen. destruct (Z.leb_spec (maxLength + 3) maxLength); [lia|].
    do 2 f_equal. unfold slice0.
    destruct (Z.ltb_spec maxLength 0); [lia|].
    rewrite Hlen, Z.min_l by lia. now apply substring_append.
Qed.

(** X16.  [truncate] with a non-negative limit returns a text within the
    limit unchanged, and otherwise its first [maxLength] characters followed
    by three dots, [maxLength + 3] characters in all; truncating the result
    again with the same limit changes nothing. *)
Theorem truncate_bounded_and_idempotent (s : string) (maxLength : Z) :
  0 <= maxLength ->
  exists r,
    truncate (JStr s) maxLength = JStr r
    /\ (js_length s <= maxLength -> r = s)
    /\ (maxLength < js_length s ->
        r = substring 0 (Z.to_nat maxLength) s +:+ "..."
        /\ js_length r = maxLength + 3)
    /\ truncate (JStr r) maxLength = JStr r.
Proof. exact (truncate_cases s maxLength). Qed.

(** X17.  [normalizeToolName] never returns an empty name: a non-empty
    string comes back as it is, whatever it is, and everything else (every
    falsy value, the empty string among them, and every value that is not a
    string) becomes ["Unknown"]. *)
Theorem normalizeToolName_total (name : Json) :
  truthy (normalizeToolName name) = true
  /\ (forall s, name = JStr s -> truthy s = true -> normalizeToolName name = s)
  /\ (json_truthy name = false -> normalizeToolName name = "Unknown")
  /\ ((forall s, name <> JStr s) -> normalizeToolName name = "Unknown").
Proof.
  assert (Hstr : forall s, truthy s = true -> normalizeToolName (JStr s) = s).
  { intros s Hs. unfold normalizeToolName. rewrite Hs. cbn [negb].
    repeat match goal with |- context [if ?b then _ else _] => destruct b end;
      reflexivity. }
  repeat split.
  - destruct name as [| |b|n|s|items|fields]; try reflexivity.
    destruct (truthy s) eqn:Hs.
    + now rewrite (Hstr s Hs).
    + unfold normalizeToolName. now rewrite Hs.
  - intros s -> Hs. now apply Hstr.
  - intros H. destruct name as [| |b|n|s|items|fields];
      try reflexivity; try discriminate H.
    cbn in H. unfold normalizeToolName. now rewrite H.
  - intros H. destruct name as [| |b|n|s|items|fields]; try reflexivity.
    now destruct (H s).
Qed.

(** X18.  [getProjectName] never returns an empty name: it is the base name
    of the directory when the directory is a non-empty string with a
    non-empty base name, and ["unknown-project"] in every other case (no
    directory, an empty one, or an empty base name). *)
Theorem getProjectName_never_empty (cwd : option string) :
  truthy (getProjectName host cwd) = true
  /\ (forall dir,
        cwd = Some dir -> truthy dir = true -> truthy (basename host dir) = true ->
        getProjectName host cwd = basename host dir)
  /\ ((forall dir,
         cwd = Some dir -> truthy dir = false \/ truthy (basename host dir) = false) ->
      getProjectName host cwd = "unknown-project").
Proof.
  split; [|split].
  - unfold getProjectName. destruct cwd as [dir|]; [|reflexivity].
    destruct (truthy dir); cbn [negb]; [|reflexivity].
    destruct (truthy (basename host dir)) eqn:Hbase; [exact Hbase | reflexivity].
  - intros dir -> Hdir Hbase. unfold getProjectName.
    now rewrite Hdir, Hbase.
  - intros Hother. unfold getProjectName. destruct cwd as [dir|]; [|reflexivity].
    destruct (truthy dir) eqn:Hdir; cbn [negb]; [|reflexivity].
    destruct (Hother dir eq_refl) as [H|H]; [congruence|]. now rewrite H.
Qed.

(** X19.  [serializeToolOutput] always returns a string.  [null] and
    [undefined] give the empty string; a string output comes back within
    16003 characters, and unchanged when it has at most 16000. *)
Theorem serializeToolOutput_is_bounded_string (output : Json) :
  exists s,
    serializeToolOutput host output = JStr s
    /\ (output = JNull \/ output = JUndefined -> s = "")
    /\ (forall t, output = JStr t ->
          js_length s <= 16003 /\ (js_length t <= 16000 -> s = t)).
Proof.
  destruct output as [| |b|n|t|items|fields];
    try (cbn [serializeToolOutput];
         match goal with
         | |- context [JSON_stringify host ?v] =>
             destruct (JSON_stringify host v) as [e|s];
             [destruct (truncate_cases (String_of host v) 16000
                         ltac:(lia)) as (r & Hr & _);
              exists r; rewrite Hr
             |exists s];
             (split; [reflexivity|]);
             (split; [intros [H|H]; discriminate H | intros t' H; discriminate H])
         end).
  - exists "". repeat split; intros; congruence || (cbn; lia).
  - exists "". repeat split; intros; congruence || (cbn; lia).
  - destruct (truncate_cases t 16000 ltac:(lia))
      as (r & Hr & Hshort & Hlong & _).
    exists r. split; [exact Hr|]. split; [intros [H|H]; discriminate H|].
    intros t' H. injection H as <-.
    split; [|exact Hshort].
    destruct (Z.le_gt_cases (js_length t) 16000) as [Hle|Hgt].
    + rewrite (Hshort Hle). lia.
    + destruct (Hlong ltac:(lia)) as [_ Hlen]. lia.
Qed.

End PluginHelpers.

(** * Properties of the plugin hooks *)

Section PluginHooks.

Import Plugin.

Context {Net : Type}.
Variable host : Host Net.

Implicit Types (st : State Net).

(** ** Requests *)

Lemma request_world (r : Sent) st :
  same_caches st (snd (request host r st))
  /\ sent (snd (request host r st)) = sent st ++ [r].
Proof.
  unfold request. destruct (http host r (net st)) as [res n]. cbn.
  now repeat split.
Qed.

Lemma fetchJson_world (r : Sent) st :
  same_caches st (snd (fetchJson host r st))
  /\ sent (snd (fetchJson host r st)) = sent st ++ [r].
Proof.
  pose proof (request_world r st) as Hreq.
  unfold fetchJson, pbind.
  destruct (request host r st) as [[e|response] st1]; [exact Hreq|].
  destruct (w_ok response); cbn [negb]; [|exact Hreq].
  unfold awaited, pret, pthrow.
  now destruct (w_json response).
Qed.

Lemma fetchText_world (url : string) st :
  same_caches st (snd (fetchText host url st))
  /\ sent (snd (fetchText host url st)) = sent st ++ [Get url].
Proof.
  pose proof (request_world (Get url) st) as Hreq.
  unfold fetchText, pbind.
  destruct (request host (Get url) st) as [[e|response] st1]; [exact Hreq|].
  destruct (w_ok response); cbn [negb]; [|exact Hreq].
  unfold awaited, pret, pthrow.
  now destruct (w_text response).
Qed.

Lemma failOpen_returns (body : P unit) st :
  fst (failOpen body st) = inr tt /\ snd (failOpen body st) = snd (body st).
Proof.
  unfold failOpen. now destruct (body st) as [[e|[]] st'].
Qed.

(** ** Streaming text *)

(** X20.  Text deltas of a message accumulate in the order they arrive:
    after two non-empty deltas the cached text is the earlier text followed
    by the first and then the second delta, and nothing else in the state
    has changed. *)
Theorem updateMessageText_accumulates (p : Part) (d1 d2 : string) st :
  part_type p = Some "text" ->
  truthy_opt (part_messageID p) = true ->
  d1 <> "" -> d2 <> "" ->
  exists st1 st2,
    updateMessageText (Some p) (Some d1) st = (inr tt, st1)
    /\ updateMessageText (Some p) (Some d2) st1 = (inr tt, st2)
    /\ messageTextCache st2
       = <[part_messageID p :=
             or_str (messageTextCache st !! part_messageID p) "" +:+ d1 +:+ d2]>
           (messageTextCache st)
    /\ st2 = set_messageTextCache (messageTextCache st2) st.
Proof.
  intros Htype Hid Hd1 Hd2.
  assert (Hpos : forall d, d <> "" -> (0 <? js_length d) = true).
  { intros d Hd. apply Z.ltb_lt. destruct d; [congruence|].
    unfold js_length. cbn. lia. }
  assert (Hstep : forall d st0, d <> "" ->
            updateMessageText (Some p) (Some d) st0
            = (inr tt,
               set_messageTextCache
                 (<[part_messageID p :=
                      or_str (messageTextCache st0 !! part_messageID p) "" +:+ d]>
                    (messageTextCache st0)) st0)).
  { intros d st0 Hd. unfold updateMessageText.
    rewrite Htype, Hid. rewrite bool_decide_eq_true_2 by reflexivity.
    cbn [negb]. unfold pbind, pgets, pmodify. now rewrite (Hpos d Hd). }
  do 2 eexists. split; [apply Hstep; assumption|].
  split; [apply Hstep; assumption|].
  cbn [messageTextCache set_messageTextCache].
  rewrite lookup_insert_eq, insert_insert_eq.
  assert (Hor : forall t, or_str (Some t) "" = t) by apply or_str_self.
  rewrite Hor, append_assoc.
  split; [reflexivity|].
  destruct st. reflexivity.
Qed.

(** ** The event hook fails open *)

Lemma text_keys_ok_same_caches st st' :
  same_caches st st' -> text_keys_ok st -> text_keys_ok st'.
Proof.
  intros (Htext & _) Hok k Hk. apply Hok. now rewrite <- Htext.
Qed.

Lemma text_keys_ok_delete k st st' :
  messageTextCache st' = delete k (messageTextCache st) ->
  text_keys_ok st -> text_keys_ok st'.
Proof.
  intros Hf Hok k' Hk'. apply Hok. rewrite Hf in Hk'.
  destruct (decide (k = k')) as [->|Hne].
  - rewrite lookup_delete_eq in Hk'. now destruct Hk'.
  - now rewrite lookup_delete_ne in Hk'.
Qed.

Lemma text_keys_ok_other st st' :
  messageTextCache st' = messageTextCache st ->
  text_keys_ok st -> text_keys_ok st'.
Proof.
  intros Hf Hok k' Hk'. apply Hok. now rewrite <- Hf.
Qed.

Lemma returns_keeps {A} (I : State Net -> Prop) (m : P A) :
  returns I m -> keeps I m.
Proof. intros Hm st HI. now apply Hm. Qed.

Lemma keeps_bind {A B} (I : State Net -> Prop) (m : P A) (k : A -> P B) :
  keeps I m -> (forall a, keeps I (k a)) -> keeps I (pbind m k).
Proof.
  intros Hm Hk st HI. unfold pbind. specialize (Hm st HI).
  destruct (m st) as [[e|a] st']; [exact Hm|]. now apply Hk.
Qed.

Lemma returns_bind {A B} (I : State Net -> Prop) (m : P A) (k : A -> P B) :
  returns I m -> (forall a, returns I (k a)) -> returns I (pbind m k).
Proof.
  intros Hm Hk st HI. unfold pbind. destruct (Hm st HI) as [[a Ha] HI'].
  destruct (m st) as [[e|a'] st']; [discriminate Ha|]. now apply Hk.
Qed.

Lemma returns_pret {A} (I : State Net -> Prop) (a : A) : returns I (pret a).
Proof. intros st HI. split; [now exists a|exact HI]. Qed.

Lemma returns_pmodify (I : State Net -> Prop) (f : State Net -> State Net) :
  (forall st, I st -> I (f st)) -> returns I (pmodify f).
Proof. intros Hf st HI. split; [now exists tt|now apply Hf]. Qed.

Lemma returns_pgets {A B} (I : State Net -> Prop) (f : State Net -> A)
  (k : A -> P B) :
  (forall st, I st ->
     (exists b, fst (k (f st) st) = inr b) /\ I (snd (k (f st) st))) ->
  returns I (pbind (pgets f) k).
Proof. intros Hk st HI. exact (Hk st HI). Qed.

Lemma returns_failOpen (I : State Net -> Prop) (body : P unit) :
  keeps I body -> returns I (failOpen body).
Proof.
  intros Hbody st HI. destruct (failOpen_returns body st) as [Hfst Hsnd].
  rewrite Hfst, Hsnd. split; [now exists tt|now apply Hbody].
Qed.

Lemma keeps_fetchJson (r : Sent) : keeps text_keys_ok (fetchJson host r).
Proof.
  intros st. apply text_keys_ok_same_caches, fetchJson_world.
Qed.

Lemma returns_updateMessageText part delta :
  returns (Net:=Net) text_keys_ok (updateMessageText part delta).
Proof.
  unfold updateMessageText. destruct part as [p|]; [|apply returns_pret].
  destruct (negb (bool_decide (part_type p = Some "text"))); [apply returns_pret|].
  destruct (truthy_opt (part_messageID p)) eqn:Hid; cbn [negb];
    [|apply returns_pret].
  intros st Hok. unfold pbind, pgets, pmodify. cbn.
  split; [now exists tt|].
  intros k Hk. cbn in Hk.
  destruct (decide (part_messageID p = k)) as [<-|Hne]; [exact Hid|].
  rewrite lookup_insert_ne in Hk by exact Hne. now apply Hok.
Qed.

Lemma returns_onPromptAppend text :
  returns text_keys_ok (onPromptAppend host text).
Proof.
  intros st Hok. unfold onPromptAppend.
  match goal with |- context [fetchText host ?u st] =>
    pose proof (fetchText_world u st) as [Hsame _];
    destruct (fetchText host u st) as [[e|body] st'] end;
    cbn in *; (split; [eauto|]);
    exact (text_keys_ok_same_caches _ _ Hsame Hok).
Qed.

Lemma returns_onMessageUpdated info :
  returns text_keys_ok (onMessageUpdated host info).
Proof.
  unfold onMessageUpdated. destruct info as [i|]; [|apply returns_pret].
  apply returns_bind.
  { destruct (truthy_opt (info_id i) && truthy_opt (info_role i));
      [|apply returns_pret].
    apply returns_pmodify. intros st. now apply text_keys_ok_other. }
  intros _. destruct (bool_decide (info_role i = Some "user"));
    [|apply returns_pret].
  assert (Hpending : forall pd : Pending,
            returns text_keys_ok
              (pmodify (fun st =>
                 set_pendingUserMessages
                   (<[info_id i := pd]> (pendingUserMessages st)) st))).
  { intros pd. apply returns_pmodify. intros st. now apply text_keys_ok_other. }
  assert (Hsummary : forall summaryText : option string,
            returns text_keys_ok
              (match summaryText with
               | Some summary =>
                   if has_text summaryText
                      && negb (String.eqb summary "[user message]")
                   then failOpen
                          (sendSessionInit host (info_sessionID i)
                             (getProjectName host (Some (directory host))) summary)
                   else pmodify (fun st =>
                          set_pendingUserMessages
                            (<[info_id i :=
                                 mkPendingUser (info_sessionID i)
                                   (getProjectName host (Some (directory host)))]>
                               (pendingUserMessages st)) st)
               | None =>
                   pmodify (fun st =>
                     set_pendingUserMessages
                       (<[info_id i :=
                            mkPendingUser (info_sessionID i)
                              (getProjectName host (Some (directory host)))]>
                          (pendingUserMessages st)) st)
               end)).
  { intros [summary|]; [|apply Hpending].
    destruct (has_text (Some summary) && negb (String.eqb summary "[user message]"));
      [|apply Hpending].
    apply returns_failOpen, keeps_fetchJson. }
  apply returns_pgets. intros st Hok. cbv beta zeta.
  destruct (messageTextCache st !! info_id i) as [cached|] eqn:Hcached;
    [|exact (Hsummary _ st Hok)].
  destruct (has_text (Some cached)); [|exact (Hsummary _ st Hok)].
  apply returns_failOpen; [|exact Hok].
  apply keeps_bind; [apply keeps_fetchJson|].
  intros _. apply returns_keeps, returns_pmodify.
  intros st0. now apply (text_keys_ok_delete (info_id i) st0).
Qed.

Lemma pbind_pgets {A B} (f : State Net -> A) (k : A -> P B) st :
  pbind (pgets f) k st = k (f st) st.
Proof. reflexivity. Qed.

Lemma returns_onMessagePartUpdated part delta :
  returns text_keys_ok (onMessagePartUpdated host part delta).
Proof.
  unfold onMessagePartUpdated.
  apply returns_bind; [apply returns_updateMessageText|]. intros _.
  intros st Hok. repeat (rewrite pbind_pgets; cbv beta zeta).
  destruct part as [p|].
  - generalize (pendingUserMessages st !! part_messageID p)
               (messageTextCache st !! part_messageID p)
               (messageRoleCache st !! part_messageID p).
    intros pending text role. revert st Hok.
    change (returns text_keys_ok
              (pbind
                 (match pending, text with
                  | Some pd, Some t =>
                      if has_text text then
                        failOpenFinally
                          (sendSessionInit host (pending_sessionID pd)
                             (pending_project pd) t)
                          (pmodify (fun st =>
                             set_messageTextCache
                               (delete (part_messageID p) (messageTextCache st))
                               (set_pendingUserMessages
                                  (delete (part_messageID p) (pendingUserMessages st))
                                  st)))
                      else pret tt
                  | _, _ => pret tt
                  end)
                 (fun _ =>
                    match text with
                    | Some t =>
                        if bool_decide (role = Some "assistant")
                           && truthy_opt (part_sessionID p) && truthy t
                        then pmodify (fun st =>
                               set_sessionLastAssistant
                                 (<[part_sessionID p := t]> (sessionLastAssistant st))
                                 st)
                        else pret tt
                    | None => pret tt
                    end))).
    apply returns_bind.
    + destruct pending as [pd|], text as [t|]; try apply returns_pret.
      destruct (has_text (Some t)); [|apply returns_pret].
      apply returns_bind.
      * apply returns_failOpen, keeps_fetchJson.
      * intros _. apply returns_pmodify. intros st.
        now apply (text_keys_ok_delete (part_messageID p) st).
    + intros _. destruct text as [t|]; [|apply returns_pret].
      match goal with |- context [if ?c then _ else _] => destruct c end;
        [|apply returns_pret].
      apply returns_pmodify. intros st. now apply text_keys_ok_other.
  - assert (Htext : messageTextCache st !! (None : option string) = None).
    { destruct (messageTextCache st !! None) as [t|] eqn:Ht; [|reflexivity].
      assert (truthy_opt None = true) as Habsurd by (apply Hok; now rewrite Ht).
      discriminate Habsurd. }
    rewrite Htext.
    destruct (pendingUserMessages st !! None); cbn; (split; [now exists tt|exact Hok]).
Qed.

Lemma returns_onMessageRemoved messageId :
  returns (Net:=Net) text_keys_ok (onMessageRemoved messageId).
Proof.
  unfold onMessageRemoved. destruct (truthy_opt messageId); [|apply returns_pret].
  apply returns_pmodify. intros st. now apply (text_keys_ok_delete messageId st).
Qed.

Lemma returns_onSessionIdle sessionId :
  returns text_keys_ok (onSessionIdle host sessionId).
Proof.
  unfold onSessionIdle.
  destruct (negb (truthy_opt sessionId)); [apply returns_pret|].
  intros st Hok. repeat (rewrite pbind_pgets; cbv beta zeta).
  generalize (sessionLastAssistant st !! sessionId)
             (sessionLastSummarized st !! sessionId).
  intros lastAssistant lastSummarized. revert st Hok.
  change (returns text_keys_ok
            (pbind
               (match lastAssistant with
                | Some last =>
                    if has_text lastAssistant
                       && negb (bool_decide (lastAssistant = lastSummarized))
                    then failOpen
                           (pbind (sendSessionSummarize host sessionId last) (fun _ =>
                            pmodify (fun st =>
                              set_sessionLastSummarized
                                (<[sessionId := last]> (sessionLastSummarized st)) st)))
                    else pret tt
                | None => pret tt
                end)
               (fun _ => failOpen (sendSessionComplete host sessionId)))).
  apply returns_bind.
  - destruct lastAssistant as [last|]; [|apply returns_pret].
    match goal with |- context [if ?c then _ else _] => destruct c end;
      [|apply returns_pret].
    apply returns_failOpen, keeps_bind; [apply keeps_fetchJson|].
    intros _. apply returns_keeps, returns_pmodify.
    intros st. now apply text_keys_ok_other.
  - intros _. apply returns_failOpen, keeps_fetchJson.
Qed.

Lemma returns_onSessionDeleted sessionId :
  returns text_keys_ok (onSessionDeleted host sessionId).
Proof.
  unfold onSessionDeleted.
  destruct (negb (truthy_opt sessionId)); [apply returns_pret|].
  apply returns_failOpen, keeps_fetchJson.
Qed.

Lemma returns_event (ev : Event) : returns text_keys_ok (event host ev).
Proof.
  destruct ev; cbn [event]; try apply returns_pret;
    (apply returns_bind; [|intros ?; apply returns_pret]).
  - apply returns_onPromptAppend.
  - apply returns_onMessageUpdated.
  - apply returns_onMessagePartUpdated.
  - apply returns_onMessageRemoved.
  - apply returns_onSessionIdle.
  - apply returns_onSessionDeleted.
Qed.

(** X21.  The [event] hook fails open.  As long as no text is cached under
    a missing or empty message id, the hook returns for every event,
    whatever the worker answers, and no text is cached under such an id
    afterwards. *)
Theorem event_fails_open (ev : Event) st :
  text_keys_ok st ->
  (exists ev', fst (event host ev st) = inr ev')
  /\ text_keys_ok (snd (event host ev st)).
Proof. exact (returns_event ev st). Qed.

(** X22.  A freshly loaded plugin never rejects an event: the hook returns
    for every sequence of events delivered from the state in which all the
    caches are empty, whatever the worker answers. *)
Theorem deliver_never_rejects (evs : list Event) (n : Net) :
  exists evs', fst (deliver host evs (fresh n)) = inr evs'.
Proof.
  assert (Hfresh : text_keys_ok (fresh n)).
  { intros k Hk. cbn in Hk. rewrite lookup_empty in Hk. now destruct Hk. }
  assert (Hall : returns text_keys_ok (deliver host evs)).
  { induction evs as [|ev rest IH]; cbn [deliver]; [apply returns_pret|].
    apply returns_bind; [apply returns_event|].
    intros ev'. apply returns_bind; [exact IH|].
    intros rest'. apply returns_pret. }
  exact (proj1 (Hall _ Hfresh)).
Qed.

(** ** Idle sessions *)

Lemma failOpen_fetchJson_world (r : Sent) st :
  failOpen (fetchJson host r) st = (inr tt, snd (fetchJson host r st)).
Proof.
  destruct (failOpen_returns (fetchJson host r) st) as [Hfst Hsnd].
  rewrite <- Hfst, <- Hsnd. now destruct (failOpen (fetchJson host r) st).
Qed.

(** X23.  An idle session whose last assistant text is new is summarized and
    then completed: exactly these two requests go out, in this order, the
    hook returns, and the text is recorded as summarized exactly when the
    worker accepted the summary.  No other cache changes. *)
Theorem onSessionIdle_summarizes_then_completes (sessionId : option string)
  (last : string) st :
  truthy_opt sessionId = true ->
  sessionLastAssistant st !! sessionId = Some last ->
  has_text (Some last) = true ->
  sessionLastSummarized st !! sessionId <> Some last ->
  let st' := snd (onSessionIdle host sessionId st) in
  fst (onSessionIdle host sessionId st) = inr tt
  /\ sent st'
     = sent st
       ++ [SessionSummarize (workerUrl "/api/sessions/summarize") sessionId last;
           SessionComplete (workerUrl "/api/sessions/complete") sessionId]
  /\ sessionLastSummarized st'
     = match fst (sendSessionSummarize host sessionId last st) with
       | inr _ => <[sessionId := last]> (sessionLastSummarized st)
       | inl _ => sessionLastSummarized st
       end
  /\ same_caches (set_sessionLastSummarized (sessionLastSummarized st') st) st'.
Proof.
  intros Hsid Hlast Htext Hnew. cbv zeta.
  destruct (onSessionIdle host sessionId st) as [res st'] eqn:Hrun.
  unfold onSessionIdle in Hrun. rewrite Hsid in Hrun. cbn [negb] in Hrun.
  repeat (rewrite pbind_pgets in Hrun; cbv beta in Hrun).
  rewrite Hlast, Htext in Hrun.
  rewrite bool_decide_eq_false_2 in Hrun by congruence. cbn [negb andb] in Hrun.
  unfold sendSessionSummarize, sendSessionComplete in *.
  set (summarize := SessionSummarize _ _ _) in *.
  set (complete := SessionComplete _ _) in *.
  unfold pbind at 1 in Hrun. unfold failOpen at 1 in Hrun.
  unfold pbind at 1 in Hrun.
  destruct (fetchJson_world summarize st)
    as [(Ht1 & Hp1 & Hr1 & Ha1 & Hs1 & Hi1) Hsent1].
  destruct (fetchJson host summarize st) as [[e|[]] st1]; cbn [fst snd] in *.
  - rewrite failOpen_fetchJson_world in Hrun.
    destruct (fetchJson_world complete st1)
      as [(Ht2 & Hp2 & Hr2 & Ha2 & Hs2 & Hi2) Hsent2].
    injection Hrun as <- <-.
    rewrite Hsent2, Hsent1, <- app_assoc.
    repeat split; cbn; congruence.
  - unfold pmodify in Hrun. rewrite failOpen_fetchJson_world in Hrun.
    match type of Hrun with context [fetchJson host complete ?s] =>
      destruct (fetchJson_world complete s)
        as [(Ht2 & Hp2 & Hr2 & Ha2 & Hs2 & Hi2) Hsent2] end.
    injection Hrun as <- <-.
    cbn in Ht2, Hp2, Hr2, Ha2, Hs2, Hi2, Hsent2.
    rewrite Hsent2, Hsent1, <- app_assoc.
    repeat split; cbn; congruence.
Qed.

(** X24.  An idle session with nothing new to summarize (no assistant text,
    blank text, or the text already summarized) is only completed: the one
    request is the completion, the hook returns and no cache changes. *)
Theorem onSessionIdle_skips_summarized (sessionId : option string) st :
  truthy_opt sessionId = true ->
  has_text (sessionLastAssistant st !! sessionId) = false
  \/ sessionLastAssistant st !! sessionId = sessionLastSummarized st !! sessionId ->
  let st' := snd (onSessionIdle host sessionId st) in
  fst (onSessionIdle host sessionId st) = inr tt
  /\ sent st'
     = sent st ++ [SessionComplete (workerUrl "/api/sessions/complete") sessionId]
  /\ same_caches st st'.
Proof.
  intros Hsid Hskip. cbv zeta.
  unfold onSessionIdle. rewrite Hsid. cbn [negb].
  repeat (rewrite pbind_pgets; cbv beta).
  assert (Hnone :
            match sessionLastAssistant st !! sessionId with
            | Some last =>
                if has_text (sessionLastAssistant st !! sessionId)
                   && negb (bool_decide (sessionLastAssistant st !! sessionId
                                         = sessionLastSummarized st !! sessionId))
                then failOpen
                       (pbind (sendSessionSummarize host sessionId last) (fun _ =>
                        pmodify (fun st =>
                          set_sessionLastSummarized
                            (<[sessionId := last]> (sessionLastSummarized st)) st)))
                else pret tt
            | None => pret tt
            end = pret tt).
  { destruct (sessionLastAssistant st !! sessionId) as [last|]; [|reflexivity].
    destruct Hskip as [-> | <-]; [reflexivity|].
    rewrite bool_decide_eq_true_2 by reflexivity.
    now rewrite andb_false_r. }
  rewrite Hnone. unfold pbind, pret. unfold sendSessionComplete.
  rewrite failOpen_fetchJson_world. cbn [fst snd].
  destruct (fetchJson_world
              (SessionComplete (workerUrl "/api/sessions/complete") sessionId) st)
    as [Hsame Hsent].
  split; [reflexivity|split; assumption].
Qed.

(** ** User messages *)

(** X25.  A user message that arrives before its text is announced as soon
    as the text does: the update of a user message without cached text or
    summary sends nothing, and the first text part of that message then sends
    one session-init request with the session and project noted at the update
    and the streamed text.  Afterwards neither the text nor the pending entry
    is kept, whatever the worker answered. *)
Theorem pending_user_message_is_announced (i : Info) (p : Part) (d : string) st :
  info_role i = Some "user" ->
  truthy_opt (info_id i) = true ->
  messageTextCache st !! info_id i = None ->
  info_summary i = None ->
  part_type p = Some "text" ->
  part_messageID p = info_id i ->
  has_text (Some d) = true ->
  exists st1 st2,
    onMessageUpdated host (Some i) st = (inr tt, st1)
    /\ sent st1 = sent st
    /\ onMessagePartUpdated host (Some p) (Some d) st1 = (inr tt, st2)
    /\ sent st2
       = sent st
         ++ [SessionInit (workerUrl "/api/sessions/init") (info_sessionID i)
               (getProjectName host (Some (directory host))) d]
    /\ messageTextCache st2 !! info_id i = None
    /\ pendingUserMessages st2 !! info_id i = None.
Proof.
  intros Hrole Hid Hcached Hsummary Htype Hpart Htext.
  assert (Hpos : (0 <? js_length d) = true).
  { apply Z.ltb_lt. destruct d; [discriminate Htext|].
    unfold js_length. cbn. lia. }
  destruct (onMessageUpdated host (Some i) st) as [res1 st1] eqn:Hupdated.
  unfold onMessageUpdated in Hupdated.
  rewrite Hrole, Hid, Hsummary in Hupdated.
  rewrite bool_decide_eq_true_2 in Hupdated by reflexivity.
  cbn [truthy_opt andb] in Hupdated.
  change (truthy "user") with true in Hupdated.
  unfold pbind at 1 in Hupdated. unfold pmodify at 1 in Hupdated.
  cbv beta iota in Hupdated. rewrite pbind_pgets in Hupdated.
  cbv beta zeta in Hupdated.
  cbn [messageTextCache set_messageRoleCache] in Hupdated.
  rewrite Hcached in Hupdated. unfold pmodify in Hupdated.
  injection Hupdated as <- <-.
  eexists. 
  match goal with |- exists st2, _ /\ _ /\ onMessagePartUpdated host ?part ?delta ?s = _ /\ _ =>
    destruct (onMessagePartUpdated host part delta s) as [res2 st2] eqn:Hstreamed end.
  exists st2. split; [reflexivity|]. split; [reflexivity|].
  unfold onMessagePartUpdated, updateMessageText in Hstreamed.
  rewrite Htype, Hpart, Hid, Hpos in Hstreamed.
  rewrite bool_decide_eq_true_2 in Hstreamed by reflexivity.
  cbn [negb] in Hstreamed.
  repeat (rewrite pbind_pgets in Hstreamed; cbv beta zeta in Hstreamed).
  unfold pbind at 1 in Hstreamed. unfold pmodify at 1 in Hstreamed.
  cbv beta iota in Hstreamed.
  repeat (rewrite pbind_pgets in Hstreamed; cbv beta zeta in Hstreamed).
  cbn [messageTextCache pendingUserMessages messageRoleCache
       set_messageTextCache set_pendingUserMessages set_messageRoleCache]
    in Hstreamed.
  rewrite Hcached in Hstreamed. rewrite !lookup_insert_eq in Hstreamed.
  change (or_str None "" +:+ d) with d in Hstreamed.
  rewrite Htext in Hstreamed. cbn [default pending_sessionID pending_project]
    in Hstreamed.
  rewrite bool_decide_eq_false_2 in Hstreamed by discriminate.
  cbn [andb] in Hstreamed.
  unfold failOpenFinally, sendSessionInit in Hstreamed.
  unfold pbind at 1 2 in Hstreamed.
  rewrite failOpen_fetchJson_world in Hstreamed.
  match type of Hstreamed with context [fetchJson host ?r ?s] =>
    destruct (fetchJson_world r s)
      as [(Ht & Hp & Hr & Ha & Hs & Hi) Hsent] end.
  unfold pmodify, pret in Hstreamed. injection Hstreamed as <- <-.
  cbn in Ht, Hp, Hr, Ha, Hs, Hi, Hsent.
  split; [reflexivity|]. split; [exact Hsent|].
  cbn [messageTextCache pendingUserMessages set_messageTextCache
       set_pendingUserMessages].
  now rewrite !lookup_delete_eq.
Qed.

(** ** The prompt and the tool hooks *)

(** X26.  Appending to the prompt fails open and never loses the prompt: the
    hook sends one request for the context, returns, and the text it leaves
    is the original text after some prefix; the prefix is empty when the
    request failed.  No cache changes. *)
Theorem onPromptAppend_keeps_the_prompt (text : string) st :
  exists prefix,
    fst (onPromptAppend host text st) = inr (prefix +:+ text)
    /\ (forall e, fst (fetchText host
                         (workerUrl "/api/context/inject?projects="
                          +:+ uriComponent host
                                (getProjectsParam host (Some (directory host)))) st)
                  = inl e -> prefix = "")
    /\ same_caches st (snd (onPromptAppend host text st))
    /\ exists url, sent (snd (onPromptAppend host text st)) = sent st ++ [Get url].
Proof.
  unfold onPromptAppend.
  set (url := workerUrl _ +:+ _).
  destruct (fetchText_world url st) as [Hsame Hsent].
  destruct (fetchText host url st) as [[e|body] st'] eqn:Hfetch; cbn [fst snd] in *.
  - exists "". split; [reflexivity|]. split; [reflexivity|].
    split; [assumption|now exists url].
  - destruct (truthy (js_trim body)).
    + exists (js_trim body +:+ TWO_LINE_FEEDS). rewrite append_assoc.
      split; [reflexivity|]. split; [discriminate|].
      split; [assumption|now exists url].
    + exists "". split; [reflexivity|]. split; [reflexivity|].
      split; [assumption|now exists url].
Qed.

(** X27.  The two tool hooks compose: after ["tool.execute.before"] has
    seen a call, ["tool.execute.after"] for the same call id reports the
    arguments cached then (never the metadata) as the tool input, sends
    exactly one observation, forgets the call id, and returns whatever the
    worker answers. *)
Theorem tool_hooks_round_trip (tool : Json) (callID sessionID : option string)
  (before after : option ToolOutput) st :
  let args := match before with Some o => out_args o | None => JUndefined end in
  let metadata := match after with Some o => out_metadata o | None => JUndefined end in
  let title := match after with Some o => out_title o | None => JUndefined end in
  let result := match after with Some o => out_output o | None => JUndefined end in
  exists st1 st2,
    toolExecuteBefore callID before st = (inr tt, st1)
    /\ toolExecuteAfter host tool callID sessionID after st1 = (inr tt, st2)
    /\ sent st2
       = sent st
         ++ [Observation (workerUrl "/api/sessions/observations") sessionID
               (normalizeToolName tool)
               (parseToolInput host (nullish_or args (JObj [])))
               (json_or title (JStr (normalizeToolName tool)))
               (serializeToolOutput host (json_or result (JStr "")))
               (nullish_or metadata (JObj [])) (directory host)]
    /\ toolInputCache st2 = delete callID (toolInputCache st)
    /\ same_caches (set_toolInputCache (toolInputCache st2) st) st2.
Proof.
  cbv zeta.
  exists (snd (toolExecuteBefore callID before st)).
  destruct (toolExecuteAfter host tool callID sessionID after
              (snd (toolExecuteBefore callID before st)))
    as [res2 st2] eqn:Hafter.
  exists st2. split; [reflexivity|].
  cbn [toolExecuteBefore pmodify snd] in Hafter.
  unfold toolExecuteAfter in Hafter. rewrite pbind_pgets in Hafter.
  cbv beta in Hafter. cbn [toolInputCache set_toolInputCache] in Hafter.
  rewrite lookup_insert_eq in Hafter.
  unfold pbind at 1 in Hafter. unfold pmodify at 1 in Hafter.
  cbv beta iota in Hafter. cbn [default] in Hafter.
  assert (Hargs : forall a, nullish_or (nullish_or (nullish_or a (JObj []))
                              match after with
                              | Some o => out_metadata o
                              | None => JUndefined
                              end) (JObj [])
                            = nullish_or a (JObj [])) by (now intros []).
  unfold id in Hafter. rewrite Hargs in Hafter.
  cbn [toolInputCache set_toolInputCache] in Hafter.
  rewrite delete_insert_eq in Hafter.
  rewrite failOpen_fetchJson_world in Hafter.
  match type of Hafter with context [fetchJson host ?r ?s] =>
    destruct (fetchJson_world r s)
      as [(Ht & Hp & Hr & Ha & Hs & Hi) Hsent] end.
  injection Hafter as <- <-.
  cbn in Ht, Hp, Hr, Ha, Hs, Hi, Hsent.
  split; [reflexivity|]. split; [exact Hsent|]. split; [exact Hi|].
  repeat split; cbn; congruence.
Qed.

End PluginHooks.


(** * Properties of the installer *)

Section InstallerProperties.

Import Installer.

Lemma get_set_field_same key v fields :
  get_field key (set_field key v fields) = v.
Proof.
  induction fields as [|[k old] rest IH]; cbn.
  - now rewrite String.eqb_refl.
  - destruct (String.eqb k key) eqn:Hk; cbn; now rewrite Hk.
Qed.

Lemma get_set_field_other key key' v fields :
  key' <> key -> get_field key' (set_field key v fields) = get_field key' fields.
Proof.
  intros Hne. induction fields as [|[k old] rest IH]; cbn.
  - now rewrite (proj2 (String.eqb_neq key key')) by congruence.
  - destruct (String.eqb k key) eqn:Hk; cbn.
    + apply String.eqb_eq in Hk. subst k.
      now rewrite (proj2 (String.eqb_neq key key')) by congruence.
    + now rewrite IH.
Qed.

Lemma includes_push pluginPath items :
  includes pluginPath (items ++ [JStr pluginPath]) = true.
Proof.
  unfold includes. rewrite existsb_app. cbn. rewrite String.eqb_refl.
  now rewrite orb_true_r.
Qed.

Lemma register_fields_registered pluginPath fields :
  exists items,
    get_field "plugin" (register_fields pluginPath fields) = JArr items
    /\ includes pluginPath items = true.
Proof.
  unfold register_fields.
  destruct (get_field "plugin" fields) as [| | | | |items|] eqn:Hplugin; cbn [isArray negb];
    try (rewrite !get_set_field_same; cbn; rewrite !get_set_field_same;
         exists [JStr pluginPath]; split; [reflexivity|apply (includes_push _ [])]).
  rewrite Hplugin.
  destruct (includes pluginPath items) eqn:Hin; cbn [negb].
  - now exists items.
  - rewrite get_set_field_same. exists (items ++ [JStr pluginPath]).
    split; [reflexivity|apply includes_push].
Qed.

Lemma register_fields_fixed pluginPath fields items :
  get_field "plugin" fields = JArr items ->
  includes pluginPath items = true ->
  register_fields pluginPath fields = fields.
Proof.
  intros Hplugin Hin. unfold register_fields.
  rewrite Hplugin. cbn [isArray negb]. now rewrite Hplugin, Hin.
Qed.

Lemma occurrences_not_included pluginPath items :
  includes pluginPath items = false <-> occurrences pluginPath items = 0%nat.
Proof.
  induction items as [|item rest IH]; [easy|].
  destruct item as [| | | |s| |]; cbn [includes existsb occurrences orb];
    try exact IH.
  fold (includes pluginPath rest).
  destruct (String.eqb s pluginPath); cbn [orb]; [easy | exact IH].
Qed.

Lemma occurrences_push pluginPath items :
  occurrences pluginPath (items ++ [JStr pluginPath])
  = S (occurrences pluginPath items).
Proof.
  induction items as [|item rest IH].
  - cbn. now rewrite String.eqb_refl.
  - destruct item as [| | | |s| |]; cbn [app occurrences]; rewrite IH; lia.
Qed.

(** X28.  Registering the plugin is idempotent: on whatever value a run of
    the script produced, a second run produces the same value.  For a
    configuration object that does not list the path yet (it has no plugin
    array, or one without the path), the path is listed exactly once after
    the first run, and so after the second. *)
Theorem register_idempotent (pluginPath : string) (data data' : Json) :
  register pluginPath data = inr data' ->
  register pluginPath data' = inr data'
  /\ (forall fields,
        data = JObj fields ->
        (forall old, get_field "plugin" fields = JArr old ->
                     occurrences pluginPath old = 0%nat) ->
        exists fields' items,
          data' = JObj fields'
          /\ get_field "plugin" fields' = JArr items
          /\ occurrences pluginPath items = 1%nat).
Proof.
  intros Hrun. split.
  - destruct data as [| | | | |items|fields]; cbn in Hrun; try discriminate Hrun;
      injection Hrun as <-; [reflexivity|].
    cbn. do 2 f_equal.
    destruct (register_fields_registered pluginPath fields)
      as (items & Hplugin & Hin).
    exact (register_fields_fixed _ _ _ Hplugin Hin).
  - intros fields -> Hfresh. cbn in Hrun. injection Hrun as <-.
    exists (register_fields pluginPath fields).
    unfold register_fields.
    destruct (get_field "plugin" fields) as [| | | | |old|] eqn:Hplugin;
      cbn [isArray negb];
      try (rewrite !get_set_field_same; cbn [includes existsb negb];
           rewrite !get_set_field_same;
           exists [JStr pluginPath]; split; [reflexivity|];
           split; [reflexivity|]; cbn; now rewrite String.eqb_refl).
    rewrite Hplugin.
    rewrite (proj2 (occurrences_not_included pluginPath old) (Hfresh old eq_refl)).
    cbn [negb]. rewrite get_set_field_same.
    exists (old ++ [JStr pluginPath]). split; [reflexivity|].
    split; [reflexivity|].
    now rewrite occurrences_push, (Hfresh old eq_refl).
Qed.

(** X29.  On a configuration object the installer ends with the plugin
    listed; every other setting keeps its value, and the plugins listed
    before stay listed, in their order, with at most the new path after
    them. *)
Theorem register_fields_keeps_settings (pluginPath : string)
  (fields : list (string * Json)) :
  (exists items,
     get_field "plugin" (register_fields pluginPath fields) = JArr items
     /\ includes pluginPath items = true
     /\ forall old, get_field "plugin" fields = JArr old ->
          items = old \/ items = old ++ [JStr pluginPath])
  /\ forall key, key <> "plugin" ->
       get_field key (register_fields pluginPath fields) = get_field key fields.
Proof.
  split.
  - destruct (register_fields_registered pluginPath fields) as (items & Hplugin & Hin).
    exists items. repeat split; try assumption.
    intros old Hold. revert Hplugin. unfold register_fields.
    rewrite Hold. cbn [isArray negb]. rewrite Hold.
    destruct (includes pluginPath old); cbn [negb].
    + rewrite Hold. intros [= <-]. now left.
    + rewrite get_set_field_same. intros [= <-]. now right.
  - intros key Hkey. unfold register_fields.
    set (fields1 := if negb (isArray (get_field "plugin" fields))
                    then set_field "plugin" (JArr []) fields else fields).
    assert (H1 : get_field key fields1 = get_field key fields).
    { unfold fields1. destruct (negb _); [|reflexivity].
      now apply get_set_field_other. }
    destruct (get_field "plugin" fields1) as [| | | | |items|]; try exact H1.
    destruct (negb (includes pluginPath items)); [|exact H1].
    now rewrite get_set_field_other.
Qed.

(** X30.  Without a configuration file, or with a blank one, the installer
    writes the configuration whose only setting is the plugin list with
    this plugin; [JSON.parse] is not consulted. *)
Theorem install_without_configuration (JSON_parse : string -> JsError + Json)
  (file : option string) (pluginPath : string) :
  (forall content, file = Some content -> js_trim content = "") ->
  install JSON_parse file pluginPath
  = inr (JObj [("plugin", JArr [JStr pluginPath])]).
Proof.
  intros Hblank. unfold install, load.
  destruct file as [content|]; [|reflexivity].
  now rewrite (Hblank content eq_refl).
Qed.

End InstallerProperties.

(** * The further theorems on concrete runs *)

(** ** The agent *)

Lemma truncateHistory_idempotent_witness :
  truncateHistory 1 Runs.w_long_truncated = (inr 1%nat, Runs.w_long_truncated).
Proof.
  assert (Href : fst (truncateHistory 0 w_long) = inr 1%nat)
    by (vm_compute; reflexivity).
  assert (Hrun : truncateHistory 0 w_long = (inr 1%nat, Runs.w_long_truncated)).
  { unfold Runs.w_long_truncated. rewrite <- Href. apply surjective_pairing. }
  exact (truncateHistory_idempotent 0 1 w_long Runs.w_long_truncated Hrun).
Defined.

Lemma query_provider_error_witness :
  fst (queryAzureOpenAIMultiTurn (env []) 0 "key" "https://x.openai.azure.com/" "gpt"
         DEFAULT_AZURE_API_VERSION Runs.w_throttled)
  = inl (Error "Azure OpenAI API error: 429 - slow down").
Proof.
  apply (query_provider_error (env []) 0 "key" "https://x.openai.azure.com/" "gpt"
           DEFAULT_AZURE_API_VERSION Runs.w_throttled
           (Runs.response_of Runs.throttled)
           (mkResponse None None (Some (mkApiError (Some "slow down") (Some "429"))))
           (mkApiError (Some "slow down") (Some "429")));
    [intros req; reflexivity | reflexivity | reflexivity | reflexivity].
Defined.

Lemma query_returns_content_and_usage_witness :
  fst (queryAzureOpenAIMultiTurn (env []) 0 "key" "https://x.openai.azure.com/" "gpt"
         DEFAULT_AZURE_API_VERSION (w_usage 100))
  = inr (mkResult "noted" (Some 100)).
Proof.
  apply (query_returns_content_and_usage (env []) 0 "key"
           "https://x.openai.azure.com/" "gpt" DEFAULT_AZURE_API_VERSION (w_usage 100)
           (Runs.response_of (reply "noted" (Some 100)))
           (mkResponse
              (Some [mkChoice (Some (mkChoiceMessage (Some "assistant") (Some "noted")))
                       (Some "stop")])
              (Some (mkUsage None None (Some 100))) None)
           "noted");
    [intros req; reflexivity | reflexivity | reflexivity | reflexivity
    | reflexivity | reflexivity].
Defined.

Lemma query_propagates_fetch_rejection_witness :
  fst (queryAzureOpenAIMultiTurn (env []) 0 "key" "https://x.openai.azure.com/" "gpt"
         DEFAULT_AZURE_API_VERSION w_aborted)
  = inl error_aborted.
Proof.
  apply (query_propagates_fetch_rejection (env []) 0 "key"
           "https://x.openai.azure.com/" "gpt" DEFAULT_AZURE_API_VERSION w_aborted
           error_aborted).
  intros req. reflexivity.
Defined.

Lemma observation_without_handle_fails_witness :
  exists w',
    loopBody (env []) cfg_ok tt (observed 7) None Runs.w_unbound
    = (inl (Error CANNOT_PROCESS_OBSERVATIONS), w')
    /\ requests w' = []
    /\ processingMessageIds (session w') = [7].
Proof.
  destruct (observation_without_handle_fails (env []) cfg_ok tt (observed 7) None
              Runs.w_unbound eq_refl eq_refl)
    as (w' & Hrun & _ & _ & _ & Hrequests & Hids & _).
  exists w'. split; [exact Hrun|]. split; [exact Hrequests | exact Hids].
Defined.


Lemma recordReply_without_usage_witness :
  exists w',
    recordReply (mkResult "noted" None) Runs.w_no_usage = (inr 0, w')
    /\ cumulativeInputTokens (session w') = f64_of_Z 10
    /\ cumulativeOutputTokens (session w') = f64_of_Z 20.
Proof.
  destruct (recordReply_without_usage (mkResult "noted" None) Runs.w_no_usage
              eq_refl eq_refl) as (w' & Hrun & _ & _ & _ & Hin & Hout).
  exists w'. split; [exact Hrun|].
  split; [apply Hin | apply Hout]; vm_compute; discriminate.
Defined.

Lemma answered_item_appends_prompt_and_reply_witness :
  exists w3,
    loopBody (env []) cfg_ok tt (observed 7) None (w_usage 100)
    = (bind (processAgentResponse (env []) "noted" 100 None AGENT_NAME (Some "/work"))
         (fun _ => ret (Some "/work"))) w3
    /\ elements 0 w3 = [mkMsg user "observed:Read"; mkMsg assistant "noted"].
Proof.
  assert (Harray : (conversationHistory (session (w_usage 100))
                    < length (arrays (w_usage 100)))%nat) by (cbn; lia).
  assert (Hprepared : prepareItem (env []) tt (observed 7) None (w_usage 100)
                      = (inr ("observed:Read", None, Some "/work"),
                         w_usage_prepared 100)) by (vm_compute; reflexivity).
  assert (Hanswered : askBackend (env []) cfg_ok "observed:Read" (w_usage_prepared 100)
                      = (inr (mkResult "noted" (Some 100)), w_usage_answered 100))
    by (vm_compute; reflexivity).
  exact (answered_item_appends_prompt_and_reply (env []) cfg_ok tt (observed 7) None
           (w_usage 100) "observed:Read" None (Some "/work") (w_usage_prepared 100)
           (mkResult "noted" (Some 100)) (w_usage_answered 100)
           Harray Hprepared Hanswered eq_refl).
Defined.

Lemma startSession_rethrows_without_fallback_witness :
  startSession (env []) agent_alone w_500 = (inl error_500, Runs.w_500_thrown).
Proof.
  apply (startSession_rethrows_without_fallback (env []) agent_alone w_500 error_500
           Runs.w_500_thrown);
    [vm_compute; reflexivity | reflexivity | left; reflexivity].
Defined.

(** ** The plugin and the installer *)

Lemma truncate_bounded_and_idempotent_witness :
  exists r,
    Plugin.truncate (JStr "abcdefgh") 5 = JStr r
    /\ r = "abcde..."
    /\ Plugin.truncate (JStr r) 5 = JStr r.
Proof.
  destruct (truncate_bounded_and_idempotent "abcdefgh" 5 ltac:(lia))
    as (r & Hr & _ & Hlong & Hagain).
  exists r. split; [exact Hr|]. split; [|exact Hagain].
  apply Hlong. vm_compute. reflexivity.
Defined.

Lemma updateMessageText_accumulates_witness :
  exists st1 st2,
    Plugin.updateMessageText (Some PluginRuns.text_part) (Some "Hel")
      (fresh (Net:=PluginRuns.Answers) [])
    = (inr tt, st1)
    /\ Plugin.updateMessageText (Some PluginRuns.text_part) (Some "lo") st1
       = (inr tt, st2)
    /\ Plugin.messageTextCache st2 !! Some "msg" = Some "Hello".
Proof.
  destruct (updateMessageText_accumulates (Net:=PluginRuns.Answers)
              PluginRuns.text_part "Hel" "lo" (fresh [])
              eq_refl eq_refl ltac:(discriminate) ltac:(discriminate))
    as (st1 & st2 & H1 & H2 & Hcache & _).
  exists st1, st2. split; [exact H1|]. split; [exact H2|].
  rewrite Hcache. reflexivity.
Defined.

Lemma event_fails_open_witness :
  exists ev',
    fst (Plugin.event PluginRuns.host (Plugin.SessionIdle (Some "ses"))
           PluginRuns.st_idle)
    = inr ev'.
Proof.
  refine (proj1 (event_fails_open PluginRuns.host (Plugin.SessionIdle (Some "ses"))
                   PluginRuns.st_idle _)).
  intros k Hk. vm_compute in Hk. now destruct Hk.
Defined.

Lemma onSessionIdle_summarizes_then_completes_witness :
  Plugin.sent (snd (Plugin.onSessionIdle PluginRuns.host (Some "ses") PluginRuns.st_idle))
  = [Plugin.SessionSummarize (Plugin.workerUrl "/api/sessions/summarize")
       (Some "ses") "done.";
     Plugin.SessionComplete (Plugin.workerUrl "/api/sessions/complete") (Some "ses")].
Proof.
  refine (proj1 (proj2 (onSessionIdle_summarizes_then_completes PluginRuns.host
                          (Some "ses") "done." PluginRuns.st_idle _ _ _ _)));
    [reflexivity | vm_compute; reflexivity | reflexivity | vm_compute; discriminate].
Defined.

Lemma onSessionIdle_skips_summarized_witness :
  Plugin.sent (snd (Plugin.onSessionIdle PluginRuns.host (Some "ses")
                      PluginRuns.st_summarized))
  = [Plugin.SessionComplete (Plugin.workerUrl "/api/sessions/complete") (Some "ses")].
Proof.
  refine (proj1 (proj2 (onSessionIdle_skips_summarized PluginRuns.host
                          (Some "ses") PluginRuns.st_summarized _ _)));
    [reflexivity | right; vm_compute; reflexivity].
Defined.

Lemma pending_user_message_is_announced_witness :
  exists st1 st2,
    Plugin.onMessageUpdated PluginRuns.host (Some PluginRuns.user_message)
      (fresh [PluginRuns.refused])
    = (inr tt, st1)
    /\ Plugin.onMessagePartUpdated PluginRuns.host (Some PluginRuns.text_part)
         (Some "fix the build") st1
       = (inr tt, st2)
    /\ Plugin.sent st2
       = [Plugin.SessionInit (Plugin.workerUrl "/api/sessions/init") (Some "ses")
            "proj" "fix the build"]
    /\ Plugin.pendingUserMessages st2 !! Some "msg" = None.
Proof.
  destruct (pending_user_message_is_announced PluginRuns.host PluginRuns.user_message
              PluginRuns.text_part "fix the build" (fresh [PluginRuns.refused])
              eq_refl eq_refl eq_refl eq_refl eq_refl eq_refl eq_refl)
    as (st1 & st2 & H1 & _ & H2 & Hsent & _ & Hpending).
  exists st1, st2. split; [exact H1|]. split; [exact H2|].
  split; [exact Hsent | exact Hpending].
Defined.

Lemma register_idempotent_witness :
  Installer.register "/plugins/claude-mem.js"
    (JObj [("theme", JStr "dark");
           ("plugin", JArr [JStr "other.js"; JStr "/plugins/claude-mem.js"])])
  = inr (JObj [("theme", JStr "dark");
               ("plugin", JArr [JStr "other.js"; JStr "/plugins/claude-mem.js"])]).
Proof.
  apply (register_idempotent "/plugins/claude-mem.js"
           (JObj [("theme", JStr "dark"); ("plugin", JArr [JStr "other.js"])])).
  reflexivity.
Defined.

(** The script is idempotent, but it does not remove what is listed twice,
    and a configuration that is an array is written back as it was. *)
Example register_keeps_duplicates :
  Installer.register "p.js" (JObj [("plugin", JArr [JStr "p.js"; JStr "p.js"])])
  = inr (JObj [("plugin", JArr [JStr "p.js"; JStr "p.js"])])
  /\ Installer.register "p.js" (JArr [JStr "x"]) = inr (JArr [JStr "x"]).
Proof. split; reflexivity. Qed.

Lemma install_without_configuration_witness :
  Installer.install (fun _ => inl (Error "not consulted")) (Some "  ")
    "/plugins/claude-mem.js"
  = inr (JObj [("plugin", JArr [JStr "/plugins/claude-mem.js"])]).
Proof.
  apply install_without_configuration.
  intros content [= <-]. reflexivity.
Defined.
